(** * imgx: ingestion and classification pipeline

  A shallow embedding of the decision logic of the imgx command-line
  client (input.ts, output.ts and the record types of types.ts) together
  with the properties its specification states about it.

  Conventions of the embedding:
  - a [Uint8Array]/[ArrayBuffer] is a [list byte]; reading past the end
    gives [None] (JavaScript's [undefined]);
  - a JavaScript string is a [string]; all the string operations the
    program uses ([split] on an ASCII separator, [replace] of an ASCII
    pattern, [startsWith], the regular expression [/\.[^.]+$/]) act the
    same way on UTF-8 bytes as on UTF-16 code units;
  - an optional field [f?: T] is an [option T];
  - the process state the program touches (files, standard streams, the
    clock) is a record [World], threaded through a small monad whose
    results distinguish a normal return, [process.exit] and an uncaught
    exception. *)

From Stdlib Require Import ZArith NArith Lia List String Ascii.
From Stdlib Require Import Strings.Byte.
From stdpp Require Import gmap strings list pretty.

Open Scope string_scope.

(* ===================================================================== *)
(** ** JavaScript string and typed-array primitives used by the program *)
(* ===================================================================== *)

Module JS.

(** [bytes[i] === n] on a [Uint8Array]: false past the end. *)
Definition byte_is (bytes : list byte) (i : nat) (n : N) : bool :=
  match bytes !! i with
  | Some b => N.eqb (Byte.to_N b) n
  | None => false
  end.

(** [s.startsWith(p)] *)
Definition startsWith (s p : string) : bool := String.prefix p s.

(** [s.split(sep)] for a one-character separator: never empty. *)
Fixpoint split (sep : ascii) (s : string) : list string :=
  match s with
  | EmptyString => [EmptyString]
  | String c r =>
      if Ascii.eqb c sep then EmptyString :: split sep r
      else match split sep r with
           | h :: t => String c h :: t
           | [] => [String c EmptyString]
           end
  end.

(** Removal of the first [n] characters. *)
Fixpoint skip (n : nat) (s : string) : string :=
  match n, s with
  | O, _ => s
  | S _, EmptyString => EmptyString
  | S k, String _ r => skip k r
  end.

(** [s.replace(pat, rep)] with a string pattern: the first (leftmost)
    occurrence only. *)
Fixpoint replace (pat rep s : string) : string :=
  if String.prefix pat s then rep ++ skip (String.length pat) s
  else match s with
       | EmptyString => EmptyString
       | String c r => String c (replace pat rep r)
       end.

(** One character of [toLowerCase]: A-Z become a-z.  Characters outside
    ASCII are left alone; none of them lower-cases to a letter that
    occurs in the extension table of input.ts, so lookups agree. *)
Definition lower_char (c : ascii) : ascii :=
  let n := nat_of_ascii c in
  if (65 <=? n)%nat && (n <=? 90)%nat then ascii_of_nat (n + 32) else c.

Fixpoint toLowerCase (s : string) : string :=
  match s with
  | EmptyString => EmptyString
  | String c r => String (lower_char c) (toLowerCase r)
  end.

(** [true] when the character [c] does not occur in [s]. *)
Fixpoint lacks (c : ascii) (s : string) : bool :=
  match s with
  | EmptyString => true
  | String d r => negb (Ascii.eqb d c) && lacks c r
  end.

(** [true] when [pat] occurs somewhere in [s]: [s.includes(pat)]. *)
Fixpoint includes (pat s : string) : bool :=
  String.prefix pat s
  || match s with
     | EmptyString => false
     | String _ r => includes pat r
     end.

(** [true] when no character of [s] is a dot: [s] matches [[^.]*]. *)
Definition no_dot (s : string) : bool := lacks "." s.

(** [s.match(/\.[^.]+$/)?.[0]]: the regular-expression engine tries the
    start positions from left to right; at a position the pattern
    matches when the character is a dot and the rest of the string is
    non-empty and free of dots. *)
Fixpoint match_dot_ext (s : string) : option string :=
  match s with
  | EmptyString => None
  | String c r =>
      if Ascii.eqb c "." && negb (String.eqb r "") && no_dot r
      then Some s
      else match_dot_ext r
  end.

(** White space and line terminators of one byte: U+0009 to U+000D and
    U+0020. *)
Definition is_space (c : ascii) : bool :=
  let n := nat_of_ascii c in
  ((9 <=? n)%nat && (n <=? 13)%nat) || (n =? 32)%nat.

(** U+00A0, in UTF-8 [C2 A0]. *)
Definition is_space2 (c1 c2 : ascii) : bool :=
  (nat_of_ascii c1 =? 194)%nat && (nat_of_ascii c2 =? 160)%nat.

(** The white space and line terminators of three bytes in UTF-8:
    U+1680 [E1 9A 80], U+2000 to U+200A [E2 80 80] to [E2 80 8A],
    U+2028, U+2029 [E2 80 A8], [E2 80 A9], U+202F [E2 80 AF],
    U+205F [E2 81 9F], U+3000 [E3 80 80] and U+FEFF [EF BB BF]. *)
Definition is_space3 (c1 c2 c3 : ascii) : bool :=
  let a := nat_of_ascii c1 in
  let b := nat_of_ascii c2 in
  let c := nat_of_ascii c3 in
  ((a =? 225) && (b =? 154) && (c =? 128))%nat
  || ((a =? 226) && (b =? 128)
      && (((128 <=? c) && (c <=? 138)) || (c =? 168) || (c =? 169)
          || (c =? 175)))%nat
  || ((a =? 226) && (b =? 129) && (c =? 159))%nat
  || ((a =? 227) && (b =? 128) && (c =? 128))%nat
  || ((a =? 239) && (b =? 187) && (c =? 191))%nat.

(** Removal of the white space at the start of a string. *)
Fixpoint trimStart (s : string) : string :=
  match s with
  | EmptyString => EmptyString
  | String c1 r1 =>
      if is_space c1 then trimStart r1
      else match r1 with
           | EmptyString => s
           | String c2 r2 =>
               if is_space2 c1 c2 then trimStart r2
               else match r2 with
                    | EmptyString => s
                    | String c3 r3 =>
                        if is_space3 c1 c2 c3 then trimStart r3 else s
                    end
           end
  end.

(** [true] when the string is made of white space only. *)
Fixpoint all_space (s : string) : bool :=
  match s with
  | EmptyString => true
  | String c1 r1 =>
      if is_space c1 then all_space r1
      else match r1 with
           | EmptyString => false
           | String c2 r2 =>
               if is_space2 c1 c2 then all_space r2
               else match r2 with
                    | EmptyString => false
                    | String c3 r3 =>
                        if is_space3 c1 c2 c3 then all_space r3 else false
                    end
           end
  end.

(** Removal of the white space at the end of a string: the longest
    suffix made of white space only.  No white-space character starts
    with a continuation byte, so the suffix starts at a character. *)
Fixpoint trimEnd (s : string) : string :=
  match s with
  | EmptyString => EmptyString
  | String c r => if all_space s then EmptyString else String c (trimEnd r)
  end.

(** [s.trim()]: every character of the classes WhiteSpace and
    LineTerminator is removed at both ends. *)
Definition trim (s : string) : string := trimEnd (trimStart s).

(** Truthiness of an optional string: present and not empty. *)
Definition truthy (o : option string) : bool :=
  match o with
  | Some s => negb (String.eqb s "")
  | None => false
  end.

(** The new-line character, for template literals. *)
Definition nl : string := String (ascii_of_nat 10) EmptyString.

End JS.

(* ===================================================================== *)
(** ** input.ts, part 1: the media type sniffer and the extension table *)
(* ===================================================================== *)

Module Sniffer.

(** [detectMimeFromBytes] *)
Definition detectMimeFromBytes (bytes : list byte) : option string :=
  if JS.byte_is bytes 0 0x89 && JS.byte_is bytes 1 0x50
     && JS.byte_is bytes 2 0x4e && JS.byte_is bytes 3 0x47
  then Some "image/png"
  else if JS.byte_is bytes 0 0xff && JS.byte_is bytes 1 0xd8
          && JS.byte_is bytes 2 0xff
  then Some "image/jpeg"
  else if JS.byte_is bytes 0 0x47 && JS.byte_is bytes 1 0x49
          && JS.byte_is bytes 2 0x46 && JS.byte_is bytes 3 0x38
  then Some "image/gif"
  else if JS.byte_is bytes 0 0x52 && JS.byte_is bytes 1 0x49
          && JS.byte_is bytes 2 0x46 && JS.byte_is bytes 3 0x46
          && JS.byte_is bytes 8 0x57 && JS.byte_is bytes 9 0x45
          && JS.byte_is bytes 10 0x42 && JS.byte_is bytes 11 0x50
  then Some "image/webp"
  else if JS.byte_is bytes 0 0x42 && JS.byte_is bytes 1 0x4d
  then Some "image/bmp"
  else None.

(** The signatures as the specification lists them: a run of bytes
    found at an offset of the buffer. *)
Definition has_at (off : nat) (sig : list byte) (bytes : list byte) : Prop :=
  take (length sig) (drop off bytes) = sig.

#[global] Instance byte_eq_dec : EqDecision byte := Byte.byte_eq_dec.

#[global] Instance has_at_dec off sig bytes : Decision (has_at off sig bytes).
Proof. unfold has_at. apply _. Defined.

Definition sig_png : list byte := [x89; x50; x4e; x47].
Definition sig_jpeg : list byte := [xff; xd8; xff].
Definition sig_gif : list byte := [x47; x49; x46; x38].
Definition sig_riff : list byte := [x52; x49; x46; x46].
Definition sig_webp : list byte := [x57; x45; x42; x50].
Definition sig_bmp : list byte := [x42; x4d].

Definition is_png bytes := has_at 0 sig_png bytes.
Definition is_jpeg bytes := has_at 0 sig_jpeg bytes.
Definition is_gif bytes := has_at 0 sig_gif bytes.
Definition is_webp bytes := has_at 0 sig_riff bytes /\ has_at 8 sig_webp bytes.
Definition is_bmp bytes := has_at 0 sig_bmp bytes.

#[global] Instance is_png_dec bytes : Decision (is_png bytes).
Proof. unfold is_png. apply _. Defined.
#[global] Instance is_jpeg_dec bytes : Decision (is_jpeg bytes).
Proof. unfold is_jpeg. apply _. Defined.
#[global] Instance is_gif_dec bytes : Decision (is_gif bytes).
Proof. unfold is_gif. apply _. Defined.
#[global] Instance is_webp_dec bytes : Decision (is_webp bytes).
Proof. unfold is_webp. apply _. Defined.
#[global] Instance is_bmp_dec bytes : Decision (is_bmp bytes).
Proof. unfold is_bmp. apply _. Defined.

End Sniffer.

(* ===================================================================== *)
(** ** The runtime's base64 codec

    [Buffer.from(buf).toString("base64")] and [Buffer.from(s, "base64")]
    belong to the JavaScript runtime, not to the repository.  The encoder
    is the one of RFC 4648: the standard alphabet with padding.  On
    well-formed text (groups of four characters of the standard alphabet,
    the last one padded or not) the runtime's decoder is the decoding of
    RFC 4648, [decode] below; what it makes of any other string is left
    to the environment (see [Output.buffer_from]). *)
(* ===================================================================== *)

Module Base64.

Definition alphabet : string :=
  "ABCDEFGHIJKLMNOPQRSTUVWXYZabcdefghijklmnopqrstuvwxyz0123456789+/".

Definition enc_char (n : N) : ascii :=
  match String.get (N.to_nat n) alphabet with
  | Some c => c
  | None => "="%char
  end.

Definition byte_of_N (n : N) : byte :=
  match Byte.of_N (n mod 256) with
  | Some b => b
  | None => x00
  end.

(** [toString("base64")] *)
Fixpoint encode (bs : list byte) : string :=
  match bs with
  | [] => EmptyString
  | [a] =>
      let a := Byte.to_N a in
      String (enc_char (a / 4)) (String (enc_char ((a mod 4) * 16)) "==")
  | [a; b] =>
      let a := Byte.to_N a in
      let b := Byte.to_N b in
      String (enc_char (a / 4))
        (String (enc_char ((a mod 4) * 16 + b / 16))
           (String (enc_char ((b mod 16) * 4)) "="))
  | a :: b :: c :: rest =>
      let a := Byte.to_N a in
      let b := Byte.to_N b in
      let c := Byte.to_N c in
      String (enc_char (a / 4))
        (String (enc_char ((a mod 4) * 16 + b / 16))
           (String (enc_char ((b mod 16) * 4 + c / 64))
              (String (enc_char (c mod 64)) (encode rest))))
  end%N.

Definition dec_char (c : ascii) : option N :=
  let n := N_of_ascii c in
  (if (65 <=? n) && (n <=? 90) then Some (n - 65)
   else if (97 <=? n) && (n <=? 122) then Some (n - 71)
   else if (48 <=? n) && (n <=? 57) then Some (n + 4)
   else if (n =? 43) || (n =? 45) then Some 62
   else if (n =? 47) || (n =? 95) then Some 63
   else None)%N.

(** The six-bit values of the characters before the first [=]. *)
Fixpoint sextets (s : string) : list N :=
  match s with
  | EmptyString => []
  | String c r =>
      if Ascii.eqb c "=" then []
      else match dec_char c with
           | Some n => n :: sextets r
           | None => sextets r
           end
  end.

Fixpoint bytes_of_sextets (l : list N) : list byte :=
  match l with
  | a :: b :: c :: d :: rest =>
      byte_of_N (a * 4 + b / 16)
        :: byte_of_N ((b mod 16) * 16 + c / 4)
        :: byte_of_N ((c mod 4) * 64 + d)
        :: bytes_of_sextets rest
  | [a; b; c] =>
      [byte_of_N (a * 4 + b / 16); byte_of_N ((b mod 16) * 16 + c / 4)]
  | [a; b] => [byte_of_N (a * 4 + b / 16)]
  | _ => []
  end%N.

(** The decoding of RFC 4648; it is used as [Buffer.from(s, "base64")]
    on well-formed text only. *)
Definition decode (s : string) : list byte := bytes_of_sextets (sextets s).

(** A character of the standard alphabet. *)
Definition std_char (c : ascii) : bool :=
  let n := N_of_ascii c in
  (((65 <=? n) && (n <=? 90)) || ((97 <=? n) && (n <=? 122))
   || ((48 <=? n) && (n <=? 57)) || (n =? 43) || (n =? 47))%N.

(** Well-formed base64 text: groups of four characters of the standard
    alphabet, the last group possibly ending in one or two padding
    characters. *)
Fixpoint well_formed (s : string) : bool :=
  match s with
  | EmptyString => true
  | String a (String b (String c (String d r))) =>
      std_char a && std_char b
      && match r with
         | EmptyString =>
             (std_char c && (std_char d || Ascii.eqb d "="))
             || (Ascii.eqb c "=" && Ascii.eqb d "=")
         | _ => std_char c && std_char d && well_formed r
         end
  | _ => false
  end.

End Base64.

(* ===================================================================== *)
(** ** types.ts and the service's response types *)
(* ===================================================================== *)

(** The response shapes of the content-generation service that the
    program reads (a type declaration of the service's client library). *)
Module Genai.

Record ExecutableCode := {
  code : option string;
  language : option string;
}.

Record CodeExecutionResult := {
  outcome : option string;
  output : option string;
}.

Record Blob := {
  data : option string;
  mimeType : option string;
}.

Record Part := {
  thought : option bool;
  text : option string;
  executableCode : option ExecutableCode;
  codeExecutionResult : option CodeExecutionResult;
  inlineData : option Blob;
}.

Record Content := { parts : option (list Part) }.

Record Candidate := { content : option Content }.

Record GenerateContentResponse := { candidates : option (list Candidate) }.

Definition emptyPart : Part :=
  {| thought := None; text := None; executableCode := None;
     codeExecutionResult := None; inlineData := None |}.

End Genai.

Module Types.

(** [ImgxOptions]; [timeout], a floating-point number that only the
    transport configuration reads, is left out. *)
Record ImgxOptions := {
  verbose : bool;
  code : bool;
  images : string;
  json : bool;
  quiet : bool;
  model : string;
  system : option string;
}.

Inductive PartType := text | thought | code_ | result | image.

(** [ParsedPart] *)
Record ParsedPart := {
  type : PartType;
  content : string;
  mimeType : option string;
  data : option string;
}.

#[global] Instance PartType_eq_dec : EqDecision PartType.
Proof. solve_decision. Defined.

Definition PartType_eqb (a b : PartType) : bool :=
  match a, b with
  | text, text | thought, thought | code_, code_
  | result, result | image, image => true
  | _, _ => false
  end.

(** The string each tag stands for in the source. *)
Definition PartType_name (t : PartType) : string :=
  match t with
  | text => "text"
  | thought => "thought"
  | code_ => "code"
  | result => "result"
  | image => "image"
  end.

Definition EXIT_SUCCESS : Z := 0.
Definition EXIT_API_ERROR : Z := 1.
Definition EXIT_INPUT_ERROR : Z := 2.

End Types.

(* ===================================================================== *)
(** ** The process state and the effects of the program *)
(* ===================================================================== *)

Module Runtime.

Record World := {
  files : gmap string (list byte);   (* regular files, by path *)
  dirs : gset string;                (* directories *)
  stdin : list byte;                 (* what standard input holds *)
  stdout : list string;              (* console.log calls, oldest first *)
  stderr : list string;              (* console.error calls, oldest first *)
  ticks : nat;                       (* Date.now() calls made so far *)
}.

(** What [fetch] gives for a URL. *)
Record Response := {
  ok : bool;
  status : Z;
  body : list byte;
  contentTypeHeader : option string;
}.

Inductive FetchOutcome :=
| FetchRejected (message : string)
| FetchResolved (r : Response).

(** What the spawned clipboard helper did: its exit code, its standard
    error, and the file it left at the temporary path, if any. *)
Record SpawnOutcome := {
  exitCode : Z;
  errText : string;
  leftFile : option (list byte);
}.

(** The collaborators outside the process. *)
Record Env := {
  clock : nat -> Z;                         (* the k-th reading of the clock *)
  path_join : string -> string -> string;   (* path.join *)
  path_resolve : string -> string;          (* path.resolve *)
  fetch : string -> FetchOutcome;
  osascript : string -> SpawnOutcome;       (* keyed by the temporary path *)
  write_error : string -> option string;    (* the error with which a write
                                               to a path is refused, if any *)
  mkdir_error : string -> option string;    (* the error with which the
                                               creation of a directory is
                                               refused, if any *)
  base64_other : string -> list byte;       (* Buffer.from(s, "base64") on
                                               text that is not well formed *)
}.

Inductive Result (A : Type) :=
| Done (a : A)
| Exited (exit_code : Z)
| Thrown (message : string).
Arguments Done {A} a.
Arguments Exited {A} exit_code.
Arguments Thrown {A} message.

Definition M (A : Type) : Type := World -> Result A * World.

Definition ret {A} (a : A) : M A := fun w => (Done a, w).

Definition bind {A B} (m : M A) (k : A -> M B) : M B :=
  fun w =>
    match m w with
    | (Done a, w') => k a w'
    | (Exited c, w') => (Exited c, w')
    | (Thrown e, w') => (Thrown e, w')
    end.

(** [process.exit(code)] *)
Definition exit {A} (c : Z) : M A := fun w => (Exited c, w).

Definition throw {A} (e : string) : M A := fun w => (Thrown e, w).

(** [try { m } catch {}] for a block whose value is not used. *)
Definition try_ignore (m : M unit) : M unit :=
  fun w =>
    match m w with
    | (Thrown _, w') => (Done tt, w')
    | r => r
    end.

(** The world after the lines [l] went to the primary output stream. *)
Definition add_stdout (l : list string) (w : World) : World :=
  {| files := files w; dirs := dirs w; stdin := stdin w;
     stdout := stdout w ++ l; stderr := stderr w; ticks := ticks w |}.

(** The world after the lines [l] went to the diagnostic stream. *)
Definition add_stderr (l : list string) (w : World) : World :=
  {| files := files w; dirs := dirs w; stdin := stdin w;
     stdout := stdout w; stderr := stderr w ++ l; ticks := ticks w |}.

Definition console_log (s : string) : M unit :=
  fun w => (Done tt, add_stdout [s] w).

Definition console_error (s : string) : M unit :=
  fun w => (Done tt, add_stderr [s] w).

(** [Date.now()] *)
Definition date_now (E : Env) : M Z :=
  fun w => (Done (clock E (ticks w)),
            {| files := files w; dirs := dirs w; stdin := stdin w;
               stdout := stdout w; stderr := stderr w;
               ticks := S (ticks w) |}).

Definition set_files (f : gmap string (list byte)) (w : World) : World :=
  {| files := f; dirs := dirs w; stdin := stdin w;
     stdout := stdout w; stderr := stderr w; ticks := ticks w |}.

(** [existsSync(p)] *)
Definition existsSync (p : string) : M bool :=
  fun w => (Done (bool_decide (is_Some (files w !! p))
                  || bool_decide (p ∈ dirs w)), w).

(** [Bun.file(p).exists()]: true for a regular file. *)
Definition file_exists (p : string) : M bool :=
  fun w => (Done (bool_decide (is_Some (files w !! p))), w).

(** [Bun.file(p).arrayBuffer()]: rejects when [p] is not a regular file. *)
Definition file_arrayBuffer (p : string) : M (list byte) :=
  fun w =>
    match files w !! p with
    | Some b => (Done b, w)
    | None => (Thrown "ENOENT", w)
    end.

(** [Bun.write(p, buffer)]: the file system may refuse the write (a
    component of the path that is a regular file, a directory at the
    path, missing rights, a full disk), in which case the promise is
    rejected. *)
Definition bun_write (E : Env) (p : string) (b : list byte) : M unit :=
  fun w =>
    match write_error E p with
    | Some e => (Thrown e, w)
    | None => (Done tt, set_files (<[p := b]> (files w)) w)
    end.

(** [unlinkSync(p)] *)
Definition unlinkSync (p : string) : M unit :=
  fun w =>
    match files w !! p with
    | Some _ => (Done tt, set_files (delete p (files w)) w)
    | None => (Thrown "ENOENT", w)
    end.

(** [mkdirSync(p, { recursive: true })]: it throws when the file system
    refuses (an ancestor that is a regular file, missing rights); the
    ancestors it also creates are not tracked. *)
Definition mkdirSync (E : Env) (p : string) : M unit :=
  fun w =>
    match mkdir_error E p with
    | Some e => (Thrown e, w)
    | None =>
        (Done tt,
         {| files := files w; dirs := {[p]} ∪ dirs w; stdin := stdin w;
            stdout := stdout w; stderr := stderr w; ticks := ticks w |})
    end.

(** [Bun.stdin.arrayBuffer()] *)
Definition stdin_arrayBuffer : M (list byte) :=
  fun w => (Done (stdin w), w).

(** Running the clipboard helper: the file it leaves replaces what was at
    the temporary path. *)
Definition spawn_osascript (E : Env) (tmpPath : string) : M SpawnOutcome :=
  fun w =>
    let o := osascript E tmpPath in
    (Done o,
     match leftFile o with
     | Some b => set_files (<[tmpPath := b]> (files w)) w
     | None => w
     end).

End Runtime.

Declare Scope js_scope.
Delimit Scope js_scope with js.
Open Scope js_scope.

Notation "x <- m ;; k" := (Runtime.bind m (fun x => k))
  (at level 100, m at next level, right associativity) : js_scope.
Notation "m ;;; k" := (Runtime.bind m (fun _ => k))
  (at level 100, right associativity) : js_scope.

(* ===================================================================== *)
(** ** input.ts, part 2: the source loader *)
(* ===================================================================== *)

Module Input.
Import Runtime.

Definition MIME_EXTENSIONS : gmap string string :=
  list_to_map
    [ (".jpg", "image/jpeg");
      (".jpeg", "image/jpeg");
      (".png", "image/png");
      (".webp", "image/webp");
      (".gif", "image/gif");
      (".heic", "image/heic");
      (".heif", "image/heif");
      (".bmp", "image/bmp");
      (".tiff", "image/tiff");
      (".tif", "image/tiff");
      (".svg", "image/svg+xml") ].

(** [mimeFromExtension] *)
Definition mimeFromExtension (path : string) : string :=
  let ext := default "" (JS.match_dot_ext (JS.toLowerCase path)) in
  default "image/jpeg" (MIME_EXTENSIONS !! ext).

(** [toBase64] *)
Definition toBase64 (buffer : list byte) : string := Base64.encode buffer.

(** [makePart] *)
Definition makePart (data mimeType : string) : Genai.Part :=
  {| Genai.thought := None;
     Genai.text := None;
     Genai.executableCode := None;
     Genai.codeExecutionResult := None;
     Genai.inlineData :=
       Some {| Genai.data := Some data; Genai.mimeType := Some mimeType |} |}.

(** [loadFromFile] *)
Definition loadFromFile (E : Env) (filePath : string) : M Genai.Part :=
  let resolved := path_resolve E filePath in
  present <- existsSync resolved ;;
  (if negb present
   then console_error ("Error: File not found: " ++ filePath) ;;;
        exit Types.EXIT_INPUT_ERROR
   else ret tt) ;;;
  buffer <- file_arrayBuffer resolved ;;
  (if (length buffer =? 0)%nat
   then console_error ("Error: File is empty: " ++ filePath) ;;;
        exit Types.EXIT_INPUT_ERROR
   else ret tt) ;;;
  let mimeType :=
    match Sniffer.detectMimeFromBytes buffer with
    | Some m => m
    | None => mimeFromExtension filePath
    end in
  ret (makePart (toBase64 buffer) mimeType).

(** [loadFromUrl] *)
Definition loadFromUrl (E : Env) (url : string) : M Genai.Part :=
  response <-
    match fetch E url with
    | FetchResolved r => ret r
    | FetchRejected message =>
        console_error ("Error: Failed to fetch image: " ++ url) ;;;
        console_error message ;;;
        exit Types.EXIT_INPUT_ERROR
    end ;;
  (if negb (ok response)
   then console_error ("Error: Failed to fetch image: " ++ url ++ " ("
                       ++ pretty (status response) ++ ")") ;;;
        exit Types.EXIT_INPUT_ERROR
   else ret tt) ;;;
  let buffer := body response in
  (if (length buffer =? 0)%nat
   then console_error ("Error: Fetched image is empty: " ++ url) ;;;
        exit Types.EXIT_INPUT_ERROR
   else ret tt) ;;;
  let contentType :=
    match contentTypeHeader response with
    | Some h => default "" (JS.split ";" h !! 0%nat)
    | None => ""
    end in
  let mimeType :=
    match Sniffer.detectMimeFromBytes buffer with
    | Some m => m
    | None => if JS.startsWith contentType "image/" then contentType
              else "image/jpeg"
    end in
  ret (makePart (toBase64 buffer) mimeType).

(** [loadFromStdin] *)
Definition loadFromStdin : M Genai.Part :=
  buffer <- stdin_arrayBuffer ;;
  (if (length buffer =? 0)%nat
   then console_error "Error: No data received from stdin" ;;;
        exit Types.EXIT_INPUT_ERROR
   else ret tt) ;;;
  let mimeType :=
    match Sniffer.detectMimeFromBytes buffer with
    | Some m => m
    | None => "image/png"
    end in
  ret (makePart (toBase64 buffer) mimeType).

(** The temporary path of [loadFromClipboard]. *)
Definition clipboard_tmpPath (now : Z) : string :=
  "/tmp/imgx-clipboard-" ++ pretty now ++ ".png".

(** [loadFromClipboard] *)
Definition loadFromClipboard (E : Env) : M Genai.Part :=
  now <- date_now E ;;
  let tmpPath := clipboard_tmpPath now in
  proc <- spawn_osascript E tmpPath ;;
  (if negb (exitCode proc =? 0)%Z
   then console_error "Error: No image data in clipboard" ;;;
        (if negb (String.eqb (JS.trim (errText proc)) "")
         then console_error (JS.trim (errText proc))
         else ret tt) ;;;
        exit Types.EXIT_INPUT_ERROR
   else ret tt) ;;;
  part <- loadFromFile E tmpPath ;;
  (* Clean up temp file *)
  try_ignore (there <- file_exists tmpPath ;;
              if there then unlinkSync tmpPath else ret tt) ;;;
  ret part.

(** [loadImagePart] *)
Definition loadImagePart (E : Env) (source : string) : M Genai.Part :=
  if String.eqb source "-" then loadFromStdin
  else if String.eqb source "clipboard" then loadFromClipboard E
  else if JS.startsWith source "http://" || JS.startsWith source "https://"
       then loadFromUrl E source
  else loadFromFile E source.

(** MIME resolution of the File source as the specification words it:
    the sniffer first, the extension only when the sniffer is silent. *)
Definition file_mimeType (buffer : list byte) (filePath : string) : string :=
  match Sniffer.detectMimeFromBytes buffer with
  | Some m => m
  | None => mimeFromExtension filePath
  end.

(** The extension table, as the specification lists it. *)
Definition extension_table : list (string * string) :=
  [ (".jpg", "image/jpeg"); (".jpeg", "image/jpeg"); (".png", "image/png");
    (".webp", "image/webp"); (".gif", "image/gif"); (".heic", "image/heic");
    (".heif", "image/heif"); (".bmp", "image/bmp"); (".tiff", "image/tiff");
    (".tif", "image/tiff"); (".svg", "image/svg+xml") ].

(** The world once the clock was read and the clipboard helper ran. *)
Definition after_helper (E : Env) (w : World) : World :=
  let tmpPath := clipboard_tmpPath (clock E (ticks w)) in
  {| files := match leftFile (osascript E tmpPath) with
              | Some b => <[tmpPath := b]> (files w)
              | None => files w
              end;
     dirs := dirs w; stdin := stdin w; stdout := stdout w;
     stderr := stderr w; ticks := S (ticks w) |}.

(** The four source kinds of the specification, for stating the dispatch
    rule. *)
Inductive SourceKind := Stdin | Clipboard | Url | File.

Definition load (E : Env) (k : SourceKind) (source : string) : M Genai.Part :=
  match k with
  | Stdin => loadFromStdin
  | Clipboard => loadFromClipboard E
  | Url => loadFromUrl E source
  | File => loadFromFile E source
  end.

(** The source kind the specification resolves a descriptor to. *)
Definition source_kind (source : string) : SourceKind :=
  if decide (source = "-") then Stdin
  else if decide (source = "clipboard") then Clipboard
  else if JS.startsWith source "http://" then Url
  else if JS.startsWith source "https://" then Url
  else File.

(** The MIME type of a payload the loader built. *)
Definition payload_mimeType (p : Genai.Part) : option string :=
  match Genai.inlineData p with
  | Some b => Genai.mimeType b
  | None => None
  end.

(** A payload whose MIME type begins with "image/". *)
Definition image_payload (part : Genai.Part) : Prop :=
  exists m, payload_mimeType part = Some m /\ JS.startsWith m "image/" = true.

Definition payload_data (p : Genai.Part) : option string :=
  match Genai.inlineData p with
  | Some b => Genai.data b
  | None => None
  end.

End Input.

(* ===================================================================== *)
(** ** output.ts: the classifier, the persister and the renderer *)
(* ===================================================================== *)

Module Output.
Import Runtime.

Definition truthy_flag (o : option bool) : bool := default false o.

Definition mkParsed (t : Types.PartType) (c : string)
    (m d : option string) : Types.ParsedPart :=
  {| Types.type := t; Types.content := c;
     Types.mimeType := m; Types.data := d |}.

(** One turn of the loop of [parseResponse]: the if/else-if chain, each
    branch pushing one record onto [parts]. *)
Definition parse_step (parts : list Types.ParsedPart) (part : Genai.Part)
    : list Types.ParsedPart :=
  if truthy_flag (Genai.thought part) && JS.truthy (Genai.text part) then
    parts ++ [mkParsed Types.thought (default "" (Genai.text part)) None None]
  else if JS.truthy (Genai.text part) then
    parts ++ [mkParsed Types.text (default "" (Genai.text part)) None None]
  else if JS.truthy (Genai.executableCode part ≫= Genai.code) then
    parts ++ [mkParsed Types.code_
                (default "" (Genai.executableCode part ≫= Genai.code))
                None None]
  else
    match Genai.codeExecutionResult part with
    | Some r =>
        parts ++ [mkParsed Types.result (default "" (Genai.output r)) None None]
    | None =>
        if JS.truthy (Genai.inlineData part ≫= Genai.data) then
          match Genai.inlineData part with
          | Some b =>
              parts ++ [mkParsed Types.image "" (Genai.mimeType b) (Genai.data b)]
          | None => parts
          end
        else parts
    end.

(** [parseResponse] *)
Definition parseResponse (response : Genai.GenerateContentResponse)
    : list Types.ParsedPart :=
  match Genai.candidates response with
  | None | Some [] => []
  | Some (first :: _) =>
      let elements :=
        match Genai.content first with
        | Some c => default [] (Genai.parts c)
        | None => []
        end in
      foldl parse_step [] elements
  end.

(** The classifier as the specification words it.  What an element
    carries: a text, a code or an inline payload count when they are
    present and not empty; a code-execution result counts when it is
    present, and its output reads as the empty string when omitted. *)
Definition nonempty (o : option string) : option string :=
  match o with
  | Some s => if decide (s = "") then None else Some s
  | None => None
  end.

Definition marked_reasoning (part : Genai.Part) : bool :=
  bool_decide (Genai.thought part = Some true).

Definition carried_text (part : Genai.Part) : option string :=
  nonempty (Genai.text part).

Definition carried_code (part : Genai.Part) : option string :=
  nonempty (Genai.executableCode part ≫= Genai.code).

Definition carried_result (part : Genai.Part) : option string :=
  match Genai.codeExecutionResult part with
  | Some r => Some (default "" (Genai.output r))
  | None => None
  end.

Definition carried_image (part : Genai.Part) : option (option string * string) :=
  match Genai.inlineData part with
  | Some b =>
      match nonempty (Genai.data b) with
      | Some d => Some (Genai.mimeType b, d)
      | None => None
      end
  | None => None
  end.

Definition Reasoning (c : string) := mkParsed Types.thought c None None.
Definition Narration (c : string) := mkParsed Types.text c None None.
Definition Code (c : string) := mkParsed Types.code_ c None None.
Definition ExecutionResult (c : string) := mkParsed Types.result c None None.
Definition Image (m : option string) (d : string) :=
  mkParsed Types.image "" m (Some d).

(** First match wins, in the order of the specification. *)
Definition fragment_of (part : Genai.Part) : option Types.ParsedPart :=
  match carried_text part with
  | Some t => Some (if marked_reasoning part then Reasoning t else Narration t)
  | None =>
      match carried_code part with
      | Some c => Some (Code c)
      | None =>
          match carried_result part with
          | Some o => Some (ExecutionResult o)
          | None =>
              match carried_image part with
              | Some (m, d) => Some (Image m d)
              | None => None
              end
          end
      end
  end.

(** The content list of the first candidate, empty when there is none. *)
Definition first_candidate_elements (response : Genai.GenerateContentResponse)
    : list Genai.Part :=
  match Genai.candidates response with
  | Some (first :: _) =>
      match Genai.content first with
      | Some c => default [] (Genai.parts c)
      | None => []
      end
  | _ => []
  end.

Definition is_image (p : Types.ParsedPart) : bool :=
  Types.PartType_eqb (Types.type p) Types.image.

(** [img.mimeType?.split("/")[1]?.replace("jpeg", "jpg") ?? "png"] *)
Definition extension (mimeType : option string) : string :=
  match mimeType with
  | None => "png"
  | Some m =>
      match JS.split "/" m !! 1%nat with
      | None => "png"
      | Some sub => JS.replace "jpeg" "jpg" sub
      end
  end.

(** The template literal that names a saved image. *)
Definition image_filename (now : Z) (index : nat) (ext : string) : string :=
  "imgx-" ++ pretty now ++ "-" ++ pretty index ++ "." ++ ext.

(** [Buffer.from(data, "base64")]: on well-formed base64 text, the
    decoding of RFC 4648; what the lenient decoder of the runtime makes
    of any other text is left to the environment. *)
Definition buffer_from (E : Env) (data : string) : list byte :=
  if Base64.well_formed data then Base64.decode data
  else base64_other E data.

(** The body of the loop of [saveImages], over the images still to write,
    with the list [paths] built so far. *)
Fixpoint save_loop (E : Env) (outputDir : string)
    (imageParts : list Types.ParsedPart) (paths : list string)
    : M (list string) :=
  match imageParts with
  | [] => ret paths
  | img :: rest =>
      let ext := extension (Types.mimeType img) in
      now <- date_now E ;;
      let filename := image_filename now (length paths) ext in
      let filepath := path_join E outputDir filename in
      buffer <-
        match Types.data img with
        | Some d => ret (buffer_from E d)
        | None => throw "TypeError"
        end ;;
      bun_write E filepath buffer ;;;
      console_error ("Saved: " ++ filepath) ;;;
      save_loop E outputDir rest (paths ++ [filepath])
  end.

(** [saveImages] *)
Definition saveImages (E : Env) (parts : list Types.ParsedPart)
    (outputDir : string) : M (list string) :=
  let imageParts := filter (fun p => is_image p = true) parts in
  if (length imageParts =? 0)%nat then ret []
  else
    present <- existsSync outputDir ;;
    (if negb present then mkdirSync E outputDir else ret tt) ;;;
    save_loop E outputDir imageParts [].

(** What the specification expects of one persist call that starts when
    the clock has been read [t0] times: the name of the [i]-th image, the
    bytes of an image, and the effect of a list of writes. *)
Definition saved_path (E : Env) (outputDir : string) (t0 k i : nat)
    (img : Types.ParsedPart) : string :=
  path_join E outputDir
    (image_filename (clock E (t0 + i)) (k + i)
       (extension (Types.mimeType img))).

Definition saved_paths (E : Env) (outputDir : string) (t0 k : nat)
    (imgs : list Types.ParsedPart) : list string :=
  imap (saved_path E outputDir t0 k) imgs.

Definition image_bytes (E : Env) (img : Types.ParsedPart) : list byte :=
  buffer_from E (default "" (Types.data img)).

(** The file system accepts a write at each of the paths. *)
Definition writes_accepted (E : Env) (paths : list string) : Prop :=
  Forall (fun p => write_error E p = None) paths.

(** No regular file stands at the target directory, and the directory
    exists or its creation is accepted. *)
Definition dir_ready (E : Env) (outputDir : string) (w : World) : Prop :=
  files w !! outputDir = None
  /\ (outputDir ∈ dirs w \/ mkdir_error E outputDir = None).

(** The world after one more reading of the clock. *)
Definition after_tick (w : World) : World :=
  {| files := files w; dirs := dirs w; stdin := stdin w;
     stdout := stdout w; stderr := stderr w; ticks := S (ticks w) |}.

Definition write_files (f : gmap string (list byte))
    (l : list (string * list byte)) : gmap string (list byte) :=
  foldl (fun f pb => <[fst pb := snd pb]> f) f l.

Definition images_of (parts : list Types.ParsedPart) : list Types.ParsedPart :=
  filter (fun p => Types.type p = Types.image) parts.

Definition has_data (p : Types.ParsedPart) : Prop := is_Some (Types.data p).

(** *** [JSON.stringify(parts, null, 2)] *)

Definition quote : string := String (ascii_of_nat 34) EmptyString.
Definition backslash : string := String (ascii_of_nat 92) EmptyString.

Definition hex_digit (n : nat) : string :=
  match String.get n "0123456789abcdef" with
  | Some c => String c EmptyString
  | None => "0"
  end.

Definition json_escape_char (c : ascii) : string :=
  let n := nat_of_ascii c in
  if (n =? 34)%nat then backslash ++ quote
  else if (n =? 92)%nat then backslash ++ backslash
  else if (n =? 8)%nat then backslash ++ "b"
  else if (n =? 12)%nat then backslash ++ "f"
  else if (n =? 10)%nat then backslash ++ "n"
  else if (n =? 13)%nat then backslash ++ "r"
  else if (n =? 9)%nat then backslash ++ "t"
  else if (n <? 32)%nat
       then backslash ++ "u00" ++ hex_digit (n / 16) ++ hex_digit (n mod 16)
  else String c EmptyString.

Fixpoint json_escape (s : string) : string :=
  match s with
  | EmptyString => EmptyString
  | String c r => json_escape_char c ++ json_escape r
  end.

Definition json_string (s : string) : string :=
  quote ++ json_escape s ++ quote.

Fixpoint join_with (sep : string) (l : list string) : string :=
  match l with
  | [] => EmptyString
  | [x] => x
  | x :: r => x ++ sep ++ join_with sep r
  end.

(** The members of one record, in creation order; an absent field is
    left out. *)
Definition json_members (p : Types.ParsedPart) : list (string * string) :=
  [("type", json_string (Types.PartType_name (Types.type p)));
   ("content", json_string (Types.content p))]
  ++ match Types.mimeType p with
     | Some m => [("mimeType", json_string m)]
     | None => []
     end
  ++ match Types.data p with
     | Some d => [("data", json_string d)]
     | None => []
     end.

Definition json_object (p : Types.ParsedPart) : string :=
  "{" ++ JS.nl
  ++ join_with ("," ++ JS.nl)
       (map (fun kv => "    " ++ json_string (fst kv) ++ ": " ++ snd kv)
            (json_members p))
  ++ JS.nl ++ "  }".

Definition json_stringify (parts : list Types.ParsedPart) : string :=
  match parts with
  | [] => "[]"
  | _ => "[" ++ JS.nl
         ++ join_with ("," ++ JS.nl)
              (map (fun p => "  " ++ json_object p) parts)
         ++ JS.nl ++ "]"
  end.

(** *** [formatOutput] *)

(** [for (const p of parts) body(p)] *)
Fixpoint for_each {A} (l : list A) (body : A -> M unit) : M unit :=
  match l with
  | [] => ret tt
  | x :: r => body x ;;; for_each r body
  end.

Definition verbose_line (p : Types.ParsedPart) : string :=
  match Types.type p with
  | Types.thought => JS.nl ++ "--- Thinking ---" ++ JS.nl ++ Types.content p
  | Types.text => Types.content p
  | Types.code_ =>
      JS.nl ++ "```python" ++ JS.nl ++ Types.content p ++ JS.nl ++ "```"
  | Types.result =>
      JS.nl ++ "--- Execution Result ---" ++ JS.nl ++ Types.content p
  | Types.image => "[Generated image saved]"
  end.

(** [formatOutput] *)
Definition formatOutput (parts : list Types.ParsedPart)
    (opts : Types.ImgxOptions) : M unit :=
  if Types.json opts then console_log (json_stringify parts)
  else if Types.quiet opts then ret tt
  else if Types.code opts then
    for_each parts (fun p =>
      if Types.PartType_eqb (Types.type p) Types.code_
      then console_log (Types.content p) else ret tt)
  else if Types.verbose opts then
    for_each parts (fun p => console_log (verbose_line p))
  else
    for_each parts (fun p =>
      if Types.PartType_eqb (Types.type p) Types.text
      then console_log (Types.content p) else ret tt).

(** The five presentation modes of the specification. *)
Inductive Mode := JsonMode | QuietMode | CodeOnlyMode | VerboseMode | DefaultMode.

(** The mode the specification selects for a set of flags. *)
Definition mode_of (opts : Types.ImgxOptions) : Mode :=
  if Types.json opts then JsonMode
  else if Types.quiet opts then QuietMode
  else if Types.code opts then CodeOnlyMode
  else if Types.verbose opts then VerboseMode
  else DefaultMode.

(** What the specification has each mode send to the primary output
    stream, one entry per output event. *)
Definition rendered (m : Mode) (parts : list Types.ParsedPart) : list string :=
  match m with
  | JsonMode => [json_stringify parts]
  | QuietMode => []
  | CodeOnlyMode =>
      map Types.content
        (filter (fun p => Types.type p = Types.code_) parts)
  | VerboseMode => map verbose_line parts
  | DefaultMode =>
      map Types.content
        (filter (fun p => Types.type p = Types.text) parts)
  end.

End Output.

(* ===================================================================== *)
(** ** Sample collaborators and inputs, for running the model *)
(* ===================================================================== *)

Module Samples.
Import Runtime.

(** A clock that advances by one millisecond between two readings. *)
Definition ticking_clock (k : nat) : Z := (1000 + Z.of_nat k)%Z.

(** A clock that does not advance during the run. *)
Definition frozen_clock (k : nat) : Z := 1000%Z.

Definition posix_join (d f : string) : string := d ++ "/" ++ f.

(** [path.resolve] in the working directory [/work]. *)
Definition posix_resolve (p : string) : string :=
  if JS.startsWith p "/" then p else "/work/" ++ p.

Definition offline (url : string) : FetchOutcome := FetchRejected "offline".

(** The clipboard holds no image: the helper script opens the temporary
    file for writing, which creates it, fails to read the clipboard as
    PNG data, closes the file and ends in error. *)
Definition clipboard_without_image (tmpPath : string) : SpawnOutcome :=
  {| exitCode := 1;
     errText := "execution error: No image data in clipboard (-2700)";
     leftFile := Some [] |}.

(** The helper ends normally but wrote no byte. *)
Definition clipboard_empty_image (tmpPath : string) : SpawnOutcome :=
  {| exitCode := 0; errText := ""; leftFile := Some [] |}.

(** The clipboard holds an image of four bytes. *)
Definition clipboard_with_image (tmpPath : string) : SpawnOutcome :=
  {| exitCode := 0; errText := ""; leftFile := Some [x89; x50; x4e; x47] |}.

Definition env (c : nat -> Z) (clip : string -> SpawnOutcome) : Env :=
  {| clock := c; path_join := posix_join; path_resolve := posix_resolve;
     fetch := offline; osascript := clip;
     write_error := fun _ => None; mkdir_error := fun _ => None;
     base64_other := fun _ => [] |}.

Definition empty_world : World :=
  {| files := ∅; dirs := ∅; stdin := []; stdout := []; stderr := [];
     ticks := 0 |}.

Definition image_part (mime : string) (b64 : string) : Types.ParsedPart :=
  Output.mkParsed Types.image "" (Some mime) (Some b64).

(** The 1x1 PNG of the test suite, in base64. *)
Definition minimal_png : string :=
  "iVBORw0KGgoAAAANSUhEUgAAAAEAAAABCAYAAAAfFcSJAAAADUlEQVR42mP8/5+hHgAHggJ/PchI7wAAAABJRU5ErkJggg==".

(** A response whose candidates each hold a list of elements. *)
Definition candidate (elements : list Genai.Part) : Genai.Candidate :=
  {| Genai.content := Some {| Genai.parts := Some elements |} |}.

Definition mockResponse (elements : list Genai.Part)
    : Genai.GenerateContentResponse :=
  {| Genai.candidates := Some [candidate elements] |}.

Definition text_element (t : string) : Genai.Part :=
  {| Genai.thought := None; Genai.text := Some t;
     Genai.executableCode := None; Genai.codeExecutionResult := None;
     Genai.inlineData := None |}.

Definition thought_element (t : string) : Genai.Part :=
  {| Genai.thought := Some true; Genai.text := Some t;
     Genai.executableCode := None; Genai.codeExecutionResult := None;
     Genai.inlineData := None |}.

Definition code_element (c : string) : Genai.Part :=
  {| Genai.thought := None; Genai.text := None;
     Genai.executableCode :=
       Some {| Genai.code := Some c; Genai.language := Some "PYTHON" |};
     Genai.codeExecutionResult := None;
     Genai.inlineData := None |}.

Definition result_element (o : option string) : Genai.Part :=
  {| Genai.thought := None; Genai.text := None;
     Genai.executableCode := None;
     Genai.codeExecutionResult :=
       Some {| Genai.outcome := Some "OUTCOME_OK"; Genai.output := o |};
     Genai.inlineData := None |}.

Definition image_element (m d : string) : Genai.Part :=
  {| Genai.thought := None; Genai.text := None;
     Genai.executableCode := None; Genai.codeExecutionResult := None;
     Genai.inlineData :=
       Some {| Genai.data := Some d; Genai.mimeType := Some m |} |}.

(** [reasoning+text, text, executableCode, codeExecutionResult(no output),
    inlineData, text] *)
Definition six_elements : list Genai.Part :=
  [thought_element "I should analyze this";
   text_element "Here's my analysis:";
   code_element "import cv2";
   result_element None;
   image_element "image/png" "AAAA";
   text_element "The annotated image is above."].

Definition options (j q c v : bool) : Types.ImgxOptions :=
  {| Types.verbose := v; Types.code := c; Types.images := ".";
     Types.json := j; Types.quiet := q;
     Types.model := "gemini-3-flash-preview"; Types.system := None |}.

(** The mixed five-fragment sequence of the test suite. *)
Definition mixedParts : list Types.ParsedPart :=
  [Output.Reasoning "thinking...";
   Output.Narration "The answer is 42.";
   Output.Code "print(42)";
   Output.ExecutionResult ("42" ++ JS.nl);
   Output.Image (Some "image/png") "AAA"].

(** A working directory that holds [test.dat], 32 bytes that start with
    the JPEG signature, and [test.webp], text without a signature. *)
Definition jpeg_dat : list byte :=
  [xff; xd8; xff; xe0] ++ repeat x00 28.

Definition not_webp : list byte :=
  map byte_of_ascii (list_ascii_of_string "not-a-real-webp-but-has-data").

Definition world_with_files : World :=
  {| files := <["/work/test.dat" := jpeg_dat]>
                (<["/work/test.webp" := not_webp]> ∅);
     dirs := {["/work"]}; stdin := []; stdout := []; stderr := [];
     ticks := 0 |}.

Definition two_images : list Types.ParsedPart :=
  [image_part "image/png" "AAAA";
   Output.mkParsed Types.text "some text" None None;
   image_part "image/jpeg" "AAAA"].

End Samples.

(* ===================================================================== *)
(** ** client.ts, analyze.ts and chat.ts: the two commands *)
(* ===================================================================== *)

Module Commands.
Import Runtime.

(** What the content-generation service answers to one request. *)
Inductive ServiceOutcome :=
| ServiceResolved (response : Genai.GenerateContentResponse)
| ServiceRejected (message : string).

(** What [chat.sendMessage] is given. *)
Inductive Message :=
| MessageParts (parts : list Genai.Part)
| MessageText (text : string).

(** The service behind a client, under the configuration of the run (the
    configuration bundle of [buildConfig], which holds a floating-point
    timeout, is not modelled): [generateContent] by model and contents,
    and the answer of the current chat session to its next message. *)
Record Service := {
  generateContent : string -> list Genai.Part -> ServiceOutcome;
  sendMessage : Message -> ServiceOutcome;
}.

(** [await] of a service call: a rejection is thrown with its message. *)
Definition await_service (o : ServiceOutcome)
    : M Genai.GenerateContentResponse :=
  match o with
  | ServiceResolved r => ret r
  | ServiceRejected message => throw message
  end.

(** [try { m } catch (err) { handler(err.message ?? err) }] *)
Definition try_catch {A} (m : M A) (handler : string -> M A) : M A :=
  fun w =>
    match m w with
    | (Thrown e, w') => handler e w'
    | r => r
    end.

(** [createClient]; [apiKey] is [process.env.GEMINI_API_KEY] and the
    client it returns is represented by the service behind it. *)
Definition createClient (apiKey : option string) (S : Service) : M Service :=
  if negb (JS.truthy apiKey)
  then console_error "Error: GEMINI_API_KEY environment variable is required." ;;;
       console_error "Get your key at: https://aistudio.google.com/apikey" ;;;
       exit Types.EXIT_INPUT_ERROR
  else ret S.

(** A text element of a request: [{ text: prompt }]. *)
Definition text_part (t : string) : Genai.Part :=
  {| Genai.thought := None; Genai.text := Some t;
     Genai.executableCode := None; Genai.codeExecutionResult := None;
     Genai.inlineData := None |}.

(** [args.slice(0, -1)] *)
Definition all_but_last (args : list string) : list string :=
  take (length args - 1) args.

(** [analyzeCommand].  [loads] stands for
    [Promise.all(imageSources.map(loadImagePart))]: the loads run
    concurrently, so their joint effect is a parameter of the model. *)
Definition analyzeCommand (E : Env) (S : Service) (apiKey : option string)
    (loads : list string -> M (list Genai.Part))
    (args : list string) (opts : Types.ImgxOptions) : M unit :=
  (if (length args <? 2)%nat
   then console_error "Error: Need at least one image and a prompt." ;;;
        console_error ("Usage: imgx analyze <image...> "
                       ++ Output.quote ++ "<prompt>" ++ Output.quote) ;;;
        exit Types.EXIT_INPUT_ERROR
   else ret tt) ;;;
  let prompt := default "" (args !! (length args - 1)%nat) in
  let imageSources := all_but_last args in
  client <- createClient apiKey S ;;
  imageParts <- loads imageSources ;;
  try_catch
    (response <- await_service
                   (generateContent client (Types.model opts)
                      (imageParts ++ [text_part prompt])) ;;
     let parsed := Output.parseResponse response in
     Output.saveImages E parsed (Types.images opts) ;;;
     Output.formatOutput parsed opts)
    (fun err => console_error ("API Error: " ++ err) ;;;
                exit Types.EXIT_API_ERROR).

(** [Promise.all(imageSources.map(loadImagePart))] when the sources are
    loaded one after the other; with a single source there is no other
    order. *)
Fixpoint load_each (E : Env) (sources : list string)
    : M (list Genai.Part) :=
  match sources with
  | [] => ret []
  | source :: rest =>
      part <- Input.loadImagePart E source ;;
      parts <- load_each E rest ;;
      ret (part :: parts)
  end.

(** [rl.prompt()]: the prompt goes to the diagnostic stream, the output
    of the readline interface; the write is recorded as one entry of
    [stderr]. *)
Definition rl_prompt : M unit :=
  fun w => (Done tt, add_stderr [JS.nl ++ "imgx> "] w).


(** [chatCommand], up to the first prompt of the loop. *)
Definition chatCommand (E : Env) (S : Service) (apiKey : option string)
    (imageSource : string) (prompt : option string)
    (opts : Types.ImgxOptions) : M unit :=
  client <- createClient apiKey S ;;
  imagePart <- Input.loadImagePart E imageSource ;;
  let initialPrompt :=
    default "I've loaded this image. What would you like to know?" prompt in
  try_catch
    (firstResponse <- await_service
                        (sendMessage client
                           (MessageParts [imagePart; text_part initialPrompt])) ;;
     let firstParsed := Output.parseResponse firstResponse in
     Output.saveImages E firstParsed (Types.images opts) ;;;
     Output.formatOutput firstParsed opts)
    (fun err => console_error ("API Error: " ++ err) ;;;
                exit Types.EXIT_API_ERROR) ;;;
  rl_prompt.


End Commands.

(* ===================================================================== *)
(** ** Notions used to state further properties *)
(* ===================================================================== *)

Module Notions.
Import Runtime.

(** [true] when every character of [s] is a decimal digit. *)
Fixpoint digits (s : string) : bool :=
  match s with
  | EmptyString => true
  | String c r =>
      let n := nat_of_ascii c in
      (48 <=? n)%nat && (n <=? 57)%nat && digits r
  end.

(** A file name that the persister can build. *)
Definition image_name (f : string) : Prop :=
  exists (t : Z) (i : nat) (m : option string),
    f = Output.image_filename t i (Output.extension m).

(** [path.join(dir, .)] sends distinct file names of the persister to
    distinct paths. *)
Definition join_separates (E : Env) (dir : string) : Prop :=
  forall f g, image_name f -> image_name g ->
              path_join E dir f = path_join E dir g -> f = g.

(** The non-empty texts of the elements that are not marked as
    reasoning, and the non-empty codes of the elements without text. *)
Definition answer_texts (elements : list Genai.Part) : list string :=
  omap (fun p => if Output.marked_reasoning p then None
                 else Output.carried_text p) elements.

Definition code_texts (elements : list Genai.Part) : list string :=
  omap (fun p => match Output.carried_text p with
                 | Some _ => None
                 | None => Output.carried_code p
                 end) elements.

(** The media type a response declares: its content-type header up to
    the first semicolon, the empty string without a header. *)
Definition declared_type (r : Response) : string :=
  match contentTypeHeader r with
  | Some h => default "" (JS.split ";" h !! 0%nat)
  | None => ""
  end.

(** Worlds that differ at most in the diagnostic stream. *)
Definition same_but_stderr (w w' : World) : Prop :=
  files w' = files w /\ dirs w' = dirs w /\ stdin w' = stdin w
  /\ stdout w' = stdout w /\ ticks w' = ticks w.

(** What a load of one of the three plain kinds may do: write
    diagnostics, and nothing else; none when it completes, at least one,
    with the input-error code, when it ends the process. *)
Definition plain_outcome {A} (r : Result A) (w w' : World) : Prop :=
  exists msgs,
    w' = add_stderr msgs w
    /\ match r with
       | Done _ => msgs = []
       | Exited c => c = 2%Z /\ msgs <> []
       | Thrown _ => msgs = []
       end.

(** A loader that answers every list of sources with the same parts and
    touches nothing, and a service that always gives the same answer. *)
Definition constant_loads (parts : list Genai.Part)
    (sources : list string) : M (list Genai.Part) := ret parts.

Definition constant_service (o : Commands.ServiceOutcome) : Commands.Service :=
  {| Commands.generateContent := fun _ _ => o;
     Commands.sendMessage := fun _ => o |}.

(** A response with two images around a text. *)
Definition picture_response : Genai.GenerateContentResponse :=
  Samples.mockResponse
    [Samples.image_element "image/png" "AAAA";
     Samples.text_element "Two charts.";
     Samples.image_element "image/jpeg" "AAAA"].


(** A world whose standard input holds a PNG signature. *)
Definition world_with_stdin : World :=
  {| files := ∅; dirs := ∅; stdin := [x89; x50; x4e; x47];
     stdout := []; stderr := []; ticks := 0 |}.

(** An environment in which every URL answers with the given response. *)
Definition env_with_fetch (r : Response) : Env :=
  {| clock := Samples.frozen_clock; path_join := Samples.posix_join;
     path_resolve := Samples.posix_resolve;
     fetch := fun _ => FetchResolved r;
     osascript := Samples.clipboard_without_image;
     write_error := fun _ => None; mkdir_error := fun _ => None;
     base64_other := fun _ => [] |}.

End Notions.

(* ===================================================================== *)
(** * Properties *)
(* ===================================================================== *)

(** ** The sniffer *)

Module SnifferFacts.
Import Sniffer.


Lemma to_N_inj (a b : byte) : Byte.to_N a = Byte.to_N b -> a = b.
Proof.
  intros H. pose proof (Byte.of_to_N a) as Ha.
  rewrite H, Byte.of_to_N in Ha. congruence.
Qed.

Lemma byte_is_decide (bytes : list byte) (i : nat) (b : byte) :
  JS.byte_is bytes i (Byte.to_N b) = bool_decide (bytes !! i = Some b).
Proof.
  unfold JS.byte_is. destruct (bytes !! i) as [c|] eqn:E.
  - destruct (N.eqb_spec (Byte.to_N c) (Byte.to_N b)) as [H|H].
    + apply to_N_inj in H. subst. by rewrite bool_decide_eq_true_2.
    + rewrite bool_decide_eq_false_2; [done|]. intros [= ->]. by apply H.
  - by rewrite bool_decide_eq_false_2.
Qed.

Lemma has_at_nil (off : nat) (bytes : list byte) : has_at off [] bytes.
Proof. unfold has_at. reflexivity. Qed.

Lemma has_at_cons (off : nat) (b : byte) (sig bytes : list byte) :
  has_at off (b :: sig) bytes <->
  bytes !! off = Some b /\ has_at (S off) sig bytes.
Proof.
  unfold has_at. replace (S off) with (off + 1)%nat by lia.
  rewrite <- drop_drop.
  replace (bytes !! off) with (drop off bytes !! 0%nat)
    by (rewrite lookup_drop; f_equal; lia).
  destruct (drop off bytes) as [|x r]; simpl.
  - split; [discriminate | intros [[=] _]].
  - split.
    + intros [= -> H]. split; [reflexivity | exact H].
    + intros [[= ->] H]. f_equal. exact H.
Qed.

Ltac sig_lookups :=
  unfold is_png, is_jpeg, is_gif, is_webp, is_bmp,
    sig_png, sig_jpeg, sig_gif, sig_riff, sig_webp, sig_bmp in *;
  repeat rewrite has_at_cons in *;
  repeat match goal with
         | H : context [has_at _ [] _] |- _ => clear H
         end.

Lemma png_test (bytes : list byte) :
  JS.byte_is bytes 0 0x89 && JS.byte_is bytes 1 0x50
    && JS.byte_is bytes 2 0x4e && JS.byte_is bytes 3 0x47
  = bool_decide (is_png bytes).
Proof.
  change 0x89%N with (Byte.to_N x89). change 0x50%N with (Byte.to_N x50).
  change 0x4e%N with (Byte.to_N x4e). change 0x47%N with (Byte.to_N x47).
  rewrite !byte_is_decide.
  apply eq_true_iff_eq. rewrite !andb_true_iff, !bool_decide_eq_true.
  sig_lookups. pose proof (has_at_nil 4 bytes). tauto.
Qed.

Lemma jpeg_test (bytes : list byte) :
  JS.byte_is bytes 0 0xff && JS.byte_is bytes 1 0xd8 && JS.byte_is bytes 2 0xff
  = bool_decide (is_jpeg bytes).
Proof.
  change 0xff%N with (Byte.to_N xff). change 0xd8%N with (Byte.to_N xd8).
  rewrite !byte_is_decide.
  apply eq_true_iff_eq. rewrite !andb_true_iff, !bool_decide_eq_true.
  sig_lookups. pose proof (has_at_nil 3 bytes). tauto.
Qed.

Lemma gif_test (bytes : list byte) :
  JS.byte_is bytes 0 0x47 && JS.byte_is bytes 1 0x49
    && JS.byte_is bytes 2 0x46 && JS.byte_is bytes 3 0x38
  = bool_decide (is_gif bytes).
Proof.
  change 0x47%N with (Byte.to_N x47). change 0x49%N with (Byte.to_N x49).
  change 0x46%N with (Byte.to_N x46). change 0x38%N with (Byte.to_N x38).
  rewrite !byte_is_decide.
  apply eq_true_iff_eq. rewrite !andb_true_iff, !bool_decide_eq_true.
  sig_lookups. pose proof (has_at_nil 4 bytes). tauto.
Qed.

Lemma webp_test (bytes : list byte) :
  JS.byte_is bytes 0 0x52 && JS.byte_is bytes 1 0x49
    && JS.byte_is bytes 2 0x46 && JS.byte_is bytes 3 0x46
    && JS.byte_is bytes 8 0x57 && JS.byte_is bytes 9 0x45
    && JS.byte_is bytes 10 0x42 && JS.byte_is bytes 11 0x50
  = bool_decide (is_webp bytes).
Proof.
  change 0x52%N with (Byte.to_N x52). change 0x49%N with (Byte.to_N x49).
  change 0x46%N with (Byte.to_N x46). change 0x57%N with (Byte.to_N x57).
  change 0x45%N with (Byte.to_N x45). change 0x42%N with (Byte.to_N x42).
  change 0x50%N with (Byte.to_N x50).
  rewrite !byte_is_decide.
  apply eq_true_iff_eq. rewrite !andb_true_iff, !bool_decide_eq_true.
  sig_lookups. pose proof (has_at_nil 4 bytes). pose proof (has_at_nil 12 bytes).
  tauto.
Qed.

Lemma bmp_test (bytes : list byte) :
  JS.byte_is bytes 0 0x42 && JS.byte_is bytes 1 0x4d
  = bool_decide (is_bmp bytes).
Proof.
  change 0x42%N with (Byte.to_N x42). change 0x4d%N with (Byte.to_N x4d).
  rewrite !byte_is_decide.
  apply eq_true_iff_eq. rewrite !andb_true_iff, !bool_decide_eq_true.
  sig_lookups. pose proof (has_at_nil 2 bytes). tauto.
Qed.

(** The if-chain of the sniffer, read over the specification's
    signatures. *)
Lemma detectMimeFromBytes_chain (bytes : list byte) :
  detectMimeFromBytes bytes =
  if decide (is_png bytes) then Some "image/png"
  else if decide (is_jpeg bytes) then Some "image/jpeg"
  else if decide (is_gif bytes) then Some "image/gif"
  else if decide (is_webp bytes) then Some "image/webp"
  else if decide (is_bmp bytes) then Some "image/bmp"
  else None.
Proof.
  unfold detectMimeFromBytes.
  rewrite png_test, jpeg_test, gif_test, webp_test, bmp_test.
  repeat case_bool_decide; repeat case_decide; tauto.
Qed.

(** The signatures differ in their first byte, so at most one matches. *)
Lemma first_byte (bytes : list byte) :
  (is_png bytes -> bytes !! 0%nat = Some x89) /\
  (is_jpeg bytes -> bytes !! 0%nat = Some xff) /\
  (is_gif bytes -> bytes !! 0%nat = Some x47) /\
  (is_webp bytes -> bytes !! 0%nat = Some x52) /\
  (is_bmp bytes -> bytes !! 0%nat = Some x42).
Proof. sig_lookups. tauto. Qed.

(** C6: the sniffer answers PNG, JPEG, GIF, WEBP or BMP exactly on the
    buffers that carry the corresponding signature (89 50 4E 47; FF D8 FF;
    GIF8; RIFF at offset 0 with WEBP at offset 8; BM) and answers Unknown
    ([None]) on every other buffer, the empty buffer and buffers too short
    for a signature included.  The sniffer is a total function: it has an
    answer, never an exception, for every buffer. *)
Theorem detectMimeFromBytes_signatures :
  (forall bytes : list byte,
      (detectMimeFromBytes bytes = Some "image/png" <-> is_png bytes) /\
      (detectMimeFromBytes bytes = Some "image/jpeg" <-> is_jpeg bytes) /\
      (detectMimeFromBytes bytes = Some "image/gif" <-> is_gif bytes) /\
      (detectMimeFromBytes bytes = Some "image/webp" <-> is_webp bytes) /\
      (detectMimeFromBytes bytes = Some "image/bmp" <-> is_bmp bytes) /\
      (detectMimeFromBytes bytes = None <->
       ~ (is_png bytes \/ is_jpeg bytes \/ is_gif bytes
          \/ is_webp bytes \/ is_bmp bytes))) /\
  detectMimeFromBytes [] = None /\
  detectMimeFromBytes [x89; x50; x4e] = None /\
  detectMimeFromBytes [xff; xd8] = None /\
  detectMimeFromBytes [x52; x49; x46; x46; x00; x00; x00; x00; x57; x45; x42]
    = None /\
  detectMimeFromBytes [x42] = None /\
  detectMimeFromBytes [x00; x01; x02; x03] = None /\
  detectMimeFromBytes [x89; x50; x4e; x47; x0d; x0a; x1a; x0a]
    = Some "image/png" /\
  detectMimeFromBytes [xff; xd8; xff; xe0] = Some "image/jpeg" /\
  detectMimeFromBytes [x47; x49; x46; x38; x39; x61] = Some "image/gif" /\
  detectMimeFromBytes
    [x52; x49; x46; x46; x00; x00; x00; x00; x57; x45; x42; x50]
    = Some "image/webp" /\
  detectMimeFromBytes [x42; x4d; x00; x00] = Some "image/bmp".
Proof.
  split; [|repeat split; reflexivity].
  intros bytes. rewrite detectMimeFromBytes_chain.
  destruct (first_byte bytes) as (Hp & Hj & Hg & Hw & Hb).
  repeat case_decide;
    repeat split; intros; try discriminate; try reflexivity; try assumption;
    try tauto; try (unfold is_webp in *; tauto);
    exfalso;
    repeat match goal with
           | H : is_png bytes |- _ => apply Hp in H
           | H : is_jpeg bytes |- _ => apply Hj in H
           | H : is_gif bytes |- _ => apply Hg in H
           | H : is_webp bytes |- _ => apply Hw in H
           | H : is_bmp bytes |- _ => apply Hb in H
           end;
    congruence.
Qed.

End SnifferFacts.

(** ** The base64 codec *)

Module Base64Facts.
Import Base64.

Lemma list_ind3 {A} (P : list A -> Prop) :
  P [] -> (forall a, P [a]) -> (forall a b, P [a; b]) ->
  (forall a b c l, P l -> P (a :: b :: c :: l)) ->
  forall l, P l.
Proof.
  intros H0 H1 H2 H3.
  fix IH 1. intros [|a [|b [|c l]]]; [exact H0 | apply H1 | apply H2 |].
  apply H3, IH.
Qed.

(** Every six-bit value is printed as a character that is not the padding
    character and that reads back as the same value. *)
Lemma dec_enc_char (n : N) :
  (n < 64)%N ->
  dec_char (enc_char n) = Some n /\ Ascii.eqb (enc_char n) "=" = false.
Proof.
  intros Hn.
  assert (Hall : forallb (fun k =>
              match dec_char (enc_char (N.of_nat k)) with
              | Some m => N.eqb m (N.of_nat k)
              | None => false
              end && negb (Ascii.eqb (enc_char (N.of_nat k)) "="))
            (seq 0 64) = true) by (vm_compute; reflexivity).
  rewrite forallb_forall in Hall.
  specialize (Hall (N.to_nat n)).
  rewrite N2Nat.id in Hall.
  assert (Hin : In (N.to_nat n) (seq 0 64)) by (apply in_seq; lia).
  apply Hall in Hin. apply andb_true_iff in Hin as [H1 H2].
  destruct (dec_char (enc_char n)) as [m|]; [|discriminate].
  apply N.eqb_eq in H1. subst m.
  split; [reflexivity|]. by destruct (Ascii.eqb (enc_char n) "=").
Qed.

Lemma sextets_enc (n : N) (r : string) :
  (n < 64)%N -> sextets (String (enc_char n) r) = n :: sextets r.
Proof.
  intros Hn. destruct (dec_enc_char n Hn) as [Hd He].
  simpl. rewrite He, Hd. reflexivity.
Qed.

Lemma byte_of_to_N (b : byte) : byte_of_N (Byte.to_N b) = b.
Proof.
  unfold byte_of_N. pose proof (Byte.to_N_bounded b).
  rewrite N.mod_small by lia. by rewrite Byte.of_to_N.
Qed.

Ltac div_mod_lia :=
  repeat match goal with
         | b : byte |- _ =>
             let x := fresh "x" in
             let Hx := fresh "Hx" in
             pose proof (Byte.to_N_bounded b) as Hx;
             set (x := Byte.to_N b) in *; clearbody x; clear b
         end;
  zify; Z.to_euclidean_division_equations; lia.

Lemma sextet_bounds (a b c : byte) :
  let x := Byte.to_N a in
  let y := Byte.to_N b in
  let z := Byte.to_N c in
  (x / 4 < 64 /\ (x mod 4) * 16 < 64 /\ (x mod 4) * 16 + y / 16 < 64
   /\ (y mod 16) * 4 < 64 /\ (y mod 16) * 4 + z / 64 < 64 /\ z mod 64 < 64)%N.
Proof. cbv zeta. repeat split; div_mod_lia. Qed.

Lemma regroup_1 (a : byte) :
  let x := Byte.to_N a in
  (x / 4 * 4 + (x mod 4) * 16 / 16 = x)%N.
Proof. cbv zeta. div_mod_lia. Qed.

Lemma regroup_2 (a b : byte) :
  let x := Byte.to_N a in
  let y := Byte.to_N b in
  (x / 4 * 4 + ((x mod 4) * 16 + y / 16) / 16 = x
   /\ ((x mod 4) * 16 + y / 16) mod 16 * 16 + (y mod 16) * 4 / 4 = y)%N.
Proof. cbv zeta. split; div_mod_lia. Qed.

Lemma regroup_3 (b c : byte) :
  let y := Byte.to_N b in
  let z := Byte.to_N c in
  (forall x, x < 4 ->
     (x * 16 + y / 16) mod 16 * 16 + ((y mod 16) * 4 + z / 64) / 4 = y
     /\ ((y mod 16) * 4 + z / 64) mod 4 * 64 + z mod 64 = z)%N.
Proof. cbv zeta. intros x Hx. split; div_mod_lia. Qed.

Lemma encode_3 (a b c : byte) (l : list byte) :
  encode (a :: b :: c :: l) =
  String (enc_char (Byte.to_N a / 4))
    (String (enc_char ((Byte.to_N a mod 4) * 16 + Byte.to_N b / 16))
       (String (enc_char ((Byte.to_N b mod 16) * 4 + Byte.to_N c / 64))
          (String (enc_char (Byte.to_N c mod 64)) (encode l)))).
Proof. reflexivity. Qed.

(** Decoding undoes encoding, for every buffer. *)
Lemma decode_encode (bs : list byte) : decode (encode bs) = bs.
Proof.
  unfold decode. induction bs as [|a|a b|a b c l IH] using list_ind3.
  - reflexivity.
  - destruct (sextet_bounds a a a) as (B1 & B2 & _).
    cbn [encode]. rewrite !sextets_enc by assumption.
    cbn [sextets Ascii.eqb Bool.eqb bytes_of_sextets].
    cbv zeta in *. rewrite (regroup_1 a). by rewrite byte_of_to_N.
  - destruct (sextet_bounds a b b) as (B1 & _ & B3 & B4 & _).
    cbn [encode]. rewrite !sextets_enc by assumption.
    cbn [sextets Ascii.eqb Bool.eqb bytes_of_sextets].
    destruct (regroup_2 a b) as [R1 R2]. cbv zeta in *.
    rewrite R1, R2. by rewrite !byte_of_to_N.
  - destruct (sextet_bounds a b c) as (B1 & _ & B3 & _ & B5 & B6).
    rewrite encode_3. rewrite !sextets_enc by assumption.
    cbn [bytes_of_sextets]. rewrite IH.
    destruct (regroup_2 a b) as [R1 _].
    assert (Hlt : (Byte.to_N a mod 4 < 4)%N) by (apply N.mod_lt; lia).
    destruct (regroup_3 b c _ Hlt) as [R2 R3]. cbv zeta in *.
    rewrite R1, R2, R3. by rewrite !byte_of_to_N.
Qed.

End Base64Facts.

(** ** Strings *)

Module StringFacts.

Lemma split_lacks (sep : ascii) (s : string) :
  JS.lacks sep s = true -> JS.split sep s = [s].
Proof.
  induction s as [|c r IH]; [reflexivity|]. simpl.
  intros [Hc Hr]%andb_true_iff. apply negb_true_iff in Hc.
  rewrite Hc, IH by assumption. reflexivity.
Qed.

Lemma split_app (sep : ascii) (a b : string) :
  JS.lacks sep a = true ->
  JS.split sep (a ++ String sep b) = a :: JS.split sep b.
Proof.
  induction a as [|c r IH]; simpl.
  - intros _. by rewrite Ascii.eqb_refl.
  - intros [Hc Hr]%andb_true_iff. apply negb_true_iff in Hc.
    rewrite Hc, IH by assumption. reflexivity.
Qed.

Lemma replace_absent (pat rep s : string) :
  JS.includes pat s = false -> JS.replace pat rep s = s.
Proof.
  induction s as [|c r IH]; simpl.
  - intros [H _]%orb_false_iff. by rewrite H.
  - intros [H Hr]%orb_false_iff. rewrite H. f_equal. by apply IH.
Qed.

Lemma startsWith_app (p rest : string) : JS.startsWith (p ++ rest) p = true.
Proof.
  unfold JS.startsWith. induction p as [|c p IH]; simpl.
  - by destruct rest.
  - destruct (ascii_dec c c); [exact IH | congruence].
Qed.

Lemma startsWith_inv (s p : string) :
  JS.startsWith s p = true -> exists rest, s = p ++ rest.
Proof.
  unfold JS.startsWith. revert s. induction p as [|c p IH]; intros s H.
  - exists s. reflexivity.
  - destruct s as [|d s]; simpl in H; [discriminate|].
    destruct (ascii_dec c d) as [->|]; [|discriminate].
    destruct (IH s H) as [rest ->]. by exists rest.
Qed.

End StringFacts.

(** ** The persister *)

Module PersisterFacts.
Import Runtime Output.

Lemma is_image_true (p : Types.ParsedPart) :
  is_image p = true <-> Types.type p = Types.image.
Proof. unfold is_image. destruct (Types.type p); simpl; split; congruence. Qed.

Lemma filter_is_image (parts : list Types.ParsedPart) :
  filter (fun p => is_image p = true) parts = images_of parts.
Proof.
  unfold images_of. induction parts as [|p parts IH]; [reflexivity|].
  rewrite !filter_cons, IH.
  repeat case_decide; try reflexivity; exfalso;
    rewrite is_image_true in *; tauto.
Qed.

Lemma saved_path_S E dir t0 k i img :
  saved_path E dir t0 k (S i) img = saved_path E dir (S t0) (S k) i img.
Proof.
  unfold saved_path.
  by replace (t0 + S i)%nat with (S t0 + i)%nat by lia;
     replace (k + S i)%nat with (S k + i)%nat by lia.
Qed.

Lemma saved_paths_cons E dir t0 k img rest :
  saved_paths E dir t0 k (img :: rest) =
  saved_path E dir t0 k 0 img :: saved_paths E dir (S t0) (S k) rest.
Proof.
  unfold saved_paths. rewrite imap_cons. f_equal.
  apply imap_ext. intros i x _. apply saved_path_S.
Qed.

Lemma write_files_cons f p b l :
  write_files f ((p, b) :: l) = write_files (<[p := b]> f) l.
Proof. reflexivity. Qed.

(** One turn of the loop of the persister: the clock is read, then the
    data is decoded, then the file is written and reported; a fragment
    without data and a refused write end the call with an exception. *)
Lemma save_loop_step E dir img rest paths w :
  save_loop E dir (img :: rest) paths w =
  let p := saved_path E dir (ticks w) (length paths) 0 img in
  match Types.data img with
  | None => (Thrown "TypeError", after_tick w)
  | Some d =>
      match write_error E p with
      | Some e => (Thrown e, after_tick w)
      | None =>
          save_loop E dir rest (paths ++ [p])
            (add_stderr ["Saved: " ++ p]
               (set_files (<[p := buffer_from E d]> (files w))
                  (after_tick w)))
      end
  end.
Proof.
  cbv zeta. unfold saved_path. rewrite !Nat.add_0_r.
  cbn [save_loop]. unfold bind at 1. unfold date_now at 1.
  fold (after_tick w).
  destruct (Types.data img) as [d|]; [|reflexivity].
  unfold bind at 1. unfold ret at 1.
  unfold bind at 1. unfold bun_write at 1.
  destruct (write_error E _) as [e|]; [reflexivity|].
  unfold bind at 1. unfold console_error at 1. reflexivity.
Qed.

(** The loop of the persister, run to its end when every image carries
    data and every write is accepted: one clock reading, one write and
    one diagnostic per image, the index counted from the length of
    [paths]. *)
Lemma save_loop_run E dir imgs : forall paths w,
  Forall has_data imgs ->
  writes_accepted E (saved_paths E dir (ticks w) (length paths) imgs) ->
  save_loop E dir imgs paths w =
  let new := saved_paths E dir (ticks w) (length paths) imgs in
  (Done (paths ++ new)%list,
   {| files := write_files (files w) (zip new (map (image_bytes E) imgs));
      dirs := dirs w; stdin := stdin w; stdout := stdout w;
      stderr := (stderr w ++ map (String.append "Saved: ") new)%list;
      ticks := ticks w + length imgs |}).
Proof.
  induction imgs as [|img rest IH]; intros paths w Hd Hw; cbv zeta.
  - simpl. unfold ret. rewrite !app_nil_r, Nat.add_0_r. by destruct w.
  - apply Forall_cons in Hd as [[d Hd] Hrest].
    rewrite saved_paths_cons in *.
    apply Forall_cons in Hw as [Hw0 Hw].
    rewrite save_loop_step. cbv zeta. rewrite Hd, Hw0.
    rewrite IH; [|assumption|].
    + cbv zeta. rewrite length_app. simpl.
      replace (length paths + 1)%nat with (S (length paths)) by lia.
      unfold image_bytes at 2. rewrite Hd. simpl.
      rewrite <- !app_assoc. simpl.
      replace (ticks w + S (length rest))%nat
        with (S (ticks w + length rest)) by lia.
      reflexivity.
    + rewrite length_app. simpl.
      by replace (length paths + 1)%nat with (S (length paths)) by lia.
Qed.

(** The loop of the persister, however it ends: it writes neither to the
    primary output stream nor to directories, every file it changes is
    the file of one of the images, it never ends the process, it
    completes only if each image carries data and each write is accepted,
    and it throws only for want of data or on a refused write. *)
Lemma save_loop_any E dir imgs : forall paths w r w',
  save_loop E dir imgs paths w = (r, w') ->
  stdout w' = stdout w /\ stdin w' = stdin w /\ dirs w' = dirs w
  /\ (forall p, files w' !! p <> files w !! p ->
        exists i img, imgs !! i = Some img
                      /\ p = saved_path E dir (ticks w) (length paths) i img)
  /\ match r with
     | Done _ =>
         Forall has_data imgs
         /\ writes_accepted E
              (saved_paths E dir (ticks w) (length paths) imgs)
     | Exited _ => False
     | Thrown e =>
         (exists img, img ∈ imgs /\ Types.data img = None)
         \/ (exists p, p ∈ saved_paths E dir (ticks w) (length paths) imgs
                       /\ write_error E p = Some e)
     end.
Proof.
  induction imgs as [|img rest IH]; intros paths w r w'.
  - simpl. unfold ret. intros [= <- <-].
    repeat split; try done. constructor.
  - rewrite save_loop_step. cbv zeta.
    destruct (Types.data img) as [d|] eqn:Hd.
    2:{ intros [= <- <-]. repeat split; try done.
        left. exists img. split; [apply list_elem_of_here | exact Hd]. }
    destruct (write_error E _) as [e|] eqn:Hw.
    { intros [= <- <-]. repeat split; try done. right.
      eexists. split; [|exact Hw].
      rewrite saved_paths_cons. apply list_elem_of_here. }
    intros Hrun. apply IH in Hrun as (Ho & Hi & Hdir & Hch & Hr).
    split; [exact Ho|]. split; [exact Hi|]. split; [exact Hdir|].
    cbn [ticks add_stderr set_files after_tick files] in Hch, Hr.
    rewrite length_app in Hch, Hr. simpl in Hch, Hr.
    replace (length paths + 1)%nat with (S (length paths)) in Hch, Hr by lia.
    split.
    + intros p Hp.
      destruct (decide
                  (p = saved_path E dir (ticks w) (length paths) 0 img))
        as [->|Hne].
      * exists 0%nat, img. by split.
      * destruct (Hch p) as (i & x & Hi' & ->).
        { by rewrite lookup_insert_ne. }
        exists (S i), x. split; [exact Hi'|]. by rewrite saved_path_S.
    + destruct r as [ps|c|e].
      * destruct Hr as [Hall Hacc]. split.
        { constructor; [by exists d | exact Hall]. }
        rewrite saved_paths_cons. by constructor.
      * exact Hr.
      * destruct Hr as [(x & Hx & Hnone)|(p & Hp & He)].
        { left. exists x.
          split; [by apply list_elem_of_further | exact Hnone]. }
        right. exists p. split; [|exact He].
        rewrite saved_paths_cons. by apply list_elem_of_further.
Qed.

(** [saveImages], down to its loop. *)
Lemma saveImages_step E parts dir w :
  saveImages E parts dir w =
  match images_of parts with
  | [] => (Done [], w)
  | _ :: _ =>
      if bool_decide (is_Some (files w !! dir)) || bool_decide (dir ∈ dirs w)
      then save_loop E dir (images_of parts) [] w
      else match mkdir_error E dir with
           | Some e => (Thrown e, w)
           | None =>
               save_loop E dir (images_of parts) []
                 {| files := files w; dirs := {[dir]} ∪ dirs w;
                    stdin := stdin w; stdout := stdout w;
                    stderr := stderr w; ticks := ticks w |}
           end
  end.
Proof.
  unfold saveImages. rewrite filter_is_image.
  destruct (images_of parts) as [|img rest]; [reflexivity|].
  change (length (img :: rest) =? 0)%nat with false. cbv iota.
  unfold bind at 1. unfold existsSync at 1.
  destruct (bool_decide _ || bool_decide _); cbn [negb].
  - reflexivity.
  - unfold bind at 1. unfold mkdirSync at 1.
    by destruct (mkdir_error E dir).
Qed.

Lemma saveImages_step_nonempty E parts dir w :
  images_of parts <> [] ->
  saveImages E parts dir w =
  if bool_decide (is_Some (files w !! dir)) || bool_decide (dir ∈ dirs w)
  then save_loop E dir (images_of parts) [] w
  else match mkdir_error E dir with
       | Some e => (Thrown e, w)
       | None =>
           save_loop E dir (images_of parts) []
             {| files := files w; dirs := {[dir]} ∪ dirs w;
                stdin := stdin w; stdout := stdout w;
                stderr := stderr w; ticks := ticks w |}
       end.
Proof.
  intros Hne. rewrite saveImages_step.
  by destruct (images_of parts).
Qed.

(** A whole persist call whose images all carry data, on a file system
    that accepts the directory and the writes. *)
Lemma saveImages_run E parts dir w :
  Forall has_data (images_of parts) ->
  dir_ready E dir w ->
  writes_accepted E (saved_paths E dir (ticks w) 0 (images_of parts)) ->
  let paths := saved_paths E dir (ticks w) 0 (images_of parts) in
  exists w',
    saveImages E parts dir w = (Done paths, w')
    /\ files w' = write_files (files w)
                    (zip paths (map (image_bytes E) (images_of parts)))
    /\ stdout w' = stdout w
    /\ stderr w' = (stderr w ++ map (String.append "Saved: ") paths)%list
    /\ ticks w' = (ticks w + length (images_of parts))%nat.
Proof.
  intros Hd Hdir Hw. cbv zeta. rewrite saveImages_step.
  destruct (images_of parts) as [|img rest] eqn:Himgs.
  - exists w. simpl. rewrite app_nil_r, Nat.add_0_r. by repeat split.
  - destruct (bool_decide (is_Some (files w !! dir))
              || bool_decide (dir ∈ dirs w)) eqn:Hex.
    + rewrite save_loop_run by assumption. cbv zeta.
      eexists. by repeat split.
    + apply orb_false_iff in Hex as [Hf Hdd].
      apply bool_decide_eq_false in Hdd.
      destruct Hdir as [_ [?|Hmk]]; [tauto|]. rewrite Hmk.
      rewrite save_loop_run by assumption. cbv zeta.
      eexists. by repeat split.
Qed.

(** A persist call, however it ends. *)
Lemma saveImages_any E parts dir w r w' :
  saveImages E parts dir w = (r, w') ->
  stdout w' = stdout w /\ stdin w' = stdin w /\ dirs w ⊆ dirs w'
  /\ (forall p, files w' !! p <> files w !! p ->
        exists i img, images_of parts !! i = Some img
                      /\ p = saved_path E dir (ticks w) 0 i img)
  /\ match r with
     | Done _ =>
         Forall has_data (images_of parts)
         /\ writes_accepted E
              (saved_paths E dir (ticks w) 0 (images_of parts))
     | Exited _ => False
     | Thrown e =>
         (exists img, img ∈ images_of parts /\ Types.data img = None)
         \/ (exists p, p ∈ saved_paths E dir (ticks w) 0 (images_of parts)
                       /\ write_error E p = Some e)
         \/ mkdir_error E dir = Some e
     end.
Proof.
  rewrite saveImages_step.
  destruct (images_of parts) as [|img rest] eqn:Himgs.
  { intros [= <- <-]. repeat split; try done; constructor. }
  destruct (bool_decide (is_Some (files w !! dir))
            || bool_decide (dir ∈ dirs w)) eqn:Hex.
  - intros H%save_loop_any. destruct H as (Ho & Hi & Hd & Hch & Hr).
    split; [exact Ho|]. split; [exact Hi|]. split; [by rewrite Hd|].
    split; [exact Hch|].
    destruct r as [ps|c|e]; [exact Hr|exact Hr|tauto].
  - destruct (mkdir_error E dir) as [e0|] eqn:Hmk.
    { intros [= <- <-]. repeat split; try done. right. by right. }
    intros H%save_loop_any. destruct H as (Ho & Hi & Hd & Hch & Hr).
    split; [exact Ho|]. split; [exact Hi|].
    split; [rewrite Hd; simpl; apply union_subseteq_r|].
    split; [exact Hch|].
    destruct r as [ps|c|e]; [exact Hr|exact Hr|tauto].
Qed.

(** A persist call that completes has behaved as [saveImages_run]
    tells. *)
Lemma saveImages_done E parts dir w paths w' :
  saveImages E parts dir w = (Done paths, w') ->
  paths = saved_paths E dir (ticks w) 0 (images_of parts)
  /\ files w' = write_files (files w)
                  (zip paths (map (image_bytes E) (images_of parts)))
  /\ stdout w' = stdout w
  /\ stderr w' = (stderr w ++ map (String.append "Saved: ") paths)%list
  /\ ticks w' = (ticks w + length (images_of parts))%nat.
Proof.
  intros Hrun. pose proof Hrun as Hrun'. revert Hrun'.
  rewrite saveImages_step.
  destruct (images_of parts) as [|img rest] eqn:Himgs.
  { intros [= <- <-]. simpl. rewrite app_nil_r, Nat.add_0_r. by repeat split. }
  assert (Hloop : forall w0, ticks w0 = ticks w -> files w0 = files w ->
            stdout w0 = stdout w -> stderr w0 = stderr w ->
            save_loop E dir (img :: rest) [] w0 = (Done paths, w') ->
            paths = saved_paths E dir (ticks w) 0 (img :: rest)
            /\ files w' = write_files (files w)
                 (zip paths (map (image_bytes E) (img :: rest)))
            /\ stdout w' = stdout w
            /\ stderr w' = (stderr w ++ map (String.append "Saved: ") paths)%list
            /\ ticks w' = (ticks w + length (img :: rest))%nat).
  { intros w0 Ht Hf Ho He Hl. pose proof Hl as Hl'.
    apply save_loop_any in Hl' as (_ & _ & _ & _ & Hall & Hacc).
    rewrite save_loop_run in Hl by assumption. cbv zeta in Hl.
    change (length (@nil string)) with 0%nat in Hl.
    rewrite Ht, Hf, Ho, He in Hl. injection Hl as <- <-.
    by repeat split. }
  destruct (bool_decide (is_Some (files w !! dir))
            || bool_decide (dir ∈ dirs w)).
  - by apply Hloop.
  - destruct (mkdir_error E dir); [discriminate|]. by apply Hloop.
Qed.

(** The paths of a persist call, spelled out. *)
Lemma saved_paths_names E dir t0 imgs :
  saved_paths E dir t0 0 imgs =
  imap (fun i img =>
          path_join E dir
            ("imgx-" ++ pretty (clock E (t0 + i)) ++ "-" ++ pretty i ++ "."
             ++ extension (Types.mimeType img))) imgs.
Proof. reflexivity. Qed.

(** The loader's encoding is well-formed base64 text, so that the
    persister's [Buffer.from] reads it back as RFC 4648 tells. *)
Lemma std_enc_char (n : N) :
  (n < 64)%N -> Base64.std_char (Base64.enc_char n) = true.
Proof.
  intros Hn.
  assert (Hall : forallb (fun k =>
              Base64.std_char (Base64.enc_char (N.of_nat k)))
            (seq 0 64) = true) by (vm_compute; reflexivity).
  rewrite forallb_forall in Hall.
  specialize (Hall (N.to_nat n)). rewrite N2Nat.id in Hall.
  apply Hall, in_seq. lia.
Qed.

Lemma well_formed_encode (bs : list byte) :
  Base64.well_formed (Base64.encode bs) = true.
Proof.
  induction bs as [|a|a b|a b c l IH] using Base64Facts.list_ind3.
  - reflexivity.
  - destruct (Base64Facts.sextet_bounds a a a) as (B1 & B2 & _).
    cbn [Base64.encode Base64.well_formed].
    rewrite !std_enc_char by assumption. reflexivity.
  - destruct (Base64Facts.sextet_bounds a b b) as (B1 & _ & B3 & B4 & _).
    cbn [Base64.encode Base64.well_formed].
    rewrite !std_enc_char by assumption. reflexivity.
  - destruct (Base64Facts.sextet_bounds a b c) as (B1 & _ & B3 & _ & B5 & B6).
    rewrite Base64Facts.encode_3. cbn [Base64.well_formed].
    rewrite !std_enc_char by assumption. rewrite IH.
    by destruct (Base64.encode l).
Qed.

Lemma buffer_from_toBase64 E (bs : list byte) :
  buffer_from E (Input.toBase64 bs) = bs.
Proof.
  unfold buffer_from, Input.toBase64.
  by rewrite well_formed_encode, Base64Facts.decode_encode.
Qed.

(** C2, amended: in a persist call the clock is read once per image, when
    the name of that image's file is built.  Whatever the outcome of the
    call, every file it creates or changes is, for an index [i] of an image
    in the sequence, the file imgx-<t_i>-<i>.<ext> of the output
    directory, [t_i] being the [i]-th clock reading of the call.  When the
    call completes, the returned paths are these names for [i] = 0 .. n-1
    in sequence order, the files hold the bytes of the images, and the
    names share one timestamp [t] if the clock showed [t] at each of the
    [n] readings.  The call completes when every image carries data, no
    regular file stands at the output directory, which exists or can be
    created, and the file system accepts the writes. *)
Theorem saveImages_names E parts dir w :
  let name := fun (i : nat) (img : Types.ParsedPart) =>
    path_join E dir
      ("imgx-" ++ pretty (clock E (ticks w + i)) ++ "-" ++ pretty i ++ "."
       ++ extension (Types.mimeType img)) in
  (forall r w' p,
      saveImages E parts dir w = (r, w') ->
      files w' !! p <> files w !! p ->
      exists i img, images_of parts !! i = Some img /\ p = name i img)
  /\ (forall paths w',
        saveImages E parts dir w = (Done paths, w') ->
        paths = imap name (images_of parts)
        /\ files w' =
             write_files (files w)
               (zip (imap name (images_of parts))
                    (map (image_bytes E) (images_of parts)))
        /\ forall t : Z,
             (forall i, (i < length (images_of parts))%nat ->
                        clock E (ticks w + i) = t) ->
             paths = imap (fun i img =>
                             path_join E dir
                               ("imgx-" ++ pretty t ++ "-" ++ pretty i ++ "."
                                ++ extension (Types.mimeType img)))
                       (images_of parts))
  /\ (Forall has_data (images_of parts) ->
      dir_ready E dir w ->
      writes_accepted E (imap name (images_of parts)) ->
      exists w',
        saveImages E parts dir w = (Done (imap name (images_of parts)), w')).
Proof.
  cbv zeta. split; [|split].
  - intros r w' p Hrun Hp.
    apply saveImages_any in Hrun as (_ & _ & _ & Hch & _).
    exact (Hch p Hp).
  - intros paths w' Hrun.
    apply saveImages_done in Hrun as (Hpaths & Hfiles & _).
    rewrite saved_paths_names in Hpaths.
    split; [exact Hpaths|]. split; [by rewrite Hfiles, Hpaths|].
    intros t Ht. rewrite Hpaths. apply imap_ext. intros i img Hi.
    simpl. rewrite Ht; [reflexivity|]. by apply lookup_lt_Some in Hi.
  - intros Hd Hdir Hacc. rewrite <- saved_paths_names in *.
    destruct (saveImages_run E parts dir w Hd Hdir Hacc) as (w' & Hrun & _).
    by exists w'.
Qed.

Lemma saveImages_names_witness :
  Forall has_data (images_of Samples.two_images)
  /\ dir_ready
       (Samples.env Samples.ticking_clock Samples.clipboard_without_image)
       "out" Samples.empty_world
  /\ exists w',
    saveImages (Samples.env Samples.ticking_clock Samples.clipboard_without_image)
      Samples.two_images "out" Samples.empty_world =
      (Done ["out/imgx-1000-0.png"; "out/imgx-1001-1.jpg"], w')
    /\ files w' !! "out/imgx-1001-1.jpg" = Some [x00; x00; x00]
    /\ exists i img,
         images_of Samples.two_images !! i = Some img
         /\ "out/imgx-1001-1.jpg" =
            "out/" ++ "imgx-" ++ pretty (Samples.ticking_clock (0 + i)) ++ "-"
            ++ pretty i ++ "." ++ extension (Types.mimeType img).
Proof.
  assert (Hd : Forall has_data (images_of Samples.two_images))
    by (repeat constructor; eexists; reflexivity).
  assert (Hdir : dir_ready
            (Samples.env Samples.ticking_clock Samples.clipboard_without_image)
            "out" Samples.empty_world)
    by (split; [reflexivity | right; reflexivity]).
  split; [exact Hd|]. split; [exact Hdir|].
  destruct (saveImages_names
              (Samples.env Samples.ticking_clock Samples.clipboard_without_image)
              Samples.two_images "out" Samples.empty_world) as (H1 & H2 & H3).
  destruct (H3 Hd Hdir) as (w' & Hrun).
  { repeat constructor. }
  destruct (H2 _ _ Hrun) as (_ & Hf & _).
  assert (Hfile : files w' !! "out/imgx-1001-1.jpg" = Some [x00; x00; x00])
    by (rewrite Hf; vm_compute; reflexivity).
  exists w'. split; [exact Hrun|]. split; [exact Hfile|].
  apply (H1 _ _ _ Hrun). rewrite Hfile. vm_compute. discriminate.
Defined.

(** C2 as stated fails: no single timestamp names the files of a persist
    call during which the clock advances. *)
Lemma saveImages_single_timestamp_fails :
  ~ (forall E parts dir w, exists t : Z, forall paths w',
        saveImages E parts dir w = (Done paths, w') ->
        paths = imap (fun i img =>
                        path_join E dir
                          (image_filename t i (extension (Types.mimeType img))))
                  (images_of parts)).
Proof.
  intros H.
  destruct (H (Samples.env Samples.ticking_clock Samples.clipboard_without_image)
              Samples.two_images "out" Samples.empty_world) as [t Ht].
  specialize (Ht _ _ eq_refl).
  vm_compute images_of in Ht. cbn [imap] in Ht.
  unfold image_filename in Ht. simpl in Ht.
  injection Ht as H0 H1.
  destruct (pretty t) as [|c1 [|c2 [|c3 [|c4 s]]]];
    simpl in *; try discriminate.
  injection H0 as ?. injection H1 as ?. congruence.
Qed.

Lemma extension_split (ty sub : string) :
  JS.lacks "/" ty = true -> JS.lacks "/" sub = true ->
  extension (Some (ty ++ "/" ++ sub)) = JS.replace "jpeg" "jpg" sub.
Proof.
  intros Hty Hsub. unfold extension.
  change ("/" ++ sub) with (String "/" sub).
  rewrite StringFacts.split_app, StringFacts.split_lacks by assumption.
  reflexivity.
Qed.

(** C3, amended: the extension of a persisted image is "png" when the
    MIME type is absent or holds no "/"; for a MIME type type/subtype it
    is the subtype with the first occurrence of "jpeg" in it replaced by
    "jpg", so that subtype "jpeg" gives "jpg" and every subtype in which
    "jpeg" does not occur passes through verbatim.  A persist call over
    two Image fragments of types image/png and image/jpeg that completes
    returns, in input order, two paths that end in ".png" and ".jpg"; it
    completes when no regular file stands at the output directory, which
    exists or can be created, and the file system accepts the two
    writes. *)
Theorem extension_from_mime :
  extension None = "png"
  /\ (forall m, JS.lacks "/" m = true -> extension (Some m) = "png")
  /\ (forall ty sub,
        JS.lacks "/" ty = true -> JS.lacks "/" sub = true ->
        extension (Some (ty ++ "/" ++ sub)) = JS.replace "jpeg" "jpg" sub)
  /\ (forall ty sub rest,
        JS.lacks "/" ty = true -> JS.lacks "/" sub = true ->
        extension (Some (ty ++ "/" ++ sub ++ "/" ++ rest))
        = JS.replace "jpeg" "jpg" sub)
  /\ (forall ty,
        JS.lacks "/" ty = true -> extension (Some (ty ++ "/jpeg")) = "jpg")
  /\ (forall ty sub,
        JS.lacks "/" ty = true -> JS.lacks "/" sub = true ->
        JS.includes "jpeg" sub = false ->
        extension (Some (ty ++ "/" ++ sub)) = sub)
  /\ (forall E dir w d1 d2 paths w',
        saveImages E
          [Samples.image_part "image/png" d1;
           Samples.image_part "image/jpeg" d2] dir w = (Done paths, w') ->
        paths =
          [path_join E dir
             ("imgx-" ++ pretty (clock E (ticks w)) ++ "-0" ++ ".png");
           path_join E dir
             ("imgx-" ++ pretty (clock E (S (ticks w))) ++ "-1" ++ ".jpg")])
  /\ (forall E dir w d1 d2,
        dir_ready E dir w ->
        writes_accepted E
          [path_join E dir
             ("imgx-" ++ pretty (clock E (ticks w)) ++ "-0" ++ ".png");
           path_join E dir
             ("imgx-" ++ pretty (clock E (S (ticks w))) ++ "-1" ++ ".jpg")] ->
        exists w',
          saveImages E
            [Samples.image_part "image/png" d1;
             Samples.image_part "image/jpeg" d2] dir w =
          (Done [path_join E dir
                   ("imgx-" ++ pretty (clock E (ticks w)) ++ "-0" ++ ".png");
                 path_join E dir
                   ("imgx-" ++ pretty (clock E (S (ticks w))) ++ "-1"
                    ++ ".jpg")],
           w')).
Proof.
  assert (Hnames : forall E dir w d1 d2,
            saved_paths E dir (ticks w) 0
              (images_of [Samples.image_part "image/png" d1;
                          Samples.image_part "image/jpeg" d2]) =
            [path_join E dir
               ("imgx-" ++ pretty (clock E (ticks w)) ++ "-0" ++ ".png");
             path_join E dir
               ("imgx-" ++ pretty (clock E (S (ticks w))) ++ "-1" ++ ".jpg")]).
  { intros E dir w d1 d2. unfold saved_paths, images_of. simpl.
    unfold saved_path. rewrite Nat.add_0_r, Nat.add_1_r. reflexivity. }
  split; [reflexivity|]. split.
  { intros m Hm. unfold extension.
    by rewrite StringFacts.split_lacks. }
  split; [exact extension_split|]. split.
  { intros ty sub rest Hty Hsub. unfold extension.
    change ("/" ++ sub ++ "/" ++ rest) with (String "/" (sub ++ String "/" rest)).
    rewrite !StringFacts.split_app by assumption. reflexivity. }
  split.
  { intros ty Hty. exact (extension_split ty "jpeg" Hty eq_refl). }
  split.
  { intros ty sub Hty Hsub Hj. rewrite extension_split by assumption.
    by apply StringFacts.replace_absent. }
  split.
  { intros E dir w d1 d2 paths w' Hrun.
    apply saveImages_done in Hrun as (Hpaths & _).
    by rewrite Hpaths, Hnames. }
  intros E dir w d1 d2 Hdir Hacc.
  destruct (saveImages_run E
              [Samples.image_part "image/png" d1;
               Samples.image_part "image/jpeg" d2] dir w) as (w' & H & _).
  { repeat constructor; eexists; reflexivity. }
  { exact Hdir. }
  { by rewrite Hnames. }
  exists w'. by rewrite H, Hnames.
Qed.

Lemma extension_from_mime_witness :
  extension (Some "bmp") = "png"
  /\ extension (Some "image/pjpeg") = "pjpg"
  /\ extension (Some "image/jpeg") = "jpg"
  /\ extension (Some "image/svg+xml") = "svg+xml"
  /\ exists paths w',
       saveImages
         (Samples.env Samples.ticking_clock Samples.clipboard_without_image)
         [Samples.image_part "image/png" "AAAA";
          Samples.image_part "image/jpeg" "AAAA"] "out" Samples.empty_world =
       (Done paths, w')
       /\ paths = ["out/imgx-1000-0.png"; "out/imgx-1001-1.jpg"].
Proof.
  destruct extension_from_mime
    as (_ & Hno & Hsplit & _ & Hjpeg & Hverb & Hdone & Hrun).
  split; [apply (Hno "bmp"); reflexivity|].
  split; [apply (Hsplit "image" "pjpeg"); reflexivity|].
  split; [apply (Hjpeg "image"); reflexivity|].
  split; [apply (Hverb "image" "svg+xml"); reflexivity|].
  destruct (Hrun
              (Samples.env Samples.ticking_clock Samples.clipboard_without_image)
              "out" Samples.empty_world "AAAA" "AAAA") as (w' & Hr).
  - split; [reflexivity | right; reflexivity].
  - repeat constructor.
  - eexists _, w'. split; [exact Hr|].
    exact (Hdone _ _ _ _ _ _ _ Hr).
Defined.

(** C3 as stated fails: a subtype other than "jpeg" in which "jpeg"
    occurs does not pass through verbatim. *)
Lemma extension_verbatim_fails :
  ~ (forall ty sub : string,
        JS.lacks "/" ty = true -> JS.lacks "/" sub = true ->
        sub <> "jpeg" ->
        extension (Some (ty ++ "/" ++ sub)) = sub).
Proof.
  intros H. specialize (H "image" "pjpeg" eq_refl eq_refl).
  assert (Hne : "pjpeg" <> "jpeg") by discriminate.
  specialize (H Hne). vm_compute in H. discriminate.
Qed.

(** C9: what the loader's base64 encoding produces, the persister's
    decoding turns back into the original bytes, for every byte sequence:
    the encoding is well-formed base64 text, which [Buffer.from] decodes
    as RFC 4648 tells.  A persist call over an image fragment whose data
    is the encoding of a buffer, if it completes, has written that buffer
    to the single path it returns; it completes when no regular file
    stands at the output directory, which exists or can be created, and
    the file system accepts the write.  The minimal PNG of the test
    suite, a real PNG payload, survives the round trip. *)
Theorem base64_round_trip :
  (forall bs : list byte, Base64.decode (Input.toBase64 bs) = bs)
  /\ (forall bs : list byte,
        Base64.well_formed (Input.toBase64 bs) = true)
  /\ (forall E bs mime,
        image_bytes E (Image mime (Input.toBase64 bs)) = bs)
  /\ (forall E bs mime dir w,
        let p := path_join E dir
                   (image_filename (clock E (ticks w)) 0 (extension mime)) in
        (forall paths w',
            saveImages E [Image mime (Input.toBase64 bs)] dir w
              = (Done paths, w') ->
            paths = [p] /\ files w' !! p = Some bs)
        /\ (dir_ready E dir w -> write_error E p = None ->
            exists w',
              saveImages E [Image mime (Input.toBase64 bs)] dir w
                = (Done [p], w')
              /\ files w' !! p = Some bs))
  /\ Sniffer.detectMimeFromBytes (Base64.decode Samples.minimal_png)
     = Some "image/png"
  /\ length (Base64.decode Samples.minimal_png) = 70%nat
  /\ Input.toBase64 (Base64.decode Samples.minimal_png) = Samples.minimal_png
  /\ Base64.decode (Input.toBase64 (Base64.decode Samples.minimal_png))
     = Base64.decode Samples.minimal_png.
Proof.
  split; [exact Base64Facts.decode_encode|].
  split; [exact well_formed_encode|].
  split; [intros E bs mime; apply buffer_from_toBase64|].
  split.
  { intros E bs mime dir w p.
    assert (Hdone : forall paths w',
              saveImages E [Image mime (Input.toBase64 bs)] dir w
                = (Done paths, w') ->
              paths = [p] /\ files w' !! p = Some bs).
    { intros paths w' Hrun.
      apply saveImages_done in Hrun as (Hpaths & Hfiles & _).
      assert (Hp : paths = [p]).
      { rewrite Hpaths. unfold saved_paths, images_of, saved_path. simpl.
        by rewrite Nat.add_0_r. }
      split; [exact Hp|].
      rewrite Hfiles, Hp. unfold images_of, write_files, image_bytes. simpl.
      rewrite buffer_from_toBase64. apply lookup_insert_eq. }
    split; [exact Hdone|].
    intros Hdir Hacc.
    destruct (saveImages_run E [Image mime (Input.toBase64 bs)] dir w)
      as (w' & Hrun & _).
    { repeat constructor. eexists; reflexivity. }
    { exact Hdir. }
    { unfold saved_paths, images_of, saved_path. simpl.
      rewrite Nat.add_0_r. by repeat constructor. }
    destruct (Hdone _ _ Hrun) as [Hp Hf].
    exists w'. split; [by rewrite Hrun, Hp | exact Hf]. }
  split; [vm_compute; reflexivity|].
  split; [vm_compute; reflexivity|].
  split; [vm_compute; reflexivity|].
  apply Base64Facts.decode_encode.
Qed.

Lemma base64_round_trip_witness :
  exists paths w',
    saveImages
      (Samples.env Samples.ticking_clock Samples.clipboard_without_image)
      [Image (Some "image/png")
         (Input.toBase64 (Base64.decode Samples.minimal_png))]
      "out" Samples.empty_world
    = (Done paths, w')
    /\ paths = ["out/imgx-1000-0.png"]
    /\ files w' !! "out/imgx-1000-0.png"
       = Some (Base64.decode Samples.minimal_png).
Proof.
  destruct base64_round_trip as (_ & _ & _ & H & _).
  destruct (H (Samples.env Samples.ticking_clock Samples.clipboard_without_image)
              (Base64.decode Samples.minimal_png) (Some "image/png")
              "out" Samples.empty_world) as [Hdone Hrun].
  destruct Hrun as (w' & Hr & _).
  - split; [reflexivity | right; reflexivity].
  - reflexivity.
  - eexists _, w'. split; [exact Hr|]. exact (Hdone _ _ Hr).
Defined.

End PersisterFacts.

(** ** The classifier *)

Module ClassifierFacts.
Import Output.

(** One turn of the loop pushes the fragment of the element, if any. *)
Lemma parse_step_fragment (acc : list Types.ParsedPart) (part : Genai.Part) :
  parse_step acc part = (acc ++ option_list (fragment_of part))%list.
Proof.
  destruct part as [th tx ec cr idata].
  unfold parse_step, fragment_of, carried_text, carried_code, carried_result,
    carried_image, marked_reasoning, truthy_flag. cbn [Genai.thought
    Genai.text Genai.executableCode Genai.codeExecutionResult Genai.inlineData].
  destruct tx as [[|c t]|]; destruct th as [[|]|];
    destruct ec as [[[[|c2 k]|] lang]|]; destruct cr as [[oc out]|];
    destruct idata as [[[[|c3 d]|] m]|];
    cbn; rewrite ?app_nil_r; reflexivity.
Qed.

Lemma parse_loop (elements : list Genai.Part) : forall acc,
  foldl parse_step acc elements = (acc ++ omap fragment_of elements)%list.
Proof.
  induction elements as [|p l IH]; intros acc; simpl.
  - by rewrite app_nil_r.
  - rewrite IH, parse_step_fragment. rewrite <- app_assoc. f_equal.
    unfold omap. simpl. destruct (fragment_of p); reflexivity.
Qed.

Lemma parseResponse_omap (response : Genai.GenerateContentResponse) :
  parseResponse response = omap fragment_of (first_candidate_elements response).
Proof.
  unfold parseResponse, first_candidate_elements.
  destruct (Genai.candidates response) as [[|first rest]|]; try reflexivity.
  by rewrite parse_loop.
Qed.

Lemma length_omap_le {A B} (f : A -> option B) (l : list A) :
  (length (omap f l) <= length l)%nat.
Proof.
  induction l as [|x l IH]; simpl; [lia|].
  unfold omap in *. simpl. destruct (f x); simpl; lia.
Qed.

(** Every Image fragment the classifier emits carries its data. *)
Lemma fragment_has_data (part : Genai.Part) (p : Types.ParsedPart) :
  fragment_of part = Some p -> Types.type p = Types.image -> has_data p.
Proof.
  unfold fragment_of.
  destruct (carried_text part); [destruct (marked_reasoning part)|];
    [intros [= <-]; discriminate | intros [= <-]; discriminate |].
  destruct (carried_code part); [intros [= <-]; discriminate|].
  destruct (carried_result part); [intros [= <-]; discriminate|].
  destruct (carried_image part) as [[m d]|]; [|discriminate].
  intros [= <-] _. by exists d.
Qed.

Lemma parseResponse_images_have_data (r : Genai.GenerateContentResponse) :
  Forall has_data (images_of (parseResponse r)).
Proof.
  rewrite parseResponse_omap. apply Forall_forall. intros p Hp.
  apply list_elem_of_filter in Hp as [Himg Hin].
  apply list_elem_of_omap in Hin as (part & _ & Hfrag).
  exact (fragment_has_data part p Hfrag Himg).
Qed.

Lemma nonempty_Some (o : option string) (s : string) :
  o = Some s -> s <> "" -> nonempty o = Some s.
Proof. intros -> Hs. unfold nonempty. by case_decide. Qed.

(** C4: the classifier reads the content list of the first candidate only
    and turns each element into at most one fragment, by the first rule
    that matches, in the order reasoning-with-text, text, executable code
    with non-empty code, code-execution result (its output, or the empty
    string), inline data; an element that matches no rule gives no
    fragment, and the fragments come in the order of the elements.  An
    element carries a text or an inline payload when the field is present
    and not empty.  The six-element list of the specification classifies to
    Reasoning, Narration, Code, ExecutionResult with empty content, Image,
    Narration. *)
Theorem parseResponse_classifies :
  (forall r, parseResponse r = omap fragment_of (first_candidate_elements r))
  /\ (forall c cs,
        parseResponse {| Genai.candidates := Some (c :: cs) |} =
        parseResponse {| Genai.candidates := Some [c] |})
  /\ parseResponse {| Genai.candidates := None |} = []
  /\ parseResponse {| Genai.candidates := Some [] |} = []
  /\ (forall r,
        (length (parseResponse r) <= length (first_candidate_elements r))%nat)
  /\ (forall l1 l2,
        parseResponse (Samples.mockResponse (l1 ++ l2)) =
        (parseResponse (Samples.mockResponse l1)
         ++ parseResponse (Samples.mockResponse l2))%list)
  /\ (forall p,
        parseResponse (Samples.mockResponse [p]) = option_list (fragment_of p))
  /\ (forall p t,
        Genai.thought p = Some true -> Genai.text p = Some t -> t <> "" ->
        fragment_of p = Some (Reasoning t))
  /\ (forall p t,
        Genai.thought p <> Some true -> Genai.text p = Some t -> t <> "" ->
        fragment_of p = Some (Narration t))
  /\ (forall p ec c,
        carried_text p = None ->
        Genai.executableCode p = Some ec -> Genai.code ec = Some c ->
        c <> "" ->
        fragment_of p = Some (Code c))
  /\ (forall p r,
        carried_text p = None -> carried_code p = None ->
        Genai.codeExecutionResult p = Some r ->
        fragment_of p = Some (ExecutionResult (default "" (Genai.output r))))
  /\ (forall p b d,
        carried_text p = None -> carried_code p = None ->
        Genai.codeExecutionResult p = None ->
        Genai.inlineData p = Some b -> Genai.data b = Some d -> d <> "" ->
        fragment_of p = Some (Image (Genai.mimeType b) d))
  /\ (forall p,
        carried_text p = None -> carried_code p = None ->
        Genai.codeExecutionResult p = None -> carried_image p = None ->
        fragment_of p = None)
  /\ parseResponse (Samples.mockResponse Samples.six_elements) =
       [Reasoning "I should analyze this";
        Narration "Here's my analysis:";
        Code "import cv2";
        ExecutionResult "";
        Image (Some "image/png") "AAAA";
        Narration "The annotated image is above."].
Proof.
  split; [exact parseResponse_omap|].
  split; [reflexivity|]. split; [reflexivity|]. split; [reflexivity|].
  split. { intros r. rewrite parseResponse_omap. apply length_omap_le. }
  split. { intros l1 l2. rewrite !parseResponse_omap. apply omap_app. }
  split. { intros p. rewrite parseResponse_omap. unfold omap. simpl.
           by destruct (fragment_of p). }
  split.
  { intros p t Hth Htx Ht. unfold fragment_of, carried_text, marked_reasoning.
    rewrite (nonempty_Some _ t Htx Ht).
    by rewrite bool_decide_eq_true_2. }
  split.
  { intros p t Hth Htx Ht. unfold fragment_of, carried_text, marked_reasoning.
    rewrite (nonempty_Some _ t Htx Ht).
    by rewrite bool_decide_eq_false_2. }
  split.
  { intros p ec c Hnt Hec Hc Hne. unfold fragment_of, carried_code.
    rewrite Hnt, Hec. simpl. by rewrite (nonempty_Some _ c Hc Hne). }
  split.
  { intros p r Hnt Hnc Hr. unfold fragment_of, carried_result.
    by rewrite Hnt, Hnc, Hr. }
  split.
  { intros p b d Hnt Hnc Hnr Hb Hd Hne.
    unfold fragment_of, carried_result, carried_image.
    rewrite Hnt, Hnc, Hnr, Hb. by rewrite (nonempty_Some _ d Hd Hne). }
  split.
  { intros p Hnt Hnc Hnr Hni. unfold fragment_of, carried_result.
    by rewrite Hnt, Hnc, Hnr, Hni. }
  reflexivity.
Qed.

Lemma parseResponse_classifies_witness :
  fragment_of (Samples.thought_element "thinking...")
    = Some (Reasoning "thinking...")
  /\ fragment_of (Samples.text_element "answer") = Some (Narration "answer")
  /\ fragment_of (Samples.code_element "print(42)") = Some (Code "print(42)")
  /\ fragment_of (Samples.result_element None) = Some (ExecutionResult "")
  /\ fragment_of (Samples.image_element "image/png" "AAA")
       = Some (Image (Some "image/png") "AAA")
  /\ fragment_of Genai.emptyPart = None.
Proof.
  destruct parseResponse_classifies
    as (_ & _ & _ & _ & _ & _ & _ & R1 & R2 & R3 & R4 & R5 & R6 & _).
  split; [apply (R1 (Samples.thought_element "thinking..."));
          [reflexivity | reflexivity | discriminate]|].
  split; [apply (R2 (Samples.text_element "answer"));
          [discriminate | reflexivity | discriminate]|].
  split; [eapply (R3 (Samples.code_element "print(42)"));
          [reflexivity | reflexivity | reflexivity | discriminate]|].
  split; [apply (R4 (Samples.result_element None)
                    {| Genai.outcome := Some "OUTCOME_OK";
                       Genai.output := None |}); reflexivity|].
  split; [apply (R5 (Samples.image_element "image/png" "AAA")
                    {| Genai.data := Some "AAA";
                       Genai.mimeType := Some "image/png" |});
          try reflexivity; discriminate|].
  apply (R6 Genai.emptyPart); reflexivity.
Defined.

End ClassifierFacts.

(** ** The renderer *)

Module RendererFacts.
Import Runtime Output.

Lemma add_stdout_nil (w : World) : add_stdout [] w = w.
Proof. destruct w. unfold add_stdout. simpl. by rewrite app_nil_r. Qed.

Lemma add_stdout_app (l1 l2 : list string) (w : World) :
  add_stdout l2 (add_stdout l1 w) = add_stdout (l1 ++ l2) w.
Proof. unfold add_stdout. simpl. by rewrite app_assoc. Qed.

(** A loop that logs one line for every element. *)
Lemma for_each_log {A} (g : A -> string) (l : list A) : forall w,
  for_each l (fun p => console_log (g p)) w = (Done tt, add_stdout (map g l) w).
Proof.
  induction l as [|x l IH]; intros w; simpl.
  - unfold ret. by rewrite add_stdout_nil.
  - unfold bind at 1. unfold console_log at 1.
    rewrite IH. f_equal. unfold add_stdout. simpl. by rewrite <- app_assoc.
Qed.

(** A loop that logs the content of the elements of one variant. *)
Lemma for_each_variant (t : Types.PartType) (l : list Types.ParsedPart) :
  forall w,
  for_each l (fun p => if Types.PartType_eqb (Types.type p) t
                       then console_log (Types.content p) else ret tt) w
  = (Done tt,
     add_stdout (map Types.content (filter (fun p => Types.type p = t) l)) w).
Proof.
  induction l as [|x l IH]; intros w; simpl.
  - unfold ret. by rewrite add_stdout_nil.
  - unfold bind at 1. rewrite filter_cons.
    destruct (decide (Types.type x = t)) as [Heq|Hne].
    + rewrite Heq. replace (Types.PartType_eqb t t) with true by by destruct t.
      unfold console_log at 1. rewrite IH. f_equal.
      unfold add_stdout. simpl. by rewrite <- app_assoc.
    + replace (Types.PartType_eqb (Types.type x) t) with false
        by (destruct (Types.type x), t; try reflexivity; congruence).
      unfold ret at 1. apply IH.
Qed.

Lemma formatOutput_rendered parts opts w :
  formatOutput parts opts w
  = (Done tt, add_stdout (rendered (mode_of opts) parts) w).
Proof.
  unfold formatOutput, mode_of.
  destruct (Types.json opts); [reflexivity|].
  destruct (Types.quiet opts); [unfold ret; by rewrite add_stdout_nil|].
  destruct (Types.code opts); [apply for_each_variant|].
  destruct (Types.verbose opts); [apply for_each_log|].
  apply for_each_variant.
Qed.

(** C8: the flags select exactly one of the five modes, JSON before
    quiet before code-only before verbose before default; the renderer
    sends to the primary output stream what the selected mode prescribes;
    and in quiet mode it leaves the primary output stream, and the whole
    process state, as it found it, whatever the fragments. *)
Theorem formatOutput_modes :
  (forall opts, Types.json opts = true -> mode_of opts = JsonMode)
  /\ (forall opts, Types.json opts = false -> Types.quiet opts = true ->
                   mode_of opts = QuietMode)
  /\ (forall opts, Types.json opts = false -> Types.quiet opts = false ->
                   Types.code opts = true -> mode_of opts = CodeOnlyMode)
  /\ (forall opts, Types.json opts = false -> Types.quiet opts = false ->
                   Types.code opts = false -> Types.verbose opts = true ->
                   mode_of opts = VerboseMode)
  /\ (forall opts, Types.json opts = false -> Types.quiet opts = false ->
                   Types.code opts = false -> Types.verbose opts = false ->
                   mode_of opts = DefaultMode)
  /\ (forall parts opts w,
        formatOutput parts opts w
        = (Done tt, add_stdout (rendered (mode_of opts) parts) w))
  /\ (forall parts opts w,
        mode_of opts = QuietMode ->
        formatOutput parts opts w = (Done tt, w)
        /\ stdout (snd (formatOutput parts opts w)) = stdout w).
Proof.
  repeat split; try (intros opts; unfold mode_of; by intros; simplify_eq;
    repeat match goal with H : _ = _ |- _ => rewrite H end).
  - intros. apply formatOutput_rendered.
  - rewrite formatOutput_rendered, H. simpl. by rewrite add_stdout_nil.
  - rewrite formatOutput_rendered, H. simpl. by rewrite app_nil_r.
Qed.

Lemma formatOutput_modes_witness :
  mode_of (Samples.options false true true true) = QuietMode
  /\ formatOutput Samples.mixedParts (Samples.options false true true true)
       Samples.empty_world = (Done tt, Samples.empty_world)
  /\ stdout (snd (formatOutput Samples.mixedParts
                    (Samples.options false true true true)
                    Samples.empty_world)) = [].
Proof.
  destruct formatOutput_modes as (_ & Hq & _ & _ & _ & _ & Hquiet).
  assert (Hm : mode_of (Samples.options false true true true) = QuietMode)
    by (apply Hq; reflexivity).
  split; [exact Hm|].
  exact (Hquiet Samples.mixedParts _ Samples.empty_world Hm).
Defined.

End RendererFacts.

(** ** The dispatch of the loader *)

Module DispatchFacts.
Import Runtime Input.

Lemma eqb_decide (a b : string) : String.eqb a b = bool_decide (a = b).
Proof.
  destruct (String.eqb_spec a b).
  - by rewrite bool_decide_eq_true_2.
  - by rewrite bool_decide_eq_false_2.
Qed.

Lemma loadImagePart_dispatch E source :
  loadImagePart E source = load E (source_kind source) source.
Proof.
  unfold loadImagePart, source_kind. rewrite !eqb_decide.
  repeat case_bool_decide; repeat case_decide; try tauto; try reflexivity.
  destruct (JS.startsWith source "http://"); [reflexivity|].
  destruct (JS.startsWith source "https://"); reflexivity.
Qed.

(** C7: the loader resolves a descriptor to stdin when it is "-", else to
    the clipboard when it is "clipboard", else to an HTTP GET when it
    starts with "http://" or "https://", else to a local file, and runs
    the loader of that kind; a path literally named clipboard is read
    from the clipboard, not from the file. *)
Theorem loadImagePart_precedence :
  (forall E source, loadImagePart E source = load E (source_kind source) source)
  /\ source_kind "-" = Stdin
  /\ source_kind "clipboard" = Clipboard
  /\ (forall rest, source_kind ("http://" ++ rest) = Url)
  /\ (forall rest, source_kind ("https://" ++ rest) = Url)
  /\ (forall source,
        source <> "-" -> source <> "clipboard" ->
        (forall rest, source <> "http://" ++ rest) ->
        (forall rest, source <> "https://" ++ rest) ->
        source_kind source = File)
  /\ (forall source,
        source_kind source = File ->
        source <> "-" /\ source <> "clipboard"
        /\ (forall rest, source <> "http://" ++ rest)
        /\ (forall rest, source <> "https://" ++ rest))
  /\ (forall E, loadImagePart E "-" = loadFromStdin)
  /\ (forall E, loadImagePart E "clipboard" = loadFromClipboard E)
  /\ (forall E rest,
        loadImagePart E ("http://" ++ rest) = loadFromUrl E ("http://" ++ rest))
  /\ (forall E rest,
        loadImagePart E ("https://" ++ rest) = loadFromUrl E ("https://" ++ rest)).
Proof.
  split; [exact loadImagePart_dispatch|].
  split; [reflexivity|]. split; [reflexivity|].
  assert (Hhttp : forall rest, source_kind ("http://" ++ rest) = Url).
  { intros rest. unfold source_kind.
    rewrite (StringFacts.startsWith_app "http://" rest).
    repeat case_decide; try discriminate; reflexivity. }
  assert (Hhttps : forall rest, source_kind ("https://" ++ rest) = Url).
  { intros rest. unfold source_kind.
    rewrite (StringFacts.startsWith_app "https://" rest).
    repeat case_decide; try discriminate.
    by destruct (JS.startsWith _ _). }
  split; [exact Hhttp|]. split; [exact Hhttps|].
  split.
  { intros source H1 H2 H3 H4. unfold source_kind.
    repeat case_decide; try tauto.
    destruct (JS.startsWith source "http://") eqn:Ea.
    { apply StringFacts.startsWith_inv in Ea as [rest ->]. by destruct (H3 rest). }
    destruct (JS.startsWith source "https://") eqn:Eb; [|reflexivity].
    apply StringFacts.startsWith_inv in Eb as [rest ->]. by destruct (H4 rest). }
  split.
  { intros source Hk.
    split; [intros ->; discriminate|].
    split; [intros ->; discriminate|].
    split; intros rest ->; [rewrite Hhttp in Hk | rewrite Hhttps in Hk];
      discriminate. }
  split; [reflexivity|]. split; [reflexivity|].
  split; intros E rest; rewrite loadImagePart_dispatch;
    [by rewrite Hhttp | by rewrite Hhttps].
Qed.

Lemma loadImagePart_precedence_witness :
  source_kind "photo.jpg" = File
  /\ "clipboard" <> "-".
Proof.
  destruct loadImagePart_precedence as (_ & _ & _ & _ & _ & Hfile & Hinv & _).
  assert (H : source_kind "photo.jpg" = File).
  { apply (Hfile "photo.jpg"); try discriminate; intros rest; discriminate. }
  split; [exact H|].
  intros Heq. discriminate Heq.
Defined.

End DispatchFacts.

(** ** The loader *)

Module LoaderFacts.
Import Runtime Input.

Lemma length_eqb_nil {A} (l : list A) :
  (length l =? 0)%nat = bool_decide (l = []).
Proof. destruct l; reflexivity. Qed.

(** [loadFromFile], run: the three ways it ends. *)
Lemma loadFromFile_run E filePath w :
  loadFromFile E filePath w =
  match files w !! path_resolve E filePath with
  | Some buffer =>
      if decide (buffer = [])
      then (Exited Types.EXIT_INPUT_ERROR,
            add_stderr ["Error: File is empty: " ++ filePath] w)
      else (Done (makePart (toBase64 buffer) (file_mimeType buffer filePath)), w)
  | None =>
      if decide (path_resolve E filePath ∈ dirs w)
      then (Thrown "ENOENT", w)
      else (Exited Types.EXIT_INPUT_ERROR,
            add_stderr ["Error: File not found: " ++ filePath] w)
  end.
Proof.
  unfold loadFromFile, bind, existsSync, file_arrayBuffer, console_error,
    exit, ret.
  destruct (files w !! path_resolve E filePath) as [buffer|] eqn:Hf.
  - rewrite bool_decide_eq_true_2 by eauto. simpl. rewrite Hf.
    rewrite length_eqb_nil. case_bool_decide; case_decide; try tauto;
      reflexivity.
  - rewrite (bool_decide_eq_false_2 (is_Some None)) by (by intros [? ?]).
    simpl. case_bool_decide; case_decide; try tauto; simpl;
      rewrite ?Hf; reflexivity.
Qed.

Lemma lower_char_dot (c : ascii) :
  Ascii.eqb (JS.lower_char c) "." = Ascii.eqb c ".".
Proof. destruct c as [[] [] [] [] [] [] [] []]; reflexivity. Qed.

Lemma toLowerCase_app (a b : string) :
  JS.toLowerCase (a ++ b) = JS.toLowerCase a ++ JS.toLowerCase b.
Proof. induction a as [|c a IH]; simpl; [reflexivity | by rewrite IH]. Qed.

Lemma no_dot_toLowerCase (s : string) :
  JS.no_dot (JS.toLowerCase s) = JS.no_dot s.
Proof.
  unfold JS.no_dot. induction s as [|c s IH]; simpl; [reflexivity|].
  by rewrite lower_char_dot, IH.
Qed.

Lemma toLowerCase_empty (s : string) :
  JS.toLowerCase s = "" <-> s = "".
Proof. destruct s; simpl; split; intros; congruence. Qed.

Lemma lacks_app_sep (c : ascii) (a b : string) :
  JS.lacks c (a ++ String c b) = false.
Proof.
  induction a as [|d a IH]; simpl.
  - by rewrite Ascii.eqb_refl.
  - rewrite IH. apply andb_false_r.
Qed.

(** The regular expression finds the last dot and what follows it. *)
Lemma match_dot_ext_final (pre e : string) :
  JS.no_dot e = true -> e <> "" ->
  JS.match_dot_ext (pre ++ "." ++ e) = Some ("." ++ e).
Proof.
  intros He Hne. induction pre as [|c pre IH].
  - destruct e as [|d e]; [congruence|].
    change (JS.match_dot_ext (String "." (String d e))
            = Some (String "." (String d e))).
    cbn [JS.match_dot_ext]. rewrite He. reflexivity.
  - change (JS.match_dot_ext (String c (pre ++ String "." e))
            = Some ("." ++ e)).
    cbn [JS.match_dot_ext]. unfold JS.no_dot at 1.
    rewrite lacks_app_sep, !andb_false_r. exact IH.
Qed.

Lemma match_dot_ext_none (s : string) :
  JS.no_dot s = true -> JS.match_dot_ext s = None.
Proof.
  unfold JS.no_dot. induction s as [|c s IH]; [reflexivity|]. simpl.
  intros [Hc Hs]%andb_true_iff. apply negb_true_iff in Hc.
  rewrite Hc. simpl. by apply IH.
Qed.

Lemma match_dot_ext_trailing (pre : string) :
  JS.match_dot_ext (pre ++ ".") = None.
Proof.
  induction pre as [|c pre IH]; [reflexivity|].
  change (JS.match_dot_ext (String c (pre ++ String "." "")) = None).
  cbn [JS.match_dot_ext]. unfold JS.no_dot at 1.
  rewrite lacks_app_sep, !andb_false_r. exact IH.
Qed.

Lemma table_lookup (k v : string) :
  MIME_EXTENSIONS !! k = Some v <-> (k, v) ∈ extension_table.
Proof.
  unfold MIME_EXTENSIONS. symmetry. apply elem_of_list_to_map.
  apply (bool_decide_unpack (NoDup (extension_table.*1))). vm_compute. exact I.
Qed.

Lemma table_values (k v : string) :
  MIME_EXTENSIONS !! k = Some v -> JS.startsWith v "image/" = true.
Proof.
  rewrite table_lookup. unfold extension_table.
  rewrite !elem_of_cons, elem_of_nil.
  intros H.
  repeat destruct H as [H|H]; try contradiction;
    injection H as _ ->; reflexivity.
Qed.

Lemma mimeFromExtension_final (pre e : string) :
  JS.no_dot e = true ->
  mimeFromExtension (pre ++ "." ++ e)
  = default "image/jpeg" (MIME_EXTENSIONS !! ("." ++ JS.toLowerCase e)).
Proof.
  intros He. unfold mimeFromExtension.
  rewrite !toLowerCase_app.
  change (JS.toLowerCase ".") with ".".
  destruct (decide (e = "")) as [->|Hne].
  - change ("." ++ JS.toLowerCase "") with ".".
    rewrite match_dot_ext_trailing. reflexivity.
  - rewrite match_dot_ext_final; [reflexivity | |].
    + by rewrite no_dot_toLowerCase.
    + by rewrite toLowerCase_empty.
Qed.

Lemma mimeFromExtension_absent (path : string) :
  JS.no_dot path = true -> mimeFromExtension path = "image/jpeg".
Proof.
  intros H. unfold mimeFromExtension.
  rewrite match_dot_ext_none; [reflexivity|]. by rewrite no_dot_toLowerCase.
Qed.

(** C5: a file's MIME type is the sniffer's answer when it has one; only
    when the sniffer is silent is it looked up in the extension table
    under the lower-cased final dot-extension of the path, and an
    extension that is not in the table, or no extension at all, gives
    image/jpeg.  A file test.dat that starts with the JPEG signature loads
    as image/jpeg. *)
Theorem loadFromFile_mime :
  (forall E path w buffer,
      files w !! path_resolve E path = Some buffer -> buffer <> [] ->
      loadFromFile E path w
      = (Done (makePart (toBase64 buffer) (file_mimeType buffer path)), w))
  /\ (forall E path w part w',
        loadFromFile E path w = (Done part, w') ->
        exists buffer,
          files w !! path_resolve E path = Some buffer /\ buffer <> []
          /\ payload_mimeType part = Some (file_mimeType buffer path))
  /\ (forall buffer path m,
        Sniffer.detectMimeFromBytes buffer = Some m ->
        file_mimeType buffer path = m)
  /\ (forall buffer path,
        Sniffer.detectMimeFromBytes buffer = None ->
        file_mimeType buffer path = mimeFromExtension path)
  /\ (forall k v, MIME_EXTENSIONS !! k = Some v <-> (k, v) ∈ extension_table)
  /\ (forall pre e v,
        JS.no_dot e = true ->
        ("." ++ JS.toLowerCase e, v) ∈ extension_table ->
        mimeFromExtension (pre ++ "." ++ e) = v)
  /\ (forall pre e,
        JS.no_dot e = true ->
        (forall v, ("." ++ JS.toLowerCase e, v) ∉ extension_table) ->
        mimeFromExtension (pre ++ "." ++ e) = "image/jpeg")
  /\ (forall path,
        JS.no_dot path = true -> mimeFromExtension path = "image/jpeg")
  /\ mimeFromExtension "PHOTO.JPG" = "image/jpeg"
  /\ mimeFromExtension "archive.tar.Tiff" = "image/tiff"
  /\ (exists part,
        loadFromFile (Samples.env Samples.frozen_clock
                        Samples.clipboard_without_image)
          "test.dat" Samples.world_with_files
        = (Done part, Samples.world_with_files)
        /\ payload_mimeType part = Some "image/jpeg")
  /\ (exists part,
        loadFromFile (Samples.env Samples.frozen_clock
                        Samples.clipboard_without_image)
          "test.webp" Samples.world_with_files
        = (Done part, Samples.world_with_files)
        /\ payload_mimeType part = Some "image/webp").
Proof.
  split.
  { intros E path w buffer Hf Hne. rewrite loadFromFile_run, Hf.
    by case_decide. }
  split.
  { intros E path w part w' H. rewrite loadFromFile_run in H.
    destruct (files w !! path_resolve E path) as [buffer|];
      repeat case_decide; try discriminate.
    injection H as <- <-. exists buffer. by repeat split. }
  split. { intros buffer path m H. unfold file_mimeType. by rewrite H. }
  split. { intros buffer path H. unfold file_mimeType. by rewrite H. }
  split; [exact table_lookup|].
  split.
  { intros pre e v He Hin. rewrite mimeFromExtension_final by assumption.
    apply table_lookup in Hin. by rewrite Hin. }
  split.
  { intros pre e He Hout. rewrite mimeFromExtension_final by assumption.
    destruct (MIME_EXTENSIONS !! ("." ++ JS.toLowerCase e)) as [v|] eqn:Hl;
      [|reflexivity].
    apply table_lookup in Hl. by destruct (Hout v). }
  split; [exact mimeFromExtension_absent|].
  split; [reflexivity|]. split; [reflexivity|].
  split; eexists; rewrite loadFromFile_run; (split; [reflexivity|reflexivity]).
Qed.

Lemma loadFromFile_mime_witness :
  mimeFromExtension "/some/path/to/file.PNG" = "image/png"
  /\ mimeFromExtension "file.xyz" = "image/jpeg"
  /\ mimeFromExtension "noext" = "image/jpeg"
  /\ file_mimeType Samples.jpeg_dat "test.png" = "image/jpeg".
Proof.
  destruct loadFromFile_mime
    as (_ & _ & Hsniff & _ & Htab & Hhit & Hmiss & Hnone & _).
  split.
  { apply (Hhit "/some/path/to/file" "PNG" "image/png"); [reflexivity|].
    apply Htab. reflexivity. }
  split.
  { apply (Hmiss "file" "xyz"); [reflexivity|].
    intros v Hin. apply Htab in Hin. discriminate Hin. }
  split; [apply (Hnone "noext"); reflexivity|].
  apply (Hsniff Samples.jpeg_dat "test.png" "image/jpeg"). reflexivity.
Defined.

End LoaderFacts.

(** ** The clipboard source *)

Module ClipboardFacts.
Import Runtime Input.

Lemma set_files_same (w : World) : set_files (files w) w = w.
Proof. by destruct w. Qed.

(** The clean-up statement removes the file when it is there and does
    nothing otherwise. *)
Lemma cleanup_run (tmpPath : string) (w : World) :
  try_ignore (there <- file_exists tmpPath ;;
              if there then unlinkSync tmpPath else ret tt) w
  = (Done tt, set_files (delete tmpPath (files w)) w).
Proof.
  unfold try_ignore, bind, file_exists, unlinkSync, ret.
  destruct (files w !! tmpPath) as [b|] eqn:Hf.
  - rewrite bool_decide_eq_true_2 by eauto. by rewrite Hf.
  - rewrite (bool_decide_eq_false_2 (is_Some None)) by (by intros [? ?]).
    by rewrite delete_id, set_files_same.
Qed.

(** [loadFromClipboard], run: the helper's failure and the failures of
    the file loader end the run before the clean-up statement. *)
Lemma loadFromClipboard_run E w :
  loadFromClipboard E w =
  let tmpPath := clipboard_tmpPath (clock E (ticks w)) in
  let proc := osascript E tmpPath in
  let w1 := after_helper E w in
  if (exitCode proc =? 0)%Z then
    match loadFromFile E tmpPath w1 with
    | (Done part, w2) =>
        (Done part, set_files (delete tmpPath (files w2)) w2)
    | (Exited c, w2) => (Exited c, w2)
    | (Thrown e, w2) => (Thrown e, w2)
    end
  else
    (Exited Types.EXIT_INPUT_ERROR,
     add_stderr
       (if negb (String.eqb (JS.trim (errText proc)) "")
        then ["Error: No image data in clipboard"; JS.trim (errText proc)]
        else ["Error: No image data in clipboard"]) w1).
Proof.
  cbv zeta. unfold loadFromClipboard.
  unfold bind at 1. unfold date_now at 1.
  unfold bind at 1. unfold spawn_osascript at 1. cbn [ticks files].
  set (tmpPath := clipboard_tmpPath (clock E (ticks w))).
  set (proc := osascript E tmpPath).
  assert (Hw1 : match leftFile proc with
                | Some b =>
                    set_files (<[tmpPath := b]> (files w))
                      {| files := files w; dirs := dirs w; stdin := stdin w;
                         stdout := stdout w; stderr := stderr w;
                         ticks := S (ticks w) |}
                | None =>
                    {| files := files w; dirs := dirs w; stdin := stdin w;
                       stdout := stdout w; stderr := stderr w;
                       ticks := S (ticks w) |}
                end = after_helper E w).
  { unfold after_helper. fold tmpPath. fold proc.
    by destruct (leftFile proc). }
  rewrite Hw1. clear Hw1.
  unfold bind at 1.
  destruct (exitCode proc =? 0)%Z; cbn [negb].
  - unfold ret at 1. unfold bind at 1.
    destruct (loadFromFile E tmpPath (after_helper E w)) as [[part|c|e] w2];
      try reflexivity.
    unfold bind at 1. rewrite cleanup_run. reflexivity.
  - unfold bind at 1. unfold console_error at 1. unfold bind at 1.
    destruct (negb (String.eqb (JS.trim (errText proc)) ""));
      unfold console_error, ret, exit, add_stderr; simpl;
      rewrite <- ?app_assoc; reflexivity.
Qed.

(** C1: the clipboard load is to delete its temporary file whether the
    delegation to the file loader succeeds or fails.  The code deletes it
    when the load completes; when the helper fails, or when the file
    loader ends the process or throws, the run ends before the clean-up
    statement and the temporary path still holds what the helper left
    there.  With a clipboard that holds no image, and with a helper that
    wrote no byte, the process exits with the input-error code and the
    empty temporary file stays on disk; with an image on the clipboard
    the load completes and the file is gone. *)
Theorem loadFromClipboard_temp_file :
  (forall E w,
      let tmpPath := clipboard_tmpPath (clock E (ticks w)) in
      match loadFromClipboard E w with
      | (Done _, w') => files w' !! tmpPath = None
      | (_, w') => files w' !! tmpPath = files (after_helper E w) !! tmpPath
      end)
  /\ (exists w',
        loadFromClipboard
          (Samples.env Samples.frozen_clock Samples.clipboard_without_image)
          Samples.empty_world = (Exited 2, w')
        /\ files w' !! "/tmp/imgx-clipboard-1000.png" = Some [])
  /\ (exists w',
        loadFromClipboard
          (Samples.env Samples.frozen_clock Samples.clipboard_empty_image)
          Samples.empty_world = (Exited 2, w')
        /\ files w' !! "/tmp/imgx-clipboard-1000.png" = Some [])
  /\ (exists part w',
        loadFromClipboard
          (Samples.env Samples.frozen_clock Samples.clipboard_with_image)
          Samples.empty_world = (Done part, w')
        /\ files w' !! "/tmp/imgx-clipboard-1000.png" = None).
Proof.
  split.
  { intros E w. cbv zeta. rewrite loadFromClipboard_run. cbv zeta.
    destruct (exitCode _ =? 0)%Z; [|reflexivity].
    pose proof (LoaderFacts.loadFromFile_run E
                  (clipboard_tmpPath (clock E (ticks w))) (after_helper E w))
      as Hrun.
    destruct (loadFromFile E _ (after_helper E w)) as [r w2].
    destruct (files (after_helper E w) !! _) as [buffer|];
      repeat case_decide; injection Hrun as -> ->; try reflexivity.
    simpl. apply lookup_delete_eq. }
  split.
  { eexists. split; [vm_compute; reflexivity|]. vm_compute. reflexivity. }
  split.
  { eexists. split; [vm_compute; reflexivity|]. vm_compute. reflexivity. }
  eexists. eexists. split; [vm_compute; reflexivity|]. vm_compute. reflexivity.
Qed.

End ClipboardFacts.

(** ** The MIME type of every payload *)

Module PayloadFacts.
Import Runtime Input.

Lemma sniffed_is_image (buffer : list byte) (m : string) :
  Sniffer.detectMimeFromBytes buffer = Some m ->
  JS.startsWith m "image/" = true.
Proof.
  rewrite SnifferFacts.detectMimeFromBytes_chain.
  repeat case_decide; intros [= <-]; reflexivity.
Qed.

Lemma mimeFromExtension_is_image (path : string) :
  JS.startsWith (mimeFromExtension path) "image/" = true.
Proof.
  unfold mimeFromExtension.
  destruct (MIME_EXTENSIONS !! _) as [v|] eqn:Hl; [|reflexivity].
  exact (LoaderFacts.table_values _ _ Hl).
Qed.

Lemma file_mimeType_is_image (buffer : list byte) (path : string) :
  JS.startsWith (file_mimeType buffer path) "image/" = true.
Proof.
  unfold file_mimeType.
  destruct (Sniffer.detectMimeFromBytes buffer) as [m|] eqn:Hs.
  - exact (sniffed_is_image _ _ Hs).
  - apply mimeFromExtension_is_image.
Qed.

Lemma loadFromFile_image E path w part w' :
  loadFromFile E path w = (Done part, w') -> image_payload part.
Proof.
  rewrite LoaderFacts.loadFromFile_run.
  destruct (files w !! path_resolve E path) as [buffer|];
    repeat case_decide; try discriminate.
  intros [= <- <-]. eexists. split; [reflexivity|].
  apply file_mimeType_is_image.
Qed.

Lemma loadFromStdin_image w part w' :
  loadFromStdin w = (Done part, w') -> image_payload part.
Proof.
  unfold loadFromStdin, bind, stdin_arrayBuffer, console_error, exit, ret.
  destruct (length (stdin w) =? 0)%nat; [discriminate|].
  intros [= <- <-]. eexists. split; [reflexivity|].
  destruct (Sniffer.detectMimeFromBytes (stdin w)) as [m|] eqn:Hs;
    [exact (sniffed_is_image _ _ Hs) | reflexivity].
Qed.

Lemma loadFromUrl_image E url w part w' :
  loadFromUrl E url w = (Done part, w') -> image_payload part.
Proof.
  unfold loadFromUrl, bind, console_error, exit, ret.
  destruct (fetch E url) as [msg|r]; [discriminate|].
  destruct (ok r); simpl; [|discriminate].
  destruct (length (body r) =? 0)%nat; [discriminate|].
  intros [= <- <-]. eexists. split; [reflexivity|].
  destruct (Sniffer.detectMimeFromBytes (body r)) as [m|] eqn:Hs;
    [exact (sniffed_is_image _ _ Hs)|].
  set (contentType := match contentTypeHeader r with
                      | Some h => default "" (JS.split ";" h !! 0%nat)
                      | None => ""
                      end).
  destruct (JS.startsWith contentType "image/") eqn:Hc;
    [exact Hc | reflexivity].
Qed.

Lemma loadFromClipboard_image E w part w' :
  loadFromClipboard E w = (Done part, w') -> image_payload part.
Proof.
  rewrite ClipboardFacts.loadFromClipboard_run. cbv zeta.
  destruct (exitCode _ =? 0)%Z; [|discriminate].
  destruct (loadFromFile E _ (after_helper E w)) as [[p|c|e] w2] eqn:Hl;
    try discriminate.
  intros [= <- <-]. exact (loadFromFile_image _ _ _ _ _ Hl).
Qed.

(** C10: the payload of every load that completes, whatever the source
    kind, has a MIME type that begins with "image/". *)
Theorem loader_mime_is_image E (k : SourceKind) source w part w' :
  load E k source w = (Done part, w')
  \/ loadImagePart E source w = (Done part, w') ->
  exists m, payload_mimeType part = Some m /\ JS.startsWith m "image/" = true.
Proof.
  assert (Hk : forall k, load E k source w = (Done part, w') ->
                         image_payload part).
  { intros [] H; simpl in H.
    - exact (loadFromStdin_image _ _ _ H).
    - exact (loadFromClipboard_image _ _ _ _ H).
    - exact (loadFromUrl_image _ _ _ _ _ H).
    - exact (loadFromFile_image _ _ _ _ _ H). }
  intros [H|H]; [exact (Hk k H)|].
  rewrite DispatchFacts.loadImagePart_dispatch in H. exact (Hk _ H).
Qed.

Lemma loader_mime_is_image_witness :
  loadImagePart (Samples.env Samples.frozen_clock Samples.clipboard_with_image)
    "test.webp" Samples.world_with_files
  = (Done (makePart (toBase64 Samples.not_webp) "image/webp"),
     Samples.world_with_files)
  /\ exists m,
       payload_mimeType (makePart (toBase64 Samples.not_webp) "image/webp")
       = Some m
       /\ JS.startsWith m "image/" = true.
Proof.
  assert (H : loadImagePart
                (Samples.env Samples.frozen_clock Samples.clipboard_with_image)
                "test.webp" Samples.world_with_files
              = (Done (makePart (toBase64 Samples.not_webp) "image/webp"),
                 Samples.world_with_files)) by (vm_compute; reflexivity).
  split; [exact H|].
  exact (loader_mime_is_image _ File _ _ _ _ (or_intror H)).
Defined.

End PayloadFacts.

(** ** Further properties of the sniffer and of the loaders *)

Module LoaderMore.
Import Runtime Input.

Lemma byte_is_take (n : nat) (bytes : list byte) (i : nat) (v : N) :
  (i < n)%nat -> JS.byte_is (take n bytes) i v = JS.byte_is bytes i v.
Proof. intros Hi. unfold JS.byte_is. by rewrite lookup_take_lt. Qed.

(** The sniffer reads the first twelve bytes only: what follows them
    never changes its answer. *)
Theorem detectMimeFromBytes_prefix (n : nat) (bytes : list byte) :
  (12 <= n)%nat ->
  Sniffer.detectMimeFromBytes (take n bytes)
  = Sniffer.detectMimeFromBytes bytes.
Proof.
  intros Hn. unfold Sniffer.detectMimeFromBytes.
  rewrite !byte_is_take by lia. reflexivity.
Qed.

Lemma detectMimeFromBytes_prefix_witness :
  Sniffer.detectMimeFromBytes (take 12 Samples.jpeg_dat)
  = Sniffer.detectMimeFromBytes Samples.jpeg_dat.
Proof. apply (detectMimeFromBytes_prefix 12 Samples.jpeg_dat). lia. Defined.

(** A file load that completes leaves the process state as it was, and
    its payload decodes to the very bytes of the file. *)
Theorem loadFromFile_payload E path w part w' :
  loadFromFile E path w = (Done part, w') ->
  w' = w
  /\ exists d,
       payload_data part = Some d
       /\ files w !! path_resolve E path = Some (Base64.decode d)
       /\ Base64.decode d <> [].
Proof.
  rewrite LoaderFacts.loadFromFile_run.
  destruct (files w !! path_resolve E path) as [buffer|];
    repeat case_decide; try discriminate.
  intros [= <- <-]. split; [reflexivity|].
  exists (toBase64 buffer). unfold toBase64.
  rewrite Base64Facts.decode_encode. by repeat split.
Qed.

Lemma loadFromFile_payload_witness :
  exists d,
    payload_data (makePart (toBase64 Samples.not_webp) "image/webp") = Some d
    /\ files Samples.world_with_files !! "/work/test.webp"
       = Some (Base64.decode d).
Proof.
  destruct (loadFromFile_payload
              (Samples.env Samples.frozen_clock Samples.clipboard_with_image)
              "test.webp" Samples.world_with_files
              (makePart (toBase64 Samples.not_webp) "image/webp")
              Samples.world_with_files)
    as (_ & d & Hd & Hf & _).
  - vm_compute. reflexivity.
  - exists d. split; [exact Hd | exact Hf].
Defined.

(** The two ways a file load ends the process, each with the input-error
    code and one diagnostic that quotes the path as it was given; nothing
    else changes.  An empty file is reported as empty whatever its name. *)
Theorem loadFromFile_failures E path w :
  (files w !! path_resolve E path = None ->
   path_resolve E path ∉ dirs w ->
   loadFromFile E path w
   = (Exited 2, add_stderr ["Error: File not found: " ++ path] w))
  /\ (files w !! path_resolve E path = Some [] ->
      loadFromFile E path w
      = (Exited 2, add_stderr ["Error: File is empty: " ++ path] w)).
Proof.
  split.
  - intros Hf Hd. rewrite LoaderFacts.loadFromFile_run, Hf. by case_decide.
  - intros Hf. rewrite LoaderFacts.loadFromFile_run, Hf. by case_decide.
Qed.

Lemma loadFromFile_failures_witness :
  loadFromFile (Samples.env Samples.frozen_clock Samples.clipboard_with_image)
    "missing.png" Samples.world_with_files
  = (Exited 2,
     add_stderr ["Error: File not found: missing.png"] Samples.world_with_files).
Proof.
  apply (loadFromFile_failures
           (Samples.env Samples.frozen_clock Samples.clipboard_with_image)
           "missing.png" Samples.world_with_files).
  - vm_compute. reflexivity.
  - vm_compute. intros H. discriminate H.
Defined.

Lemma add_stderr_app (l1 l2 : list string) (w : World) :
  add_stderr l2 (add_stderr l1 w) = add_stderr (l1 ++ l2) w.
Proof. unfold add_stderr. simpl. by rewrite app_assoc. Qed.

(** [loadFromUrl], run. *)
Lemma loadFromUrl_run E url w :
  loadFromUrl E url w =
  match fetch E url with
  | FetchRejected message =>
      (Exited 2,
       add_stderr ["Error: Failed to fetch image: " ++ url; message] w)
  | FetchResolved r =>
      if negb (ok r)
      then (Exited 2,
            add_stderr ["Error: Failed to fetch image: " ++ url ++ " ("
                        ++ pretty (status r) ++ ")"] w)
      else if decide (body r = [])
      then (Exited 2, add_stderr ["Error: Fetched image is empty: " ++ url] w)
      else (Done (makePart (toBase64 (body r))
                    match Sniffer.detectMimeFromBytes (body r) with
                    | Some m => m
                    | None =>
                        if JS.startsWith (Notions.declared_type r) "image/"
                        then Notions.declared_type r else "image/jpeg"
                    end), w)
  end.
Proof.
  unfold loadFromUrl, bind, console_error, exit, ret, Notions.declared_type.
  destruct (fetch E url) as [msg|r]; [by rewrite add_stderr_app|].
  destruct (ok r); simpl; [|reflexivity].
  rewrite LoaderFacts.length_eqb_nil.
  case_bool_decide; case_decide; try tauto; reflexivity.
Qed.

(** [loadFromStdin], run. *)
Lemma loadFromStdin_run w :
  loadFromStdin w =
  if decide (stdin w = [])
  then (Exited 2, add_stderr ["Error: No data received from stdin"] w)
  else (Done (makePart (toBase64 (stdin w))
                match Sniffer.detectMimeFromBytes (stdin w) with
                | Some m => m
                | None => "image/png"
                end), w).
Proof.
  unfold loadFromStdin, bind, stdin_arrayBuffer, console_error, exit, ret.
  rewrite LoaderFacts.length_eqb_nil.
  case_bool_decide; case_decide; try tauto; reflexivity.
Qed.

(** A fetched image takes the sniffer's answer whatever the server
    declares; when the sniffer is silent it takes the declared
    content-type, parameters after the first semicolon dropped, provided
    that it begins with "image/", and image/jpeg otherwise, a missing
    header included. *)
Theorem loadFromUrl_mime E url w r part w' :
  fetch E url = FetchResolved r ->
  loadFromUrl E url w = (Done part, w') ->
  (forall m, Sniffer.detectMimeFromBytes (body r) = Some m ->
             payload_mimeType part = Some m)
  /\ (Sniffer.detectMimeFromBytes (body r) = None ->
      (forall ct params,
          contentTypeHeader r = Some (ct ++ ";" ++ params) ->
          JS.lacks ";" ct = true ->
          payload_mimeType part
          = Some (if JS.startsWith ct "image/" then ct else "image/jpeg"))
      /\ (forall ct,
            contentTypeHeader r = Some ct -> JS.lacks ";" ct = true ->
            payload_mimeType part
            = Some (if JS.startsWith ct "image/" then ct else "image/jpeg"))
      /\ (contentTypeHeader r = None ->
          payload_mimeType part = Some "image/jpeg")).
Proof.
  intros Hf. rewrite loadFromUrl_run, Hf.
  destruct (ok r); simpl; [|discriminate].
  case_decide; [discriminate|]. intros [= <- <-].
  split.
  { intros m Hm. simpl. by rewrite Hm. }
  intros Hs. simpl. rewrite Hs. unfold Notions.declared_type.
  split; [|split].
  - intros ct params Hh Hct. rewrite Hh.
    change (";" ++ params) with (String ";" params).
    rewrite StringFacts.split_app by assumption. reflexivity.
  - intros ct Hh Hct. rewrite Hh.
    rewrite StringFacts.split_lacks by assumption. reflexivity.
  - intros Hh. by rewrite Hh.
Qed.

Lemma loadFromUrl_mime_witness :
  payload_mimeType
    (makePart (toBase64 [x00; x01]) "image/avif")
  = Some (if JS.startsWith "image/avif" "image/"
          then "image/avif" else "image/jpeg").
Proof.
  set (r := {| ok := true; status := 200; body := [x00; x01];
               contentTypeHeader := Some "image/avif; q=1" |}).
  destruct (loadFromUrl_mime (Notions.env_with_fetch r) "https://example.com/a"
              Samples.empty_world r
              (makePart (toBase64 [x00; x01]) "image/avif")
              Samples.empty_world) as (_ & H).
  - reflexivity.
  - vm_compute. reflexivity.
  - destruct H as (Hparams & _); [reflexivity|].
    apply (Hparams "image/avif" " q=1"); reflexivity.
Defined.

(** How a fetch fails: a rejected request, then a status outside 2xx,
    then an empty body, in this order of checks; each ends the process
    with the input-error code, the status check also on an empty body,
    and changes nothing but the diagnostic stream.  A response that
    passes the checks completes, leaves the state as it was and decodes
    to the body. *)
Theorem loadFromUrl_outcomes E url w :
  (forall message,
      fetch E url = FetchRejected message ->
      loadFromUrl E url w
      = (Exited 2,
         add_stderr ["Error: Failed to fetch image: " ++ url; message] w))
  /\ (forall r,
        fetch E url = FetchResolved r -> ok r = false ->
        loadFromUrl E url w
        = (Exited 2,
           add_stderr ["Error: Failed to fetch image: " ++ url ++ " ("
                       ++ pretty (status r) ++ ")"] w))
  /\ (forall r,
        fetch E url = FetchResolved r -> ok r = true -> body r = [] ->
        loadFromUrl E url w
        = (Exited 2, add_stderr ["Error: Fetched image is empty: " ++ url] w))
  /\ (forall r,
        fetch E url = FetchResolved r -> ok r = true -> body r <> [] ->
        exists part d,
          loadFromUrl E url w = (Done part, w)
          /\ payload_data part = Some d /\ Base64.decode d = body r).
Proof.
  split; [|split; [|split]].
  - intros msg Hf. by rewrite loadFromUrl_run, Hf.
  - intros r Hf Hok. by rewrite loadFromUrl_run, Hf, Hok.
  - intros r Hf Hok Hb. rewrite loadFromUrl_run, Hf, Hok. simpl.
    by case_decide.
  - intros r Hf Hok Hb. rewrite loadFromUrl_run, Hf, Hok. simpl.
    case_decide; [tauto|]. eexists. exists (toBase64 (body r)).
    split; [reflexivity|]. split; [reflexivity|].
    apply Base64Facts.decode_encode.
Qed.

Lemma loadFromUrl_outcomes_witness :
  loadFromUrl
    (Notions.env_with_fetch
       {| ok := false; status := 404; body := [];
          contentTypeHeader := None |})
    "http://example.com/x.png" Samples.empty_world
  = (Exited 2,
     add_stderr ["Error: Failed to fetch image: http://example.com/x.png (404)"]
       Samples.empty_world).
Proof.
  destruct (loadFromUrl_outcomes
              (Notions.env_with_fetch
                 {| ok := false; status := 404; body := [];
                    contentTypeHeader := None |})
              "http://example.com/x.png" Samples.empty_world)
    as (_ & H & _).
  apply (H {| ok := false; status := 404; body := [];
              contentTypeHeader := None |}); reflexivity.
Defined.

(** Standard input: no byte ends the process with the input-error code;
    otherwise the load completes without touching the state, the payload
    decodes to what was read, and its type is the sniffer's answer or,
    failing that, image/png. *)
Theorem loadFromStdin_outcomes w :
  (stdin w = [] ->
   loadFromStdin w
   = (Exited 2, add_stderr ["Error: No data received from stdin"] w))
  /\ (stdin w <> [] ->
      exists part d,
        loadFromStdin w = (Done part, w)
        /\ payload_data part = Some d /\ Base64.decode d = stdin w
        /\ payload_mimeType part
           = Some (default "image/png"
                     (Sniffer.detectMimeFromBytes (stdin w)))).
Proof.
  rewrite loadFromStdin_run. split; intros H; case_decide; try tauto.
  eexists. exists (toBase64 (stdin w)).
  split; [reflexivity|]. split; [reflexivity|].
  split; [apply Base64Facts.decode_encode|].
  simpl. by destruct (Sniffer.detectMimeFromBytes (stdin w)).
Qed.

Lemma loadFromStdin_outcomes_witness :
  exists part d,
    loadFromStdin Notions.world_with_stdin = (Done part, Notions.world_with_stdin)
    /\ payload_data part = Some d
    /\ Base64.decode d = [x89; x50; x4e; x47].
Proof.
  destruct (loadFromStdin_outcomes Notions.world_with_stdin) as (_ & H).
  destruct H as (part & d & H1 & H2 & H3 & _); [discriminate|].
  exists part, d. split; [exact H1|]. split; [exact H2 | exact H3].
Defined.

Lemma add_stderr_nil (w : World) : add_stderr [] w = w.
Proof. destruct w. unfold add_stderr. simpl. by rewrite app_nil_r. Qed.

Lemma string_app_assoc (a b c : string) : (a ++ b) ++ c = a ++ b ++ c.
Proof.
  induction a as [|x a IH]; [reflexivity|].
  change (String x ((a ++ b) ++ c) = String x (a ++ b ++ c)).
  f_equal. exact IH.
Qed.

(** The temporary path of the clipboard ends in ".png". *)
Lemma clipboard_tmpPath_png (now : Z) :
  mimeFromExtension (clipboard_tmpPath now) = "image/png".
Proof.
  unfold clipboard_tmpPath.
  rewrite <- string_app_assoc.
  change ".png" with ("." ++ "png").
  by rewrite LoaderFacts.mimeFromExtension_final.
Qed.

(** A clipboard load that goes well: the payload encodes the bytes the
    helper wrote; its type is the sniffer's answer or, failing that,
    image/png (the extension of the temporary file, not the image/jpeg
    default of unnamed files); the temporary file is gone, every other
    file is as before, and neither stream was written. *)
Theorem loadFromClipboard_success E w b :
  let tmpPath := clipboard_tmpPath (clock E (ticks w)) in
  path_resolve E tmpPath = tmpPath ->
  exitCode (osascript E tmpPath) = 0%Z ->
  leftFile (osascript E tmpPath) = Some b ->
  b <> [] ->
  exists w',
    loadFromClipboard E w
    = (Done (makePart (toBase64 b)
               (default "image/png" (Sniffer.detectMimeFromBytes b))), w')
    /\ files w' = delete tmpPath (files w)
    /\ stdout w' = stdout w /\ stderr w' = stderr w
    /\ ticks w' = S (ticks w).
Proof.
  intros tmpPath Hres Hexit Hleft Hb.
  rewrite ClipboardFacts.loadFromClipboard_run. cbv zeta. fold tmpPath.
  rewrite Hexit. change (0 =? 0)%Z with true. cbv iota.
  pose proof (LoaderFacts.loadFromFile_run E tmpPath (after_helper E w)) as Hrun.
  assert (Hfiles : files (after_helper E w) = <[tmpPath := b]> (files w)).
  { unfold after_helper. fold tmpPath. by rewrite Hleft. }
  rewrite Hres, Hfiles, lookup_insert_eq in Hrun.
  destruct (decide (b = [])); [tauto|].
  rewrite Hrun. eexists. split.
  - do 2 f_equal. unfold file_mimeType.
    destruct (Sniffer.detectMimeFromBytes b); [reflexivity|].
    simpl. f_equal. apply clipboard_tmpPath_png.
  - repeat split; try reflexivity.
    unfold set_files. cbn [files]. rewrite Hfiles. apply delete_insert_eq.
Qed.

Lemma loadFromClipboard_success_witness :
  exists w',
    loadFromClipboard
      (Samples.env Samples.frozen_clock Samples.clipboard_with_image)
      Samples.empty_world
    = (Done (makePart (toBase64 [x89; x50; x4e; x47])
               (default "image/png"
                  (Sniffer.detectMimeFromBytes [x89; x50; x4e; x47]))), w')
    /\ files w' = delete "/tmp/imgx-clipboard-1000.png" ∅.
Proof.
  destruct (loadFromClipboard_success
              (Samples.env Samples.frozen_clock Samples.clipboard_with_image)
              Samples.empty_world [x89; x50; x4e; x47])
    as (w' & H1 & H2 & _); try reflexivity; [discriminate|].
  exists w'. split; [exact H1 | exact H2].
Defined.

Lemma loadFromFile_plain E path w r w' :
  loadFromFile E path w = (r, w') -> Notions.plain_outcome r w w'.
Proof.
  rewrite LoaderFacts.loadFromFile_run.
  destruct (files w !! path_resolve E path) as [buffer|];
    repeat case_decide; intros [= <- <-]; eexists;
    (split; [first [reflexivity | symmetry; apply add_stderr_nil]|]);
    try done.
Qed.

Lemma loadFromUrl_plain E url w r w' :
  loadFromUrl E url w = (r, w') -> Notions.plain_outcome r w w'.
Proof.
  rewrite loadFromUrl_run.
  destruct (fetch E url) as [msg|resp]; [|destruct (ok resp); simpl];
    repeat case_decide; intros [= <- <-]; eexists;
    (split; [first [reflexivity | symmetry; apply add_stderr_nil]|]);
    try done.
Qed.

Lemma loadFromStdin_plain w r w' :
  loadFromStdin w = (r, w') -> Notions.plain_outcome r w w'.
Proof.
  rewrite loadFromStdin_run.
  case_decide; intros [= <- <-]; eexists;
    (split; [first [reflexivity | symmetry; apply add_stderr_nil]|]);
    try done.
Qed.

Lemma length_add_stderr (msgs : list string) (w : World) :
  msgs <> [] -> (length (stderr w) < length (stderr (add_stderr msgs w)))%nat.
Proof.
  intros H. simpl. rewrite length_app. destruct msgs; [done|]. simpl. lia.
Qed.

Lemma after_helper_files E w p :
  p <> clipboard_tmpPath (clock E (ticks w)) ->
  files (after_helper E w) !! p = files w !! p.
Proof.
  intros Hp. unfold after_helper. simpl.
  destruct (leftFile _); [|reflexivity]. by rewrite lookup_insert_ne.
Qed.

(** The footprint of a load, whatever the source: it never writes to the
    primary output stream and never touches directories or standard
    input; the only file it may create, change or remove is the
    clipboard's temporary file, and only for the clipboard source; when
    it ends the process the code is the input-error code and at least
    one diagnostic was written; when it completes no diagnostic was. *)
Theorem loadImagePart_footprint E source w r w' :
  loadImagePart E source w = (r, w') ->
  stdout w' = stdout w /\ dirs w' = dirs w /\ stdin w' = stdin w
  /\ (forall p, p <> clipboard_tmpPath (clock E (ticks w)) ->
                files w' !! p = files w !! p)
  /\ (source <> "clipboard" -> files w' = files w /\ ticks w' = ticks w)
  /\ (forall c, r = Exited c ->
                c = 2%Z /\ (length (stderr w) < length (stderr w'))%nat)
  /\ (forall part, r = Done part -> stderr w' = stderr w).
Proof.
  assert (Hplain : forall r w w', Notions.plain_outcome (A := Genai.Part) r w w' ->
            stdout w' = stdout w /\ dirs w' = dirs w /\ stdin w' = stdin w
            /\ files w' = files w /\ ticks w' = ticks w
            /\ (forall c, r = Exited c ->
                   c = 2%Z /\ (length (stderr w) < length (stderr w'))%nat)
            /\ (forall part, r = Done part -> stderr w' = stderr w)).
  { intros r0 w0 w0' (msgs & -> & Hr).
    split; [reflexivity|]. split; [reflexivity|]. split; [reflexivity|].
    split; [reflexivity|]. split; [reflexivity|]. split.
    - intros c ->. destruct Hr as [-> Hm]. split; [reflexivity|].
      by apply length_add_stderr.
    - intros part ->. subst msgs. simpl. by rewrite app_nil_r. }
  assert (Hgoal : Notions.plain_outcome r w w' ->
          stdout w' = stdout w /\ dirs w' = dirs w /\ stdin w' = stdin w
          /\ (forall p, p <> clipboard_tmpPath (clock E (ticks w)) ->
                        files w' !! p = files w !! p)
          /\ (source <> "clipboard" -> files w' = files w /\ ticks w' = ticks w)
          /\ (forall c, r = Exited c ->
                 c = 2%Z /\ (length (stderr w) < length (stderr w'))%nat)
          /\ (forall part, r = Done part -> stderr w' = stderr w)).
  { intros H%Hplain. destruct H as (H1 & H2 & H3 & Hf & Ht & Hex & Hdone).
    split; [exact H1|]. split; [exact H2|]. split; [exact H3|].
    split; [intros p _; by rewrite Hf|].
    split; [intros _; by split|]. by split. }
  rewrite DispatchFacts.loadImagePart_dispatch.
  unfold source_kind.
  destruct (decide (source = "-")) as [->|Hs].
  { intros H. apply Hgoal. exact (loadFromStdin_plain _ _ _ H). }
  destruct (decide (source = "clipboard")) as [->|Hc].
  2:{ destruct (JS.startsWith source "http://");
        [intros H; apply Hgoal; exact (loadFromUrl_plain _ _ _ _ _ H)|].
      destruct (JS.startsWith source "https://"); intros H; apply Hgoal;
        [exact (loadFromUrl_plain _ _ _ _ _ H)
        |exact (loadFromFile_plain _ _ _ _ _ H)]. }
  clear Hgoal. simpl. rewrite ClipboardFacts.loadFromClipboard_run. cbv zeta.
  set (tmpPath := clipboard_tmpPath (clock E (ticks w))).
  destruct (exitCode _ =? 0)%Z.
  - destruct (loadFromFile E tmpPath (after_helper E w)) as [r1 w1] eqn:Hl.
    apply loadFromFile_plain, Hplain in Hl.
    destruct Hl as (Ho & Hd & Hi & Hf & Ht & Hex & Hdone).
    destruct r1 as [part|c|e]; intros [= <- <-].
    + split; [exact Ho|]. split; [exact Hd|]. split; [exact Hi|].
      split.
      { intros p Hp. unfold set_files. cbn [files].
        rewrite lookup_delete_ne by done. rewrite Hf.
        by apply after_helper_files. }
      split; [tauto|]. split; [discriminate|].
      intros part' _. exact (Hdone part eq_refl).
    + split; [exact Ho|]. split; [exact Hd|]. split; [exact Hi|].
      split; [intros p Hp; rewrite Hf; by apply after_helper_files|].
      split; [tauto|]. split; [|discriminate].
      intros c' [= <-]. exact (Hex c eq_refl).
    + split; [exact Ho|]. split; [exact Hd|]. split; [exact Hi|].
      split; [intros p Hp; rewrite Hf; by apply after_helper_files|].
      split; [tauto|]. split; discriminate.
  - intros [= <- <-].
    split; [reflexivity|]. split; [reflexivity|]. split; [reflexivity|].
    split; [intros p Hp; by apply (after_helper_files E w p)|].
    split; [tauto|]. split; [|discriminate].
    intros c [= <-]. split; [reflexivity|].
    unfold add_stderr. cbn [stderr]. rewrite length_app.
    destruct (negb _); simpl; lia.
Qed.

Lemma loadImagePart_footprint_witness :
  stdout (add_stderr ["Error: File not found: missing.png"]
            Samples.world_with_files) = stdout Samples.world_with_files
  /\ (length (stderr Samples.world_with_files)
      < length (stderr (add_stderr ["Error: File not found: missing.png"]
                          Samples.world_with_files)))%nat.
Proof.
  destruct (loadImagePart_footprint
              (Samples.env Samples.frozen_clock Samples.clipboard_with_image)
              "missing.png" Samples.world_with_files
              (Exited 2)
              (add_stderr ["Error: File not found: missing.png"]
                 Samples.world_with_files))
    as (Ho & _ & _ & _ & _ & Hex & _).
  - vm_compute. reflexivity.
  - split; [exact Ho|]. exact (proj2 (Hex 2%Z eq_refl)).
Defined.

End LoaderMore.

(** ** Further properties of the classifier, the persister and the
    renderer *)

Module OutputMore.
Import Runtime Output.

Lemma nonempty_inv (o : option string) (s : string) :
  nonempty o = Some s -> o = Some s /\ s <> "".
Proof.
  unfold nonempty. destruct o as [t|]; [|discriminate].
  case_decide; [discriminate|]. by intros [= <-].
Qed.

Lemma fragment_shape (part : Genai.Part) (p : Types.ParsedPart) :
  fragment_of part = Some p ->
  match Types.type p with
  | Types.image =>
      Types.content p = "" /\ exists d, Types.data p = Some d /\ d <> ""
  | Types.result => Types.mimeType p = None /\ Types.data p = None
  | _ =>
      Types.content p <> "" /\ Types.mimeType p = None
      /\ Types.data p = None
  end.
Proof.
  unfold fragment_of.
  destruct (carried_text part) as [t|] eqn:Ht.
  { apply nonempty_inv in Ht as [_ Hne].
    destruct (marked_reasoning part); intros [= <-]; by simpl. }
  destruct (carried_code part) as [c|] eqn:Hc.
  { apply nonempty_inv in Hc as [_ Hne]. intros [= <-]. by simpl. }
  destruct (carried_result part) as [o|]; [intros [= <-]; by simpl|].
  unfold carried_image.
  destruct (Genai.inlineData part) as [b|]; [|discriminate].
  destruct (nonempty (Genai.data b)) as [d|] eqn:Hd; [|discriminate].
  apply nonempty_inv in Hd as [_ Hne]. intros [= <-]. simpl.
  split; [reflexivity|]. by exists d.
Qed.

(** Every fragment the classifier emits is well formed: reasoning,
    narration and code have a non-empty content and no payload, an
    execution result has no payload, and an image has an empty content
    and a non-empty payload. *)
Theorem parseResponse_fragment_shape r (p : Types.ParsedPart) :
  p ∈ parseResponse r ->
  match Types.type p with
  | Types.image =>
      Types.content p = "" /\ exists d, Types.data p = Some d /\ d <> ""
  | Types.result => Types.mimeType p = None /\ Types.data p = None
  | _ =>
      Types.content p <> "" /\ Types.mimeType p = None
      /\ Types.data p = None
  end.
Proof.
  rewrite ClassifierFacts.parseResponse_omap.
  intros (part & _ & Hfrag)%list_elem_of_omap.
  exact (fragment_shape part p Hfrag).
Qed.

Lemma parseResponse_fragment_shape_witness :
  Types.content (Image (Some "image/png") "AAAA") = ""
  /\ exists d, Types.data (Image (Some "image/png") "AAAA") = Some d
               /\ d <> "".
Proof.
  apply (parseResponse_fragment_shape
           (Samples.mockResponse Samples.six_elements)
           (Image (Some "image/png") "AAAA")).
  vm_compute. do 4 apply list_elem_of_further. apply list_elem_of_here.
Defined.

Lemma map_filter_omap {A B C} (f : A -> option B) (P : B -> Prop)
    `{forall x, Decision (P x)} (g : B -> C) (h : A -> option C)
    (l : list A) :
  (forall x, map g (filter P (option_list (f x))) = option_list (h x)) ->
  map g (filter P (omap f l)) = omap h l.
Proof.
  intros Hx. induction l as [|x l IH]; [reflexivity|].
  cbn [omap list_omap]. specialize (Hx x).
  destruct (f x) as [y|], (h x) as [z|]; simpl in Hx.
  - rewrite filter_cons in *. case_decide; simpl in *; [|discriminate].
    injection Hx as ->. by rewrite IH.
  - rewrite filter_cons in *. case_decide; simpl in *; [discriminate|].
    exact IH.
  - discriminate.
  - exact IH.
Qed.

Lemma fragment_answer_text (part : Genai.Part) :
  map Types.content
    (filter (fun p => Types.type p = Types.text)
       (option_list (fragment_of part)))
  = option_list (if marked_reasoning part then None else carried_text part).
Proof.
  unfold fragment_of.
  destruct (carried_text part) as [t|];
    [by destruct (marked_reasoning part)|].
  destruct (carried_code part); [by destruct (marked_reasoning part)|].
  destruct (carried_result part); [by destruct (marked_reasoning part)|].
  destruct (carried_image part) as [[m d]|];
    by destruct (marked_reasoning part).
Qed.

Lemma fragment_code_text (part : Genai.Part) :
  map Types.content
    (filter (fun p => Types.type p = Types.code_)
       (option_list (fragment_of part)))
  = option_list (match carried_text part with
                 | Some _ => None
                 | None => carried_code part
                 end).
Proof.
  unfold fragment_of.
  destruct (carried_text part) as [t|];
    [by destruct (marked_reasoning part)|].
  destruct (carried_code part); [reflexivity|].
  destruct (carried_result part); [reflexivity|].
  by destruct (carried_image part) as [[m d]|].
Qed.

(** In default mode the primary output receives exactly the non-empty
    texts of the elements of the first candidate that are not marked as
    reasoning, in order; in code-only mode exactly the non-empty codes of
    its elements without text.  Reasoning never reaches the primary
    output in either mode. *)
Theorem formatOutput_of_response r opts w :
  (mode_of opts = DefaultMode ->
   formatOutput (parseResponse r) opts w
   = (Done tt,
      add_stdout (Notions.answer_texts (first_candidate_elements r)) w))
  /\ (mode_of opts = CodeOnlyMode ->
      formatOutput (parseResponse r) opts w
      = (Done tt,
         add_stdout (Notions.code_texts (first_candidate_elements r)) w)).
Proof.
  rewrite RendererFacts.formatOutput_rendered,
    ClassifierFacts.parseResponse_omap.
  split; intros ->; do 2 f_equal; simpl.
  - apply map_filter_omap. exact fragment_answer_text.
  - apply map_filter_omap. exact fragment_code_text.
Qed.

Lemma formatOutput_of_response_witness :
  formatOutput (parseResponse (Samples.mockResponse Samples.six_elements))
    (Samples.options false false false false) Samples.empty_world
  = (Done tt,
     add_stdout ["Here's my analysis:"; "The annotated image is above."]
       Samples.empty_world).
Proof.
  apply (formatOutput_of_response (Samples.mockResponse Samples.six_elements)
           (Samples.options false false false false) Samples.empty_world).
  reflexivity.
Defined.

(** What a persist call does besides writing the images, however it
    ends: it writes nothing to the primary output stream, reads nothing
    from the input stream, removes no directory and never ends the
    process; without an Image fragment it returns no path and leaves the
    state untouched, not even creating the target directory.  When it
    completes it returns one path per Image fragment, has read the clock
    once per image and has reported each path on the diagnostic stream,
    in order; and if no regular file stood at the target directory, the
    directory exists afterwards. *)
Theorem saveImages_footprint E parts dir w r w' :
  saveImages E parts dir w = (r, w') ->
  stdout w' = stdout w /\ stdin w' = stdin w
  /\ dirs w ⊆ dirs w'
  /\ (forall c, r <> Exited c)
  /\ (images_of parts = [] -> r = Done [] /\ w' = w)
  /\ (forall paths, r = Done paths ->
        length paths = length (images_of parts)
        /\ stderr w' = (stderr w ++ map (String.append "Saved: ") paths)%list
        /\ ticks w' = (ticks w + length (images_of parts))%nat
        /\ (images_of parts <> [] -> files w !! dir = None ->
            dir ∈ dirs w')).
Proof.
  intros Hrun.
  pose proof (PersisterFacts.saveImages_any _ _ _ _ _ _ Hrun)
    as (Ho & Hi & Hd & _ & Hr).
  split; [exact Ho|]. split; [exact Hi|]. split; [exact Hd|].
  split. { intros c ->. exact Hr. }
  split.
  { intros Himgs. revert Hrun. rewrite PersisterFacts.saveImages_step, Himgs.
    by intros [= <- <-]. }
  intros paths ->.
  pose proof (PersisterFacts.saveImages_done _ _ _ _ _ _ Hrun)
    as (Hp & _ & _ & He & Ht).
  split. { rewrite Hp. unfold saved_paths. apply length_imap. }
  split; [exact He|]. split; [exact Ht|].
  intros Himgs Hnone. revert Hrun.
  rewrite PersisterFacts.saveImages_step_nonempty by assumption.
  rewrite Hnone.
  replace (bool_decide (is_Some (@None (list byte)))) with false
    by (symmetry; apply bool_decide_eq_false; by intros [? ?]).
  cbn [orb].
  destruct (bool_decide (dir ∈ dirs w)) eqn:Hin.
  - apply bool_decide_eq_true in Hin. intros _. exact (Hd _ Hin).
  - destruct (mkdir_error E dir); [discriminate|].
    intros H%PersisterFacts.save_loop_any.
    destruct H as (_ & _ & -> & _). simpl.
    apply elem_of_union. left. by apply elem_of_singleton.
Qed.

Lemma saveImages_footprint_witness :
  exists w',
    saveImages (Samples.env Samples.ticking_clock Samples.clipboard_without_image)
      Samples.two_images "out" Samples.empty_world
    = (Done ["out/imgx-1000-0.png"; "out/imgx-1001-1.jpg"], w')
    /\ stdout w' = []
    /\ stderr w'
       = ["Saved: out/imgx-1000-0.png"; "Saved: out/imgx-1001-1.jpg"]
    /\ ticks w' = 2%nat
    /\ "out" ∈ dirs w'.
Proof.
  set (run := saveImages
                (Samples.env Samples.ticking_clock
                   Samples.clipboard_without_image)
                Samples.two_images "out" Samples.empty_world).
  assert (Hrun : run = (Done ["out/imgx-1000-0.png"; "out/imgx-1001-1.jpg"],
                        snd run)) by (vm_compute; reflexivity).
  destruct (saveImages_footprint _ _ _ _ _ _ Hrun)
    as (H1 & _ & _ & _ & _ & H6).
  destruct (H6 _ eq_refl) as (_ & H8 & H9 & H10).
  exists (snd run). split; [exact Hrun|].
  split; [exact H1|]. split; [exact H8|].
  split; [exact H9|]. apply H10; [discriminate | reflexivity].
Defined.

Lemma save_loop_app E dir (a b : list Types.ParsedPart) : forall paths w,
  save_loop E dir (a ++ b)%list paths w =
  match save_loop E dir a paths w with
  | (Done ps, w1) => save_loop E dir b ps w1
  | (Exited c, w1) => (Exited c, w1)
  | (Thrown e, w1) => (Thrown e, w1)
  end.
Proof.
  induction a as [|img a IH]; intros paths w; [reflexivity|].
  cbn [app]. rewrite !PersisterFacts.save_loop_step. cbv zeta.
  destruct (Types.data img) as [d|]; [|reflexivity].
  destruct (write_error E _); [reflexivity|]. apply IH.
Qed.

(** An Image fragment without data stops the persist call with an
    exception when its turn comes: if the target directory is ready and
    the writes of the images before it are accepted, these images are on
    disk and reported, the clock was read for the failing image, and the
    images after it are not written. *)
Theorem saveImages_missing_data E parts dir w
    (pre : list Types.ParsedPart) bad post :
  images_of parts = (pre ++ bad :: post)%list ->
  Forall has_data pre ->
  Types.data bad = None ->
  dir_ready E dir w ->
  writes_accepted E (saved_paths E dir (ticks w) 0 pre) ->
  let written := saved_paths E dir (ticks w) 0 pre in
  exists e w',
    saveImages E parts dir w = (Thrown e, w')
    /\ files w' = write_files (files w)
                    (zip written (map (image_bytes E) pre))
    /\ stderr w' = (stderr w ++ map (String.append "Saved: ") written)%list
    /\ stdout w' = stdout w
    /\ ticks w' = S (ticks w + length pre).
Proof.
  intros Himgs Hpre Hbad Hdir Hacc written.
  rewrite PersisterFacts.saveImages_step_nonempty
    by (rewrite Himgs; by destruct pre).
  rewrite Himgs.
  assert (Hloop : forall w0, ticks w0 = ticks w -> files w0 = files w ->
            stderr w0 = stderr w -> stdout w0 = stdout w ->
            exists e w',
              save_loop E dir (pre ++ bad :: post)%list [] w0 = (Thrown e, w')
              /\ files w' = write_files (files w)
                              (zip written (map (image_bytes E) pre))
              /\ stderr w'
                 = (stderr w ++ map (String.append "Saved: ") written)%list
              /\ stdout w' = stdout w
              /\ ticks w' = S (ticks w + length pre)).
  { intros w0 Ht Hf He Ho. rewrite save_loop_app.
    rewrite PersisterFacts.save_loop_run
      by (try assumption; rewrite Ht; exact Hacc).
    cbv beta iota zeta. rewrite PersisterFacts.save_loop_step. cbv zeta.
    rewrite Hbad. eexists. eexists. split; [reflexivity|]. cbn.
    unfold written. rewrite Ht, Hf, He, Ho. by repeat split. }
  destruct Hdir as [_ Hdir].
  destruct (bool_decide (is_Some (files w !! dir))
            || bool_decide (dir ∈ dirs w)) eqn:Hex.
  - by apply Hloop.
  - apply orb_false_iff in Hex as [_ Hin].
    apply bool_decide_eq_false in Hin.
    destruct Hdir as [?|Hmk]; [tauto|]. rewrite Hmk. by apply Hloop.
Qed.

Lemma saveImages_missing_data_witness :
  exists e w',
    saveImages (Samples.env Samples.ticking_clock Samples.clipboard_without_image)
      [Samples.image_part "image/png" "AAAA";
       mkParsed Types.image "" (Some "image/gif") None;
       Samples.image_part "image/jpeg" "AAAA"] "out" Samples.empty_world
    = (Thrown e, w')
    /\ stderr w' = ["Saved: out/imgx-1000-0.png"]
    /\ ticks w' = 2%nat.
Proof.
  destruct (saveImages_missing_data
              (Samples.env Samples.ticking_clock Samples.clipboard_without_image)
              [Samples.image_part "image/png" "AAAA";
               mkParsed Types.image "" (Some "image/gif") None;
               Samples.image_part "image/jpeg" "AAAA"] "out"
              Samples.empty_world
              [Samples.image_part "image/png" "AAAA"]
              (mkParsed Types.image "" (Some "image/gif") None)
              [Samples.image_part "image/jpeg" "AAAA"])
    as (e & w' & H1 & _ & H3 & _ & H5).
  - reflexivity.
  - repeat constructor. eexists; reflexivity.
  - reflexivity.
  - split; [reflexivity | right; reflexivity].
  - repeat constructor.
  - exists e, w'. split; [exact H1|]. split; [exact H3 | exact H5].
Defined.

(** Whatever the service answers, persisting the classified fragments
    never fails for want of data, the classifier emitting no Image
    fragment without data: the call writes nothing to the primary output
    stream, never ends the process, throws only the error of a refused
    directory creation or of a refused write at one of its paths, and
    otherwise returns one path per image; it completes whenever the
    target directory is ready and the writes are accepted. *)
Theorem saveImages_of_response E r dir w :
  (forall res w',
      saveImages E (parseResponse r) dir w = (res, w') ->
      stdout w' = stdout w
      /\ match res with
         | Done paths => length paths = length (images_of (parseResponse r))
         | Exited _ => False
         | Thrown e =>
             mkdir_error E dir = Some e
             \/ exists p,
                  p ∈ saved_paths E dir (ticks w) 0
                        (images_of (parseResponse r))
                  /\ write_error E p = Some e
         end)
  /\ (dir_ready E dir w ->
      writes_accepted E
        (saved_paths E dir (ticks w) 0 (images_of (parseResponse r))) ->
      exists paths w',
        saveImages E (parseResponse r) dir w = (Done paths, w')
        /\ length paths = length (images_of (parseResponse r))).
Proof.
  split.
  - intros res w' Hrun.
    pose proof (PersisterFacts.saveImages_any _ _ _ _ _ _ Hrun)
      as (Ho & _ & _ & _ & Hr).
    split; [exact Ho|]. destruct res as [paths|c|e]; [|exact Hr|].
    + apply PersisterFacts.saveImages_done in Hrun as (-> & _).
      unfold saved_paths. apply length_imap.
    + destruct Hr as [(img & Hin & Hnone)|[Hw|Hm]]; [|by right|by left].
      exfalso.
      pose proof (ClassifierFacts.parseResponse_images_have_data r) as Hall.
      rewrite Forall_forall in Hall. destruct (Hall img Hin) as [d Hd].
      congruence.
  - intros Hdir Hacc.
    destruct (PersisterFacts.saveImages_run E (parseResponse r) dir w)
      as (w' & Hrun & _);
      [apply ClassifierFacts.parseResponse_images_have_data
      |assumption..|].
    eexists _, w'. split; [exact Hrun|]. unfold saved_paths.
    apply length_imap.
Qed.

Lemma saveImages_of_response_witness :
  exists paths w',
    saveImages (Samples.env Samples.ticking_clock Samples.clipboard_without_image)
      (parseResponse (Samples.mockResponse Samples.six_elements)) "out"
      Samples.empty_world = (Done paths, w')
    /\ length paths = 1%nat /\ stdout w' = [].
Proof.
  destruct (saveImages_of_response
              (Samples.env Samples.ticking_clock Samples.clipboard_without_image)
              (Samples.mockResponse Samples.six_elements) "out"
              Samples.empty_world) as [Hany Hrun].
  destruct Hrun as (paths & w' & Hr & Hlen).
  - split; [reflexivity | right; reflexivity].
  - repeat constructor.
  - exists paths, w'. split; [exact Hr|]. split; [exact Hlen|].
    exact (proj1 (Hany _ _ Hr)).
Defined.

End OutputMore.

(** ** File names within one persist call *)

Module NamingFacts.
Import Runtime Output.

Lemma digit_char (x : N) :
  Notions.digits (String (pretty_N_char x) "") = true.
Proof. unfold pretty_N_char. by repeat case_match. Qed.

Lemma digits_go (x : N) : forall s,
  Notions.digits s = true -> Notions.digits (pretty_N_go x s) = true.
Proof.
  induction (N.lt_wf_0 x) as [x _ IH]. intros s Hs.
  destruct (decide (x = 0%N)) as [->|Hx]; [by rewrite pretty_N_go_0|].
  rewrite pretty_N_go_step by lia. apply IH.
  - apply N.div_lt; lia.
  - pose proof (digit_char (x `mod` 10)) as Hc.
    cbn [Notions.digits] in *. cbv zeta in *.
    rewrite andb_true_r in Hc. by rewrite Hc.
Qed.

Lemma digits_pretty_N (x : N) : Notions.digits (pretty x) = true.
Proof.
  unfold pretty, pretty_N. case_decide; [reflexivity|]. by apply digits_go.
Qed.

Lemma pretty_N_nonempty (x : N) : pretty x <> "".
Proof.
  unfold pretty, pretty_N. case_decide; [discriminate|].
  rewrite pretty_N_go_step by lia.
  assert (Hlen : forall y s, (String.length s
                              <= String.length (pretty_N_go y s))%nat).
  { intros y. induction (N.lt_wf_0 y) as [y _ IH]. intros s.
    destruct (decide (y = 0%N)) as [->|Hy]; [by rewrite pretty_N_go_0|].
    rewrite pretty_N_go_step by lia.
    etrans; [|apply IH; apply N.div_lt; lia]. simpl. lia. }
  intros Heq. specialize (Hlen (x `div` 10)%N
                            (String (pretty_N_char (x `mod` 10)) "")).
  rewrite Heq in Hlen. simpl in Hlen. lia.
Qed.

(** A digit is neither a dash, nor a dot, nor a slash. *)
Lemma digits_lacks (c : ascii) (s : string) :
  c = "-"%char \/ c = "."%char \/ c = "/"%char ->
  Notions.digits s = true -> JS.lacks c s = true.
Proof.
  intros Hc. induction s as [|d s IH]; [reflexivity|].
  cbn [Notions.digits JS.lacks]. cbv zeta.
  intros [[H1 H2]%andb_true_iff Hs]%andb_true_iff.
  rewrite IH by assumption. rewrite andb_true_r.
  apply negb_true_iff, Ascii.eqb_neq. intros ->.
  destruct Hc as [->|[->| ->]]; vm_compute in H1; discriminate H1.
Qed.

(** Two strings cut at the first occurrence of a character agree on both
    sides of the cut. *)
Lemma cut_at (c : ascii) (a a' r r' : string) :
  JS.lacks c a = true -> JS.lacks c a' = true ->
  a ++ String c r = a' ++ String c r' -> a = a' /\ r = r'.
Proof.
  revert a'. induction a as [|x a IH]; intros [|y a'] Ha Ha' Heq.
  - by injection Heq as ->.
  - change (String c r = String y (a' ++ String c r')) in Heq.
    injection Heq as -> _. simpl in Ha'. by rewrite Ascii.eqb_refl in Ha'.
  - change (String x (a ++ String c r) = String c r') in Heq.
    injection Heq as -> _. simpl in Ha. by rewrite Ascii.eqb_refl in Ha.
  - change (String x (a ++ String c r) = String y (a' ++ String c r')) in Heq.
    injection Heq as -> Heq. simpl in Ha, Ha'.
    apply andb_true_iff in Ha as [_ Ha]. apply andb_true_iff in Ha' as [_ Ha'].
    destruct (IH a' Ha Ha' Heq) as [-> ->]. done.
Qed.

(** A printed integer is a run of digits, after a dash when negative. *)
Lemma pretty_Z_shape (t : Z) :
  exists D, Notions.digits D = true /\ D <> ""
            /\ (pretty t = D \/ pretty t = String "-" D).
Proof.
  destruct t as [|p|p].
  - exists "0". by repeat split; [|left].
  - exists (pretty (N.pos p)).
    split; [apply digits_pretty_N|]. split; [apply pretty_N_nonempty|].
    by left.
  - exists (pretty (N.pos p)).
    split; [apply digits_pretty_N|]. split; [apply pretty_N_nonempty|].
    by right.
Qed.

Lemma digits_head (D : string) (r : string) :
  Notions.digits D = true -> D <> "" ->
  forall s, D ++ r = String "-" s -> False.
Proof.
  destruct D as [|c D]; [done|]. intros Hd _ s Heq.
  change (String c (D ++ r) = String "-" s) in Heq.
  injection Heq as -> _. discriminate Hd.
Qed.

(** The name of a saved image determines its index. *)
Lemma image_filename_index (t t' : Z) (i j : nat) (e e' : string) :
  image_filename t i e = image_filename t' j e' -> i = j.
Proof.
  unfold image_filename. intros Heq.
  apply (inj (String.app "imgx-")) in Heq.
  change ("-" ++ pretty i ++ "." ++ e)
    with (String "-" (pretty i ++ String "." e)) in Heq.
  change ("-" ++ pretty j ++ "." ++ e')
    with (String "-" (pretty j ++ String "." e')) in Heq.
  assert (Hrest : pretty i ++ String "." e = pretty j ++ String "." e').
  { destruct (pretty_Z_shape t) as (D & HD & HDne & [Ht|Ht]);
      destruct (pretty_Z_shape t') as (D' & HD' & HDne' & [Ht'|Ht']);
      rewrite Ht, Ht' in Heq.
    - apply cut_at in Heq as [_ H]; [exact H| |];
        apply digits_lacks; auto.
    - symmetry in Heq.
      change (String "-" D' ++ String "-" (pretty j ++ String "." e'))
        with (String "-" (D' ++ String "-" (pretty j ++ String "." e')))
        in Heq.
      symmetry in Heq. destruct (digits_head D _ HD HDne _ Heq).
    - change (String "-" D ++ String "-" (pretty i ++ String "." e))
        with (String "-" (D ++ String "-" (pretty i ++ String "." e)))
        in Heq.
      symmetry in Heq. destruct (digits_head D' _ HD' HDne' _ Heq).
    - change (String "-" D ++ String "-" (pretty i ++ String "." e))
        with (String "-" (D ++ String "-" (pretty i ++ String "." e)))
        in Heq.
      change (String "-" D' ++ String "-" (pretty j ++ String "." e'))
        with (String "-" (D' ++ String "-" (pretty j ++ String "." e')))
        in Heq.
      injection Heq as Heq.
      apply cut_at in Heq as [_ H]; [exact H| |];
        apply digits_lacks; auto. }
  apply cut_at in Hrest as [Hij _].
  - by apply (inj pretty) in Hij.
  - apply digits_lacks; [auto|]. apply digits_pretty_N.
  - apply digits_lacks; [auto|]. apply digits_pretty_N.
Qed.

Lemma lacks_app (c : ascii) (a b : string) :
  JS.lacks c (a ++ b) = JS.lacks c a && JS.lacks c b.
Proof.
  induction a as [|x a IH]; [reflexivity|].
  change (JS.lacks c (String x (a ++ b))
          = JS.lacks c (String x a) && JS.lacks c b).
  cbn [JS.lacks]. by rewrite IH, andb_assoc.
Qed.

Lemma lacks_skip (c : ascii) (n : nat) (s : string) :
  JS.lacks c s = true -> JS.lacks c (JS.skip n s) = true.
Proof.
  revert s. induction n as [|n IH]; intros [|x s] H; try exact H.
  simpl. apply IH. simpl in H. by apply andb_true_iff in H as [_ H].
Qed.

Lemma lacks_replace (c : ascii) (pat rep s : string) :
  JS.lacks c rep = true -> JS.lacks c s = true ->
  JS.lacks c (JS.replace pat rep s) = true.
Proof.
  intros Hrep. induction s as [|x s IH]; intros Hs.
  - cbn [JS.replace]. destruct (String.prefix pat ""); [|reflexivity].
    rewrite lacks_app, Hrep. by rewrite lacks_skip.
  - cbn [JS.replace]. destruct (String.prefix pat (String x s)).
    + rewrite lacks_app, Hrep. by rewrite lacks_skip.
    + cbn [JS.lacks] in *. apply andb_true_iff in Hs as [Hx Hs].
      by rewrite Hx, IH.
Qed.

Lemma split_segments (sep : ascii) (s : string) :
  Forall (fun x => JS.lacks sep x = true) (JS.split sep s).
Proof.
  induction s as [|c s IH]; [by repeat constructor|].
  cbn [JS.split]. destruct (Ascii.eqb c sep) eqn:Hc.
  - by constructor.
  - destruct (JS.split sep s) as [|h t].
    + repeat constructor. simpl. by rewrite Hc.
    + apply Forall_cons in IH as [Hh Ht]. constructor; [|exact Ht].
      simpl. by rewrite Hc, Hh.
Qed.

Lemma extension_lacks_slash (mimeType : option string) :
  JS.lacks "/" (extension mimeType) = true.
Proof.
  unfold extension. destruct mimeType as [m|]; [|reflexivity].
  destruct (JS.split "/" m !! 1%nat) as [sub|] eqn:Hsub; [|reflexivity].
  apply lacks_replace; [reflexivity|].
  pose proof (split_segments "/" m) as Hall.
  rewrite Forall_forall in Hall. apply Hall.
  by apply list_elem_of_lookup_2 in Hsub.
Qed.

Lemma pretty_Z_lacks_slash (t : Z) : JS.lacks "/" (pretty t) = true.
Proof.
  destruct (pretty_Z_shape t) as (D & HD & _ & [->| ->]).
  - apply digits_lacks; auto.
  - cbn [JS.lacks]. rewrite digits_lacks by auto. reflexivity.
Qed.

(** The name under which an image is saved never holds a path separator,
    whatever the clock shows and whatever MIME type the service sent: the
    extension is one segment of the type between slashes. *)
Theorem image_filename_no_separator (t : Z) (i : nat)
    (mimeType : option string) :
  JS.lacks "/" (image_filename t i (extension mimeType)) = true.
Proof.
  unfold image_filename.
  rewrite !lacks_app, extension_lacks_slash, pretty_Z_lacks_slash.
  rewrite (digits_lacks "/" (pretty i)); [reflexivity | auto |].
  apply digits_pretty_N.
Qed.

Lemma saved_paths_NoDup E dir t0 k imgs :
  Notions.join_separates E dir ->
  NoDup (saved_paths E dir t0 k imgs).
Proof.
  intros Hinj. apply NoDup_alt. intros i j p Hi Hj.
  unfold saved_paths in *. rewrite list_lookup_imap in Hi, Hj.
  destruct (imgs !! i) as [x|]; [|discriminate].
  destruct (imgs !! j) as [y|]; [|discriminate].
  simpl in Hi, Hj. injection Hi as <-. injection Hj as Hj.
  unfold saved_path in Hj. apply Hinj in Hj.
  - apply image_filename_index in Hj. lia.
  - by eexists _, _, _.
  - by eexists _, _, _.
Qed.

Lemma write_files_notin f (l : list (string * list byte)) (p : string) :
  p ∉ l.*1 -> write_files f l !! p = f !! p.
Proof.
  revert f. induction l as [|[q b] l IH]; intros f Hp; [reflexivity|].
  rewrite PersisterFacts.write_files_cons. simpl in Hp.
  apply not_elem_of_cons in Hp as [Hne Hp].
  rewrite IH by assumption. by rewrite lookup_insert_ne.
Qed.

Lemma write_files_lookup f (l : list (string * list byte)) i p b :
  NoDup l.*1 -> l !! i = Some (p, b) -> write_files f l !! p = Some b.
Proof.
  revert f i. induction l as [|[q c] l IH]; intros f i Hnd Hi;
    [discriminate|].
  rewrite PersisterFacts.write_files_cons. simpl in Hnd.
  apply NoDup_cons in Hnd as [Hq Hnd].
  destruct i as [|i]; simpl in Hi.
  - injection Hi as -> ->. rewrite write_files_notin by assumption.
    apply lookup_insert_eq.
  - by apply (IH _ i).
Qed.

Lemma lookup_zip_pair {A B} (l : list A) (k : list B) i x y :
  l !! i = Some x -> k !! i = Some y -> zip l k !! i = Some (x, y).
Proof.
  revert k i. induction l as [|a l IH]; intros [|b k] [|i] Hl Hk;
    simplify_eq/=; [reflexivity|]. by apply IH.
Qed.

Lemma fst_zip_same {A B} (l : list A) (k : list B) :
  length l = length k -> (zip l k).*1 = l.
Proof.
  revert k. induction l as [|a l IH]; intros [|b k] Hlen;
    simplify_eq/=; [reflexivity|]. f_equal. by apply IH.
Qed.

(** Within one persist call no image overwrites another.  Provided
    [path.join] sends distinct file names of the persister to distinct
    paths, the paths of a call that completes are pairwise distinct,
    whatever the clock shows and whatever the MIME types are, because
    each name carries the index of its image; every image is then found
    at its own path, and a file at any other path is as it was before.
    Such a call completes when every image carries data, the target
    directory is ready and the writes are accepted. *)
Theorem saveImages_no_overwrite E parts dir w :
  Notions.join_separates E dir ->
  (forall paths w',
      saveImages E parts dir w = (Done paths, w') ->
      NoDup paths
      /\ (forall i img,
            images_of parts !! i = Some img ->
            exists p, paths !! i = Some p
                      /\ files w' !! p = Some (image_bytes E img))
      /\ (forall p, p ∉ paths -> files w' !! p = files w !! p))
  /\ (Forall has_data (images_of parts) ->
      dir_ready E dir w ->
      writes_accepted E (saved_paths E dir (ticks w) 0 (images_of parts)) ->
      exists paths w',
        saveImages E parts dir w = (Done paths, w') /\ NoDup paths).
Proof.
  intros Hinj. split.
  - intros paths w' Hrun.
    apply PersisterFacts.saveImages_done in Hrun as (Hp & Hf & _).
    set (imgs := images_of parts) in *.
    assert (Hlen : length paths = length (map (image_bytes E) imgs)).
    { rewrite Hp. unfold saved_paths. by rewrite length_imap, length_map. }
    assert (Hnd : NoDup paths) by (rewrite Hp; by apply saved_paths_NoDup).
    split; [exact Hnd|]. split.
    + intros i img Hi.
      assert (Hpi : paths !! i = Some (saved_path E dir (ticks w) 0 i img)).
      { rewrite Hp. unfold saved_paths. by rewrite list_lookup_imap, Hi. }
      eexists. split; [exact Hpi|]. rewrite Hf.
      apply (write_files_lookup _ _ i).
      * by rewrite fst_zip_same.
      * apply lookup_zip_pair; [exact Hpi|].
        by rewrite list_lookup_fmap, Hi.
    + intros p Hnotin. rewrite Hf. apply write_files_notin.
      by rewrite fst_zip_same.
  - intros Hd Hdir Hacc.
    destruct (PersisterFacts.saveImages_run E parts dir w Hd Hdir Hacc)
      as (w' & Hrun & _).
    eexists _, w'. split; [exact Hrun|]. by apply saved_paths_NoDup.
Qed.

Lemma posix_join_separates (dir : string) :
  Notions.join_separates
    (Samples.env Samples.frozen_clock Samples.clipboard_without_image) dir.
Proof.
  intros a b _ _ H. simpl in H. unfold Samples.posix_join in H.
  apply (inj (String.app dir)) in H. by apply (inj (String.app "/")) in H.
Qed.

Lemma saveImages_no_overwrite_witness :
  exists w',
    saveImages (Samples.env Samples.frozen_clock Samples.clipboard_without_image)
      Samples.two_images "out" Samples.empty_world
    = (Done ["out/imgx-1000-0.png"; "out/imgx-1000-1.jpg"], w')
    /\ NoDup ["out/imgx-1000-0.png"; "out/imgx-1000-1.jpg"]
    /\ files w' !! "out/imgx-1000-0.png" = Some [x00; x00; x00].
Proof.
  set (run := saveImages
                (Samples.env Samples.frozen_clock
                   Samples.clipboard_without_image)
                Samples.two_images "out" Samples.empty_world).
  assert (Hrun : run = (Done ["out/imgx-1000-0.png"; "out/imgx-1000-1.jpg"],
                        snd run)) by (vm_compute; reflexivity).
  destruct (saveImages_no_overwrite
              (Samples.env Samples.frozen_clock Samples.clipboard_without_image)
              Samples.two_images "out" Samples.empty_world
              (posix_join_separates "out")) as [Hdone _].
  destruct (Hdone _ _ Hrun) as (Hnd & Hfiles & _).
  exists (snd run). split; [exact Hrun|]. split; [exact Hnd|].
  destruct (Hfiles 0%nat (Samples.image_part "image/png" "AAAA") eq_refl)
    as (p & Hp & Hf).
  injection Hp as <-. exact Hf.
Defined.

End NamingFacts.

(** ** The two commands *)

Module CommandFacts.
Import Runtime Output Commands.

(** Persisting and then rendering the fragments of a response, under a
    handler of exceptions: the rendering follows a completed persist
    call, and the handler takes over when the persist call throws. *)
Lemma handle_response E r opts (handler : string -> M unit) w :
  try_catch
    (saveImages E (parseResponse r) (Types.images opts) ;;;
     formatOutput (parseResponse r) opts) handler w
  = match saveImages E (parseResponse r) (Types.images opts) w with
    | (Done _, w2) =>
        (Done tt, add_stdout (rendered (mode_of opts) (parseResponse r)) w2)
    | (Exited c, w2) => (Exited c, w2)
    | (Thrown e, w2) => handler e w2
    end.
Proof.
  unfold try_catch, bind.
  destruct (saveImages E (parseResponse r) (Types.images opts) w)
    as [[paths|c|e] w2]; try reflexivity.
  by rewrite RendererFacts.formatOutput_rendered.
Qed.

(** A persist call never ends the process. *)
Lemma saveImages_no_exit E parts dir w c w' :
  saveImages E parts dir w <> (Exited c, w').
Proof.
  intros H. apply PersisterFacts.saveImages_any in H. tauto.
Qed.

Lemma createClient_run (apiKey : option string) (S : Service) (w : World) :
  createClient apiKey S w =
  if JS.truthy apiKey then (Done S, w)
  else (Exited 2,
        add_stderr
          ["Error: GEMINI_API_KEY environment variable is required.";
           "Get your key at: https://aistudio.google.com/apikey"] w).
Proof.
  unfold createClient. destruct (JS.truthy apiKey); [reflexivity|].
  unfold bind, console_error, exit. cbn [negb].
  by rewrite LoaderMore.add_stderr_app.
Qed.

(** With fewer than two arguments the analyze command ends the process
    with the input-error code after its two usage lines, before it looks
    for the API key, loads anything or contacts the service. *)
Theorem analyzeCommand_usage E S apiKey loads args opts w :
  (length args < 2)%nat ->
  analyzeCommand E S apiKey loads args opts w
  = (Exited 2,
     add_stderr
       ["Error: Need at least one image and a prompt.";
        "Usage: imgx analyze <image...> " ++ quote ++ "<prompt>" ++ quote]
       w).
Proof.
  intros Hlen. unfold analyzeCommand.
  replace (length args <? 2)%nat with true
    by (symmetry; apply Nat.ltb_lt; lia).
  unfold bind, console_error, exit.
  by rewrite LoaderMore.add_stderr_app.
Qed.

Lemma analyzeCommand_usage_witness :
  analyzeCommand
    (Samples.env Samples.frozen_clock Samples.clipboard_without_image)
    (Notions.constant_service (ServiceRejected "unreachable")) None
    (Notions.constant_loads []) ["photo.jpg"]
    (Samples.options false false false false) Samples.empty_world
  = (Exited 2,
     add_stderr
       ["Error: Need at least one image and a prompt.";
        "Usage: imgx analyze <image...> " ++ quote ++ "<prompt>" ++ quote]
       Samples.empty_world).
Proof. apply analyzeCommand_usage. simpl. lia. Defined.

(** Without an API key (unset or empty) neither command loads an image
    or contacts the service: the process ends with the input-error code
    after the two lines that ask for the key. *)
Theorem commands_need_key E S apiKey loads args imageSource prompt opts w :
  JS.truthy apiKey = false ->
  ((2 <= length args)%nat ->
   analyzeCommand E S apiKey loads args opts w
   = (Exited 2,
      add_stderr
        ["Error: GEMINI_API_KEY environment variable is required.";
         "Get your key at: https://aistudio.google.com/apikey"] w))
  /\ chatCommand E S apiKey imageSource prompt opts w
     = (Exited 2,
        add_stderr
          ["Error: GEMINI_API_KEY environment variable is required.";
           "Get your key at: https://aistudio.google.com/apikey"] w).
Proof.
  intros Hkey. split.
  - intros Hlen. unfold analyzeCommand.
    replace (length args <? 2)%nat with false
      by (symmetry; apply Nat.ltb_ge; lia).
    unfold bind at 1. unfold ret at 1. unfold bind at 1.
    by rewrite createClient_run, Hkey.
  - unfold chatCommand. unfold bind at 1.
    by rewrite createClient_run, Hkey.
Qed.

Lemma commands_need_key_witness :
  chatCommand
    (Samples.env Samples.frozen_clock Samples.clipboard_without_image)
    (Notions.constant_service (ServiceRejected "unreachable")) (Some "")
    "photo.jpg" None (Samples.options false false false false)
    Samples.empty_world
  = (Exited 2,
     add_stderr
       ["Error: GEMINI_API_KEY environment variable is required.";
        "Get your key at: https://aistudio.google.com/apikey"]
       Samples.empty_world).
Proof.
  apply (commands_need_key
           (Samples.env Samples.frozen_clock Samples.clipboard_without_image)
           (Notions.constant_service (ServiceRejected "unreachable"))
           (Some "") (Notions.constant_loads []) []).
  reflexivity.
Defined.

(** The analyze command with one image source and a prompt, once the
    image is loaded: the request holds the payload of the image followed
    by the prompt as text.  When the service rejects it, the process
    ends with the API-error code after one diagnostic and nothing is
    written or rendered.  When the service answers, the images of the
    answer are persisted first: if that completes, the fragments are
    rendered and the command returns; if it throws, the process ends
    with the API-error code after the diagnostic of that exception, and
    nothing is rendered. *)
Theorem analyzeCommand_outcome E S apiKey source prompt opts w part w1 :
  JS.truthy apiKey = true ->
  Input.loadImagePart E source w = (Done part, w1) ->
  match generateContent S (Types.model opts) [part; text_part prompt] with
  | ServiceRejected message =>
      analyzeCommand E S apiKey (load_each E) [source; prompt] opts w
      = (Exited 1, add_stderr ["API Error: " ++ message] w1)
  | ServiceResolved r =>
      match saveImages E (parseResponse r) (Types.images opts) w1 with
      | (Done _, w2) =>
          analyzeCommand E S apiKey (load_each E) [source; prompt] opts w
          = (Done tt,
             add_stdout (rendered (mode_of opts) (parseResponse r)) w2)
      | (Thrown e, w2) =>
          analyzeCommand E S apiKey (load_each E) [source; prompt] opts w
          = (Exited 1, add_stderr ["API Error: " ++ e] w2)
      | (Exited _, _) => False
      end
  end.
Proof.
  intros Hkey Hload.
  assert (Hrun : analyzeCommand E S apiKey (load_each E) [source; prompt]
                   opts w =
            try_catch
              (response <- await_service
                             (generateContent S (Types.model opts)
                                [part; text_part prompt]) ;;
               saveImages E (parseResponse response) (Types.images opts) ;;;
               formatOutput (parseResponse response) opts)
              (fun err => console_error ("API Error: " ++ err) ;;;
                          exit Types.EXIT_API_ERROR) w1).
  { unfold analyzeCommand.
    change (length [source; prompt] <? 2)%nat with false. cbv iota.
    unfold bind at 1. unfold ret at 1. unfold bind at 1.
    rewrite createClient_run, Hkey. unfold bind at 1.
    change (all_but_last [source; prompt]) with [source].
    cbn [load_each]. unfold bind at 1. rewrite Hload.
    reflexivity. }
  rewrite Hrun. clear Hrun.
  destruct (generateContent S _ _) as [r|message]; [|reflexivity].
  change (try_catch
            (response <- await_service (ServiceResolved r) ;;
             saveImages E (parseResponse response) (Types.images opts) ;;;
             formatOutput (parseResponse response) opts)
            (fun err => console_error ("API Error: " ++ err) ;;;
                        exit Types.EXIT_API_ERROR) w1)
    with (try_catch
            (saveImages E (parseResponse r) (Types.images opts) ;;;
             formatOutput (parseResponse r) opts)
            (fun err => console_error ("API Error: " ++ err) ;;;
                        exit Types.EXIT_API_ERROR) w1).
  rewrite handle_response.
  destruct (saveImages E (parseResponse r) (Types.images opts) w1)
    as [[paths|c|e] w2] eqn:Hs; [reflexivity| |reflexivity].
  by apply saveImages_no_exit in Hs.
Qed.

Lemma analyzeCommand_outcome_witness :
  exists w2,
    analyzeCommand
      (Samples.env Samples.frozen_clock Samples.clipboard_without_image)
      (Notions.constant_service (ServiceResolved Notions.picture_response))
      (Some "key")
      (load_each
         (Samples.env Samples.frozen_clock Samples.clipboard_without_image))
      ["test.webp"; "What is this?"]
      (Samples.options false false false false) Samples.world_with_files
    = (Done tt, w2)
    /\ stdout w2 = ["Two charts."]
    /\ stderr w2 = ["Saved: ./imgx-1000-0.png"; "Saved: ./imgx-1000-1.jpg"].
Proof.
  pose proof (analyzeCommand_outcome
           (Samples.env Samples.frozen_clock Samples.clipboard_without_image)
           (Notions.constant_service (ServiceResolved Notions.picture_response))
           (Some "key") "test.webp" "What is this?"
           (Samples.options false false false false) Samples.world_with_files
           (Input.makePart (Input.toBase64 Samples.not_webp) "image/webp")
           Samples.world_with_files eq_refl) as H.
  specialize (H ltac:(vm_compute; reflexivity)).
  unfold Notions.constant_service in H. cbn [generateContent] in H.
  lazymatch type of H with
  | match ?run with _ => _ end =>
      assert (Hs : run = (Done ["./imgx-1000-0.png"; "./imgx-1000-1.jpg"],
                          snd run)) by (vm_compute; reflexivity);
      rewrite Hs in H
  end.
  cbv beta iota in H. eexists. split; [exact H|].
  split; vm_compute; reflexivity.
Defined.




(** The first turn of the chat command, once the image is loaded: the
    first message holds the image payload followed by the prompt, or by
    the stock opening sentence when no prompt was given.  When the
    service rejects it the process ends with the API-error code.  When
    it answers, the images are persisted first: if that completes, the
    fragments are rendered and the first prompt of the loop goes to the
    diagnostic stream; if it throws, the process ends with the API-error
    code after the diagnostic of that exception. *)
Theorem chatCommand_first_turn E S apiKey imageSource prompt opts w part w1 :
  JS.truthy apiKey = true ->
  Input.loadImagePart E imageSource w = (Done part, w1) ->
  match sendMessage S
          (MessageParts
             [part;
              text_part
                (match prompt with
                 | Some p => p
                 | None =>
                     "I've loaded this image. What would you like to know?"
                 end)]) with
  | ServiceRejected message =>
      chatCommand E S apiKey imageSource prompt opts w
      = (Exited 1, add_stderr ["API Error: " ++ message] w1)
  | ServiceResolved r =>
      match saveImages E (parseResponse r) (Types.images opts) w1 with
      | (Done _, w2) =>
          chatCommand E S apiKey imageSource prompt opts w
          = (Done tt,
             add_stderr [JS.nl ++ "imgx> "]
               (add_stdout (rendered (mode_of opts) (parseResponse r)) w2))
      | (Thrown e, w2) =>
          chatCommand E S apiKey imageSource prompt opts w
          = (Exited 1, add_stderr ["API Error: " ++ e] w2)
      | (Exited _, _) => False
      end
  end.
Proof.
  intros Hkey Hload.
  set (first := match prompt with
                | Some p => p
                | None => "I've loaded this image. What would you like to know?"
                end).
  assert (Hrun : chatCommand E S apiKey imageSource prompt opts w =
            (try_catch
               (firstResponse <- await_service
                                   (sendMessage S
                                      (MessageParts [part; text_part first])) ;;
                saveImages E (parseResponse firstResponse)
                  (Types.images opts) ;;;
                formatOutput (parseResponse firstResponse) opts)
               (fun err => console_error ("API Error: " ++ err) ;;;
                           exit Types.EXIT_API_ERROR) ;;; rl_prompt) w1).
  { unfold chatCommand. unfold bind at 1. rewrite createClient_run, Hkey.
    unfold bind at 1. rewrite Hload. unfold first. by destruct prompt. }
  rewrite Hrun. clear Hrun.
  destruct (sendMessage S _) as [r|message]; [|reflexivity].
  assert (Hw : (try_catch
                  (firstResponse <- await_service (ServiceResolved r) ;;
                   saveImages E (parseResponse firstResponse)
                     (Types.images opts) ;;;
                   formatOutput (parseResponse firstResponse) opts)
                  (fun err => console_error ("API Error: " ++ err) ;;;
                              exit Types.EXIT_API_ERROR) ;;; rl_prompt) w1
               = match try_catch
                         (saveImages E (parseResponse r) (Types.images opts) ;;;
                          formatOutput (parseResponse r) opts)
                         (fun err => console_error ("API Error: " ++ err) ;;;
                                     exit Types.EXIT_API_ERROR) w1 with
                 | (Done _, w3) => rl_prompt w3
                 | (Exited c, w3) => (Exited c, w3)
                 | (Thrown e, w3) => (Thrown e, w3)
                 end) by reflexivity.
  rewrite Hw, handle_response. clear Hw.
  destruct (saveImages E (parseResponse r) (Types.images opts) w1)
    as [[paths|c|e] w2] eqn:Hs; [reflexivity| |reflexivity].
  by apply saveImages_no_exit in Hs.
Qed.

Lemma chatCommand_first_turn_witness :
  chatCommand
    (Samples.env Samples.frozen_clock Samples.clipboard_with_image)
    (Notions.constant_service (ServiceRejected "quota exceeded"))
    (Some "key") "test.webp" None
    (Samples.options false false false false) Samples.world_with_files
  = (Exited 1,
     add_stderr ["API Error: quota exceeded"] Samples.world_with_files)
  /\ exists w2,
       chatCommand
         (Samples.env Samples.frozen_clock Samples.clipboard_with_image)
         (Notions.constant_service (ServiceResolved Notions.picture_response))
         (Some "key") "test.webp" (Some "Describe it.")
         (Samples.options false false false false) Samples.world_with_files
       = (Done tt, w2)
       /\ stdout w2 = ["Two charts."]
       /\ stderr w2 = ["Saved: ./imgx-1000-0.png"; "Saved: ./imgx-1000-1.jpg";
                       JS.nl ++ "imgx> "].
Proof.
  split.
  - apply (chatCommand_first_turn
             (Samples.env Samples.frozen_clock Samples.clipboard_with_image)
             (Notions.constant_service (ServiceRejected "quota exceeded"))
             (Some "key") "test.webp" None
             (Samples.options false false false false)
             Samples.world_with_files
             (Input.makePart (Input.toBase64 Samples.not_webp) "image/webp")
             Samples.world_with_files).
    + reflexivity.
    + vm_compute. reflexivity.
  - pose proof (chatCommand_first_turn
             (Samples.env Samples.frozen_clock Samples.clipboard_with_image)
             (Notions.constant_service
                (ServiceResolved Notions.picture_response))
             (Some "key") "test.webp" (Some "Describe it.")
             (Samples.options false false false false)
             Samples.world_with_files
             (Input.makePart (Input.toBase64 Samples.not_webp) "image/webp")
             Samples.world_with_files eq_refl) as H.
    specialize (H ltac:(vm_compute; reflexivity)).
    unfold Notions.constant_service in H. cbn [sendMessage] in H.
    lazymatch type of H with
    | match ?run with _ => _ end =>
        assert (Hs : run = (Done ["./imgx-1000-0.png"; "./imgx-1000-1.jpg"],
                            snd run)) by (vm_compute; reflexivity);
        rewrite Hs in H
    end.
    cbv beta iota in H. eexists. split; [exact H|].
    split; vm_compute; reflexivity.
Defined.

End CommandFacts.

(** ** From the loader to the persister *)

Module PipelineFacts.
Import Runtime Input.

Lemma lower_char_slash (c : ascii) :
  Ascii.eqb (JS.lower_char c) "/" = Ascii.eqb c "/".
Proof. destruct c as [[] [] [] [] [] [] [] []]; reflexivity. Qed.

Lemma lacks_slash_toLowerCase (s : string) :
  JS.lacks "/" (JS.toLowerCase s) = JS.lacks "/" s.
Proof.
  induction s as [|c s IH]; [reflexivity|]. simpl.
  by rewrite lower_char_slash, IH.
Qed.

(** The extension is sought in the whole path, not in its last segment:
    when the text after the last dot runs across a directory separator,
    as for a file without extension in a directory whose name holds a
    dot, nothing matches and the type is image/jpeg. *)
Theorem mimeFromExtension_directory_dot (pre e : string) :
  JS.no_dot e = true -> JS.lacks "/" e = false ->
  mimeFromExtension (pre ++ "." ++ e) = "image/jpeg".
Proof.
  intros He Hslash. rewrite LoaderFacts.mimeFromExtension_final by assumption.
  destruct (MIME_EXTENSIONS !! ("." ++ JS.toLowerCase e)) as [v|] eqn:Hl;
    [|reflexivity].
  exfalso. apply LoaderFacts.table_lookup in Hl.
  rewrite <- lacks_slash_toLowerCase in Hslash.
  change ("." ++ JS.toLowerCase e) with (String "." (JS.toLowerCase e)) in Hl.
  unfold extension_table in Hl. rewrite !elem_of_cons, elem_of_nil in Hl.
  repeat destruct Hl as [Hl|Hl]; try contradiction;
    injection Hl as Hk _; rewrite Hk in Hslash; discriminate Hslash.
Qed.

Lemma mimeFromExtension_directory_dot_witness :
  mimeFromExtension "scans.png/readme" = "image/jpeg".
Proof.
  apply (mimeFromExtension_directory_dot "scans" "png/readme"); reflexivity.
Defined.

Lemma encode_nonempty (bs : list byte) : bs <> [] -> Base64.encode bs <> "".
Proof. destruct bs as [|a [|b [|c l]]]; [done|discriminate..]. Qed.

(** An image file that was loaded and comes back unchanged as the only
    element of a response: the payload holds the MIME type found for the
    file and the encoding of its bytes, the response is classified as
    exactly one Image fragment with that MIME type and that data, and a
    persist call that completes has written one file, which holds byte
    for byte the buffer the loader read; the call completes when the
    target directory is ready and the write is accepted. *)
Theorem loaded_image_echo E source dir w buffer :
  source_kind source = File ->
  files w !! path_resolve E source = Some buffer ->
  buffer <> [] ->
  let m := file_mimeType buffer source in
  let part := makePart (toBase64 buffer) m in
  let p := path_join E dir
             (Output.image_filename (clock E (ticks w)) 0
                (Output.extension (Some m))) in
  loadImagePart E source w = (Done part, w)
  /\ Output.parseResponse (Samples.mockResponse [part])
     = [Output.Image (Some m) (toBase64 buffer)]
  /\ (forall paths w2,
        Output.saveImages E
          (Output.parseResponse (Samples.mockResponse [part])) dir w
        = (Done paths, w2) ->
        paths = [p] /\ files w2 !! p = Some buffer)
  /\ (Output.dir_ready E dir w -> write_error E p = None ->
      exists w2,
        Output.saveImages E
          (Output.parseResponse (Samples.mockResponse [part])) dir w
        = (Done [p], w2)
        /\ files w2 !! p = Some buffer).
Proof.
  intros Hkind Hfile Hne m part p.
  assert (Hparse : Output.parseResponse (Samples.mockResponse [part])
                   = [Output.Image (Some m) (toBase64 buffer)]).
  { rewrite ClassifierFacts.parseResponse_omap.
    change (Output.first_candidate_elements _) with [part] at 1.
    cbn [omap list_omap].
    unfold Output.fragment_of, Output.carried_text, Output.carried_code,
      Output.carried_result, Output.carried_image, part, makePart. simpl.
    case_decide as Hd; [|reflexivity].
    by destruct (encode_nonempty buffer Hne). }
  assert (Hdone : forall paths w2,
            Output.saveImages E [Output.Image (Some m) (toBase64 buffer)]
              dir w = (Done paths, w2) ->
            paths = [p] /\ files w2 !! p = Some buffer).
  { intros paths w2 Hrun.
    apply PersisterFacts.saveImages_done in Hrun as (Hpaths & Hfiles & _).
    assert (Hp : paths = [p]).
    { rewrite Hpaths. unfold Output.saved_paths, Output.images_of,
        Output.saved_path. simpl. by rewrite Nat.add_0_r. }
    split; [exact Hp|]. rewrite Hfiles, Hp.
    unfold Output.images_of, Output.write_files, Output.image_bytes. simpl.
    rewrite PersisterFacts.buffer_from_toBase64. apply lookup_insert_eq. }
  split.
  { rewrite DispatchFacts.loadImagePart_dispatch, Hkind. simpl.
    rewrite LoaderFacts.loadFromFile_run, Hfile. by case_decide. }
  split; [exact Hparse|]. rewrite Hparse. split; [exact Hdone|].
  intros Hdir Hacc.
  destruct (PersisterFacts.saveImages_run E
              [Output.Image (Some m) (toBase64 buffer)] dir w)
    as (w2 & Hrun & _).
  { repeat constructor. eexists; reflexivity. }
  { exact Hdir. }
  { unfold Output.saved_paths, Output.images_of, Output.saved_path. simpl.
    rewrite Nat.add_0_r. by repeat constructor. }
  destruct (Hdone _ _ Hrun) as [Hp Hf].
  exists w2. split; [by rewrite Hrun, Hp | exact Hf].
Qed.

Lemma loaded_image_echo_witness :
  loadImagePart
    (Samples.env Samples.frozen_clock Samples.clipboard_with_image)
    "test.webp" Samples.world_with_files
  = (Done (makePart (toBase64 Samples.not_webp) "image/webp"),
     Samples.world_with_files)
  /\ exists w2,
       Output.saveImages
         (Samples.env Samples.frozen_clock Samples.clipboard_with_image)
         (Output.parseResponse
            (Samples.mockResponse
               [makePart (toBase64 Samples.not_webp) "image/webp"]))
         "out" Samples.world_with_files
       = (Done ["out/imgx-1000-0.webp"], w2)
       /\ files w2 !! "out/imgx-1000-0.webp" = Some Samples.not_webp.
Proof.
  destruct (loaded_image_echo
              (Samples.env Samples.frozen_clock Samples.clipboard_with_image)
              "test.webp" "out" Samples.world_with_files Samples.not_webp)
    as (Hload & _ & _ & Hrun).
  - reflexivity.
  - vm_compute. reflexivity.
  - discriminate.
  - split; [exact Hload|]. apply Hrun.
    + split; [vm_compute; reflexivity | right; reflexivity].
    + reflexivity.
Defined.

End PipelineFacts.
